(** * Task Master: task store, status lifecycle, scheduler and history log

    A shallow embedding of the JavaScript scripts under
    [scripts/task-master] (complete.js, context-tracker.js, the
    next-task script that exports [startNextTask], the context script and
    chat.js), and the properties of the status lifecycle proved about it.

    Conventions of the embedding.
    - The two JSON documents ([tasks.json], [context.json]) are fields of a
      [World]; a file is absent, unparsable, or holds a document.
    - [fs.writeFileSync] throws when the file cannot be written; whether it
      can is a field of the world.
    - [new Date().toISOString()] reads a clock: the world holds the
      sequence of readings and the number of readings taken so far.
    - A script is a function from a world to an [Outcome]: a returned value
      with the new world, or [process.exit].
    - Console output and the derived, write-only [copilot-context.md] are
      not part of the world.
    - User-facing texts built from template literals are constructors of
      [Text]; each constructor names its template.
    - A string is held as the bytes of its UTF-8 encoding.
    - A number is an integer-valued double: arithmetic, [parseInt] and
      [toString] round and print as doubles do. *)

From Stdlib Require Import ZArith List String Ascii Bool Lia.
From Stdlib Require Import DecimalString DecimalPos.
Import ListNotations.

Open Scope string_scope.
Open Scope list_scope.
Open Scope Z_scope.

(** ** JavaScript primitives *)

Module JS.

(** A JavaScript number that is an integer-valued double or [NaN]
    ([None]).  The numbers [2^1024] and [-2^1024], which no finite double
    has, stand for [Infinity] and [-Infinity]. *)
Definition Number := option Z.

Definition NaN : Number := None.

Definition infinity : Z := 2 ^ 1024.

(** The double nearest to the non-negative integer [a], ties to even:
    up to [2^53] every integer is a double; above, 53 bits are kept; what
    reaches [2^1024] is [Infinity]. *)
Definition round_magnitude (a : Z) : Z :=
  if a <=? 2 ^ 53 then a
  else
    let e := Z.log2 a - 52 in
    let q := a / 2 ^ e in
    let r := a mod 2 ^ e in
    let half := 2 ^ (e - 1) in
    let m := if r <? half then q
             else if half <? r then q + 1
             else if Z.even q then q else q + 1 in
    Z.min (m * 2 ^ e) infinity.

(** The number that an operation returns whose exact result is the
    integer [z]. *)
Definition to_double (z : Z) : Z := Z.sgn z * round_magnitude (Z.abs z).

(** [Number.isSafeInteger(z)]. *)
Definition safe (z : Z) : Prop := Z.abs z < 2 ^ 53.

(** [a === b] on numbers: [NaN] equals nothing. *)
Definition num_eq (a b : Number) : bool :=
  match a, b with
  | Some x, Some y => Z.eqb x y
  | _, _ => false
  end.

(** [a - b]. *)
Definition num_sub (a b : Number) : Number :=
  match a, b with
  | Some x, Some y => Some (x - y)
  | _, _ => NaN
  end.

(** A value that is a number or a string, as a JSON id field can be. *)
Inductive Value :=
| VNum (n : Z)
| VStr (s : string).

(** [v === n] for a number [n]: no coercion, a string equals no number. *)
Definition value_eq_num (v : Value) (n : Number) : bool :=
  match v with
  | VNum x => num_eq (Some x) n
  | VStr _ => false
  end.

(** [v === s] for a string [s]. *)
Definition value_eq_str (v : Value) (s : string) : bool :=
  match v with
  | VNum _ => false
  | VStr x => String.eqb x s
  end.

(** White space and line terminators, which [parseInt] skips.  A string
    is held as the bytes of its UTF-8 encoding, so a character is one, two
    or three bytes here. *)

(** U+0009 to U+000D and U+0020. *)
Definition is_space (c : ascii) : bool :=
  let n := nat_of_ascii c in
  (Nat.eqb n 32 || Nat.eqb n 9 || Nat.eqb n 10 || Nat.eqb n 11
   || Nat.eqb n 12 || Nat.eqb n 13)%bool.

(** U+00A0, the bytes C2 A0. *)
Definition is_space2 (a b : ascii) : bool :=
  (Nat.eqb (nat_of_ascii a) 194 && Nat.eqb (nat_of_ascii b) 160)%bool.

(** U+1680 (E1 9A 80), U+2000 to U+200A, U+2028, U+2029 and U+202F
    (E2 80 80 to 8A, A8, A9, AF), U+205F (E2 81 9F), U+3000 (E3 80 80) and
    U+FEFF (EF BB BF). *)
Definition is_space3 (a b c : ascii) : bool :=
  let x := nat_of_ascii a in
  let y := nat_of_ascii b in
  let z := nat_of_ascii c in
  ((Nat.eqb x 225 && Nat.eqb y 154 && Nat.eqb z 128)
   || (Nat.eqb x 226 && Nat.eqb y 128
       && ((Nat.leb 128 z && Nat.leb z 138)
           || Nat.eqb z 168 || Nat.eqb z 169 || Nat.eqb z 175))
   || (Nat.eqb x 226 && Nat.eqb y 129 && Nat.eqb z 159)
   || (Nat.eqb x 227 && Nat.eqb y 128 && Nat.eqb z 128)
   || (Nat.eqb x 239 && Nat.eqb y 187 && Nat.eqb z 191))%bool.

(** The first byte of a white space character of two or three bytes. *)
Definition is_lead (a : ascii) : bool :=
  let x := nat_of_ascii a in
  (Nat.eqb x 194 || Nat.eqb x 225 || Nat.eqb x 226 || Nat.eqb x 227
   || Nat.eqb x 239)%bool.

Fixpoint skip_space (s : string) : string :=
  match s with
  | String a r1 =>
      if is_space a then skip_space r1
      else if is_lead a then
        match r1 with
        | String b r2 =>
            if is_space2 a b then skip_space r2
            else
              match r2 with
              | String c r3 => if is_space3 a b c then skip_space r3 else s
              | EmptyString => s
              end
        | EmptyString => s
        end
      else s
  | EmptyString => s
  end.

Definition digit10 (c : ascii) : option Z :=
  let n := nat_of_ascii c in
  if (Nat.leb 48 n && Nat.leb n 57)%bool then Some (Z.of_nat n - 48) else None.

Definition digit16 (c : ascii) : option Z :=
  let n := nat_of_ascii c in
  if (Nat.leb 48 n && Nat.leb n 57)%bool then Some (Z.of_nat n - 48)
  else if (Nat.leb 97 n && Nat.leb n 102)%bool then Some (Z.of_nat n - 87)
  else if (Nat.leb 65 n && Nat.leb n 70)%bool then Some (Z.of_nat n - 55)
  else None.

(** The longest prefix of digits of [s], read in [radix]; [acc] is [NaN]
    until a digit is seen. *)
Fixpoint digits (radix : Z) (val : ascii -> option Z) (acc : Number)
    (s : string) : Number :=
  match s with
  | EmptyString => acc
  | String c r =>
      match val c with
      | Some d =>
          digits radix val
            (Some (radix * match acc with Some a => a | None => 0 end + d)) r
      | None => acc
      end
  end.

Definition is_x (c : ascii) : bool :=
  (Nat.eqb (nat_of_ascii c) 120 || Nat.eqb (nat_of_ascii c) 88)%bool.

Definition unsigned (s : string) : Number :=
  match s with
  | String z (String x r) =>
      if (Nat.eqb (nat_of_ascii z) 48 && is_x x)%bool
      then digits 16 digit16 NaN r
      else digits 10 digit10 NaN s
  | _ => digits 10 digit10 NaN s
  end.

(** The integer that the numeral at the head of [s] denotes: white space,
    a sign, [0x] and hexadecimal digits, or decimal digits. *)
Definition numeral (s : string) : Number :=
  match skip_space s with
  | String c r =>
      if Nat.eqb (nat_of_ascii c) 45 then option_map Z.opp (unsigned r)
      else if Nat.eqb (nat_of_ascii c) 43 then unsigned r
      else unsigned (String c r)
  | EmptyString => NaN
  end.

(** [parseInt(s)] with no radix argument: the number for the numeral. *)
Definition parseInt (s : string) : Number :=
  option_map to_double (numeral s).

(** [parseInt(a)] for an argument that may be [undefined] or [null]:
    both give [NaN]. *)
Definition parseIntArg (a : option string) : Number :=
  match a with
  | Some s => parseInt s
  | None => NaN
  end.

(** [s.split(sep)] for a one-character separator: the first part and the
    remaining parts. *)
Fixpoint split (sep : ascii) (s : string) : string * list string :=
  match s with
  | EmptyString => (EmptyString, [])
  | String c r =>
      let (h, t) := split sep r in
      if Ascii.eqb c sep then (EmptyString, h :: t) else (String c h, t)
  end.

(** [s.includes(c)] for a one-character string. *)
Fixpoint includes (c : ascii) (s : string) : bool :=
  match s with
  | EmptyString => false
  | String d r => (Ascii.eqb d c || includes c r)%bool
  end.

(** The decimal numeral of an integer. *)
Definition decimal (n : Z) : string :=
  NilZero.string_of_int (Z.to_int n).

(** [n.toString()] for a number that is outside the safe integers: the
    fewest digits [s], [k] of them, with a power of ten [10^(n-k)], whose
    product is a number that rounds to [x]; among such, the product
    closest to [x], and the even [s] when two are as close. *)
Definition candidate (x n k s : Z) : option (Z * Z * Z) :=
  if ((10 ^ (k - 1) <=? s) && (s <? 10 ^ k)
      && (to_double (s * 10 ^ (n - k)) =? x))%bool
  then Some (Z.abs (s * 10 ^ (n - k) - x), s, n)
  else None.

Definition closer (a b : option (Z * Z * Z)) : option (Z * Z * Z) :=
  match a, b with
  | Some (da, sa, _), Some (db, _, _) =>
      if da <? db then a else if db <? da then b else if Z.even sa then a else b
  | Some _, None => a
  | None, _ => b
  end.

(** [x] has [n] decimal digits; [k] counts up from 1, and 17 digits are
    always enough. *)
Fixpoint shortest (x n k : Z) (fuel : nat) : Z * Z * Z :=
  match fuel with
  | O => (x, n, n)
  | S f =>
      let s := x / 10 ^ (n - k) in
      match closer (closer (candidate x n k s) (candidate x n k (s + 1)))
                   (candidate x (n + 1) k (10 ^ (k - 1))) with
      | Some (_, s, n') => (s, n', k)
      | None => shortest x n (k + 1) f
      end
  end.

Fixpoint zeros (n : nat) : string :=
  match n with
  | O => EmptyString
  | S m => String "0" (zeros m)
  end.

(** The digits followed by zeros up to [10^21], the exponent form from
    there on. *)
Definition render (s n k : Z) : string :=
  if n <=? 21 then (decimal s ++ zeros (Z.to_nat (n - k)%Z))%string
  else
    match decimal s with
    | String d rest =>
        String d ((if (k =? 1)%Z then EmptyString else String "." rest)
                  ++ "e+" ++ decimal (n - 1)%Z)%string
    | EmptyString => EmptyString
    end.

(** [n.toString()], which is also [String(n)] and the property key that
    [n] is converted to: the decimal numeral for a safe integer. *)
Definition toString (n : Z) : string :=
  let a := Z.abs n in
  if a <? 2 ^ 53 then decimal n
  else
    let body :=
      if infinity <=? a then "Infinity"
      else
        let '(s, n', k) := shortest a (Z.of_nat (String.length (decimal a))) 1 17 in
        render s n' k in
    if n <? 0 then String "-" body else body.

(** Truthiness of an optional string argument: [undefined] and the empty
    string are falsy. *)
Definition truthy (s : option string) : bool :=
  match s with
  | Some (String _ _) => true
  | _ => false
  end.

(** [Array.prototype.find]. *)
Definition find {A} (p : A -> bool) (l : list A) : option A :=
  List.find p l.

(** [Array.prototype.findIndex]; [None] is [-1]. *)
Fixpoint findIndex {A} (p : A -> bool) (l : list A) : option nat :=
  match l with
  | [] => None
  | x :: r => if p x then Some O else option_map S (findIndex p r)
  end.

(** [l[i]]; [None] is [undefined]. *)
Definition item {A} (l : list A) (i : nat) : option A := nth_error l i.

(** [l[i] = v] for an index within the array; the scripts assign only at
    an index that [findIndex] returned. *)
Fixpoint assign {A} (l : list A) (i : nat) (v : A) : list A :=
  match l, i with
  | [], _ => []
  | _ :: r, O => v :: r
  | x :: r, S j => x :: assign r j v
  end.

(** Mutation of the object that [find] returns: the first element
    satisfying [p] is changed in place by [f]. *)
Fixpoint mutate_found {A} (p : A -> bool) (f : A -> A) (l : list A) : list A :=
  match l with
  | [] => []
  | x :: r => if p x then f x :: r else x :: mutate_found p f r
  end.

(** [Array.prototype.sort(cmp)]: a stable sort.  A comparator result of
    [NaN] counts as [0]; [x] moves behind [y] only when [cmp x y > 0]. *)
Definition after (c : Number) : bool :=
  match c with
  | Some v => Z.ltb 0 v
  | None => false
  end.

Fixpoint insert {A} (cmp : A -> A -> Number) (x : A) (l : list A) : list A :=
  match l with
  | [] => [x]
  | y :: r => if after (cmp x y) then y :: insert cmp x r else x :: y :: r
  end.

Fixpoint sort {A} (cmp : A -> A -> Number) (l : list A) : list A :=
  match l with
  | [] => []
  | x :: r => insert cmp x (sort cmp r)
  end.

(** Truthiness of a value that is [null] ([None]) or a number: [null],
    [NaN] and [0] are falsy. *)
Definition truthy_number (v : option Number) : bool :=
  match v with
  | Some (Some n) => negb (Z.eqb n 0)
  | _ => false
  end.


End JS.

(** ** Data model ([tasks.json], [context.json]) *)

Module Data.

(** The [status] strings. *)
Inductive Status := pending | in_progress | done | deferred.

Definition status_eqb (a b : Status) : bool :=
  match a, b with
  | pending, pending | in_progress, in_progress
  | done, done | deferred, deferred => true
  | _, _ => false
  end.

(** An ISO timestamp, kept abstract. *)
Definition Time := nat.

Record Subtask := {
  sub_id : JS.Value;
  sub_title : string;
  sub_status : Status
}.

Record Task := {
  id : Z;
  title : string;
  description : string;
  status : Status;
  priority : Z;
  subtasks : list Subtask;
  created_at : Time;
  updated_at : Time
}.

Record TasksData := {
  project : string;
  version : string;
  tasks : list Task
}.

(** Texts built by the scripts; user-supplied text is [Lit]. *)
Inductive Text :=
| Lit (s : string)
| TxtProjectInit            (* "Инициализация проекта" *)
| TxtProjectInitialized     (* "Проект был инициализирован" *)
| TxtSubtaskDone (taskId : string) (subtaskTitle : string)
                            (* `Выполнена подзадача ${taskId} "${subtask.title}"` *)
| TxtAllSubtasksDone (n : nat)
                            (* `Выполнены все подзадачи (${n})` *)
| TxtTaskDone (taskTitle : string) (n : nat)
                            (* `Выполнена задача "${task.title}"` and, when n > 0,
                               ` и все её подзадачи (${n})` *)
| TxtTaskFinished (taskId : string)
                            (* `Задача ${taskId} завершена успешно` *)
| TxtTaskClosed (taskId : JS.Number)
                            (* `Задача #${taskId} завершена` *)
| TxtStarted (taskTitle : string).
                            (* `Начато выполнение задачи "${task.title}"` *)

(** The [action] strings of a history entry. *)
Inductive Action := start | update | complete.

Definition action_eqb (a b : Action) : bool :=
  match a, b with
  | start, start | update, update | complete, complete => true
  | _, _ => false
  end.

(** [details]: the empty object, or [{ oldStatus, newStatus }]. *)
Definition Details := option (Status * Status).

Record HistoryEntry := {
  taskId : JS.Number;
  taskTitle : string;
  action : Action;
  summary : Text;
  timestamp : Time;
  details : Details
}.

(** [currentContext]; [activeTask] is [null] ([None]) or a task id. *)
Record CurrentContext := {
  activeTask : option JS.Number;
  currentSummary : Text
}.

Record Context := {
  lastUpdated : Time;
  projectState : Text;
  taskHistory : list HistoryEntry;
  currentContext : CurrentContext
}.

(** Field assignments. *)
Definition set_sub_status (s : Status) (st : Subtask) : Subtask :=
  {| sub_id := sub_id st; sub_title := sub_title st; sub_status := s |}.

Definition set_status (s : Status) (t : Task) : Task :=
  {| id := id t; title := title t; description := description t;
     status := s; priority := priority t; subtasks := subtasks t;
     created_at := created_at t; updated_at := updated_at t |}.

Definition set_updated_at (u : Time) (t : Task) : Task :=
  {| id := id t; title := title t; description := description t;
     status := status t; priority := priority t; subtasks := subtasks t;
     created_at := created_at t; updated_at := u |}.

Definition set_subtasks (l : list Subtask) (t : Task) : Task :=
  {| id := id t; title := title t; description := description t;
     status := status t; priority := priority t; subtasks := l;
     created_at := created_at t; updated_at := updated_at t |}.

Definition set_tasks (l : list Task) (d : TasksData) : TasksData :=
  {| project := project d; version := version d; tasks := l |}.

End Data.

Import Data.

(** ** The world: two files and a clock *)

Inductive File (A : Type) :=
| Absent            (* [fs.existsSync] is false *)
| Corrupt           (* [JSON.parse] throws *)
| Content (doc : A).

Arguments Absent {A}.
Arguments Corrupt {A}.
Arguments Content {A} doc.

Record World := {
  tasksFile : File TasksData;
  contextFile : File Context;
  tasksWritable : bool;
  contextWritable : bool;
  clock : nat -> Time;
  ticks : nat
}.

Definition put_tasksFile (f : File TasksData) (w : World) : World :=
  {| tasksFile := f; contextFile := contextFile w;
     tasksWritable := tasksWritable w; contextWritable := contextWritable w;
     clock := clock w; ticks := ticks w |}.

Definition put_contextFile (f : File Context) (w : World) : World :=
  {| tasksFile := tasksFile w; contextFile := f;
     tasksWritable := tasksWritable w; contextWritable := contextWritable w;
     clock := clock w; ticks := ticks w |}.

Definition tick (w : World) : World :=
  {| tasksFile := tasksFile w; contextFile := contextFile w;
     tasksWritable := tasksWritable w; contextWritable := contextWritable w;
     clock := clock w; ticks := S (ticks w) |}.

(** ** Scripts: state passing with [process.exit] *)

Inductive Outcome (A : Type) :=
| Returned (a : A) (w : World)
| Exited (code : Z) (w : World).

Arguments Returned {A} a w.
Arguments Exited {A} code w.

Definition Script (A : Type) := World -> Outcome A.

Definition ret {A} (a : A) : Script A := fun w => Returned a w.

Definition bind {A B} (c : Script A) (k : A -> Script B) : Script B :=
  fun w =>
    match c w with
    | Returned a w' => k a w'
    | Exited code w' => Exited code w'
    end.

Declare Scope script_scope.
Delimit Scope script_scope with script.
Bind Scope script_scope with Script.

Notation "x <- c ;; k" := (bind c (fun x => k))
  (at level 61, c at next level, right associativity) : script_scope.
Notation "c ;;; k" := (bind c (fun _ => k))
  (at level 61, right associativity) : script_scope.

Open Scope script_scope.

(** [process.exit(code)]. *)
Definition exit {A} (code : Z) : Script A := fun w => Exited code w.

(** [new Date().toISOString()]. *)
Definition now : Script Time :=
  fun w => Returned (clock w (ticks w)) (tick w).

Definition readTasksFile : Script (File TasksData) :=
  fun w => Returned (tasksFile w) w.

Definition readContextFile : Script (File Context) :=
  fun w => Returned (contextFile w) w.

(** [fs.writeFileSync(tasksFile, JSON.stringify(d))]: [true] when written,
    [false] when it throws. *)
Definition writeTasksFile (d : TasksData) : Script bool :=
  fun w =>
    if tasksWritable w then Returned true (put_tasksFile (Content d) w)
    else Returned false w.

Definition writeContextFile (c : Context) : Script bool :=
  fun w =>
    if contextWritable w then Returned true (put_contextFile (Content c) w)
    else Returned false w.

(** The world a script leaves, and the value it returns. *)
Definition world_of {A} (o : Outcome A) : World :=
  match o with
  | Returned _ w => w
  | Exited _ w => w
  end.

Definition value_of {A} (o : Outcome A) : option A :=
  match o with
  | Returned a _ => Some a
  | Exited _ _ => None
  end.

Definition is_done (s : Status) : bool := status_eqb s done.

(** The callbacks the scripts pass to [find], [findIndex] and [filter]. *)

(** [t => t.id === n]. *)
Definition is_task (n : JS.Number) (t : Task) : bool :=
  JS.num_eq (Some (id t)) n.

(** [st => st.id === taskId] for the string [taskId]. *)
Definition is_subtask (taskId : string) (st : Subtask) : bool :=
  JS.value_eq_str (sub_id st) taskId.

(** [st => st.id === subtaskId] for the number [subtaskId]. *)
Definition is_subtask_number (subtaskId : JS.Number) (st : Subtask) : bool :=
  JS.value_eq_num (sub_id st) subtaskId.

(** [st => st.status === 'done']. *)
Definition subtask_done (st : Subtask) : bool := is_done (sub_status st).

(** [task => task.status === 'pending']. *)
Definition is_pending (t : Task) : bool := status_eqb (status t) pending.

(** [task => task.status === 'in-progress']. *)
Definition is_in_progress (t : Task) : bool := status_eqb (status t) in_progress.

(** ** The error taxonomy of the specification *)

Module Err.

Inductive t :=
| TaskNotFound
| SubtaskNotFound
| InvalidId
| AlreadyActive
| IOError.

End Err.

(** ** context-tracker.js *)

Module ContextTracker.

(** The branch of [initContext] taken when [context.json] does not exist:
    write the initial context; [null] when the write throws. *)
Definition createContext : Script (option Context) :=
  t <- now ;;
  let initialContext :=
    {| lastUpdated := t;
       projectState := TxtProjectInit;
       taskHistory := [];
       currentContext :=
         {| activeTask := None; currentSummary := TxtProjectInitialized |} |} in
  ok <- writeContextFile initialContext ;;
  ret (if ok then Some initialContext else None).

(** [loadContext()]: creates the file when absent, [null] when it cannot
    be parsed. *)
Definition loadContext : Script (option Context) :=
  f <- readContextFile ;;
  match f with
  | Absent => createContext
  | Corrupt => ret None
  | Content c => ret (Some c)
  end.

Definition initContext : Script (option Context) :=
  f <- readContextFile ;;
  match f with
  | Absent => createContext
  | _ => loadContext
  end.

(** [loadTasks()] of this module returns [null] instead of exiting. *)
Definition loadTasks : Script (option TasksData) :=
  f <- readTasksFile ;;
  match f with
  | Content d => ret (Some d)
  | _ => ret None
  end.

Definition saveContext (context : Context) : Script bool :=
  writeContextFile context.

(** [addHistoryEntry(taskId, action, summary, details = {})]. *)
Definition addHistoryEntry (taskId : JS.Number) (action : Action)
    (summary : Text) (details : Details) : Script bool :=
  context <- loadContext ;;
  match context with
  | None => ret false
  | Some context =>
      tasks <- loadTasks ;;
      match tasks with
      | None => ret false
      | Some tasks =>
          match JS.find (is_task taskId) (Data.tasks tasks) with
          | None => ret false
          | Some task =>
              stamp <- now ;;
              let historyEntry :=
                {| taskId := taskId; taskTitle := title task;
                   action := action; summary := summary;
                   timestamp := stamp; details := details |} in
              updated <- now ;;
              saveContext
                {| lastUpdated := updated;
                   projectState := projectState context;
                   taskHistory := taskHistory context ++ [historyEntry];
                   currentContext :=
                     {| activeTask :=
                          match action with
                          | start => Some taskId
                          | complete => None
                          | update => activeTask (currentContext context)
                          end;
                        currentSummary := summary |} |}
          end
      end
  end.

Definition getTaskHistory (taskId : JS.Number) : Script (option (list HistoryEntry)) :=
  context <- loadContext ;;
  ret (option_map
         (fun c => filter (fun entry => JS.num_eq (Data.taskId entry) taskId) (taskHistory c))
         context).

(** The action recorded by [updateTaskStatus] for a status change. *)
Definition action_for (oldStatus status : Status) : Action :=
  if (status_eqb status in_progress && negb (status_eqb oldStatus in_progress))%bool
  then start
  else if (status_eqb status done && negb (status_eqb oldStatus done))%bool
  then complete
  else update.

(** [updateTaskStatus(taskId, status, summary)]. *)
Definition updateTaskStatus (taskId : JS.Number) (status : Status)
    (summary : Text) : Script bool :=
  tasks <- loadTasks ;;
  match tasks with
  | None => ret false
  | Some tasks =>
      match JS.findIndex (is_task taskId) (Data.tasks tasks) with
      | None => ret false
      | Some taskIndex =>
          match JS.item (Data.tasks tasks) taskIndex with
          | None => ret false
          | Some task =>
              let oldStatus := Data.status task in
              stamp <- now ;;
              let task' := set_updated_at stamp (set_status status task) in
              ok <- writeTasksFile
                      (set_tasks (JS.assign (Data.tasks tasks) taskIndex task') tasks) ;;
              if ok
              then addHistoryEntry taskId (action_for oldStatus status) summary
                     (Some (oldStatus, status))
              else ret false
          end
      end
  end.

(** [a.priority - b.priority]. *)
Definition by_priority (a b : Task) : JS.Number :=
  JS.num_sub (Some (priority a)) (Some (priority b)).

(** [getNextTask()]. *)
Definition getNextTask : Script (option Task) :=
  tasks <- loadTasks ;;
  match tasks with
  | None => ret None
  | Some tasks =>
      match Data.tasks tasks with
      | [] => ret None
      | _ =>
          let pendingTasks := filter is_pending (Data.tasks tasks) in
          match JS.sort by_priority pendingTasks with
          | [] => ret None
          | first :: _ => ret (Some first)
          end
      end
  end.

(** What [prepareTaskContextForCopilot] renders as text: the task and its
    history ([null] when the context cannot be loaded). *)
Record CopilotContext := {
  cc_task : Task;
  cc_history : option (list HistoryEntry)
}.

(** [prepareTaskContextForCopilot(taskId)], called with a task's numeric
    id; [parseInt] is applied to it, so it is converted to a string. *)
Definition prepareTaskContextForCopilot (taskId : Z) : Script (option CopilotContext) :=
  tasks <- loadTasks ;;
  match tasks with
  | None => ret None
  | Some tasks =>
      match JS.find (is_task (JS.parseInt (JS.toString taskId)))
                    (Data.tasks tasks) with
      | None => ret None
      | Some task =>
          history <- getTaskHistory (Some taskId) ;;
          ret (Some {| cc_task := task; cc_history := history |})
      end
  end.

(** The object [updateContextAfterTaskCompletion] returns; the fields
    missing on the failure path read as [undefined] ([None]). *)
Record CompletionUpdate := {
  cu_success : bool;
  cu_nextTask : option Task;
  cu_copilotContext : option CopilotContext
}.

(** [summary || fallback] for a text. *)
Definition or_text (summary : option Text) (fallback : Text) : Text :=
  match summary with
  | Some (Lit EmptyString) | None => fallback
  | Some t => t
  end.

(** [updateContextAfterTaskCompletion(taskId, summary)]. *)
Definition updateContextAfterTaskCompletion (taskId : JS.Number)
    (summary : option Text) : Script CompletionUpdate :=
  context <- loadContext ;;
  match context with
  | None =>
      ret {| cu_success := false; cu_nextTask := None; cu_copilotContext := None |}
  | Some context =>
      updated <- now ;;
      saveSuccess <- saveContext
        {| lastUpdated := updated;
           projectState := projectState context;
           taskHistory := taskHistory context;
           currentContext :=
             {| activeTask := None;
                currentSummary := or_text summary (TxtTaskClosed taskId) |} |} ;;
      nextTask <- getNextTask ;;
      copilotContext <-
        match nextTask with
        | Some nextTask => prepareTaskContextForCopilot (id nextTask)
        | None => ret None
        end ;;
      ret {| cu_success := saveSuccess; cu_nextTask := nextTask;
             cu_copilotContext := copilotContext |}
  end.

(** [t => t.id === context.currentContext.activeTask]; [null] equals no id. *)
Definition is_active (active : option JS.Number) (t : Task) : bool :=
  match active with
  | Some n => is_task n t
  | None => false
  end.

(** The [type] of a suggestion: ['continue'] or ['start']. *)
Inductive SuggestionType := Continue | Start.

(** The object [suggestTaskExecution] returns; its [message] is a text
    built from the two other fields. *)
Record Suggestion := {
  sg_taskId : Z;
  sg_title : string;
  sg_type : SuggestionType
}.

(** [suggestTaskExecution()]. *)
Definition suggestTaskExecution : Script (option Suggestion) :=
  context <- loadContext ;;
  match context with
  | None => ret None
  | Some context =>
      if JS.truthy_number (activeTask (currentContext context))
      then
        tasks <- loadTasks ;;
        match tasks with
        | None => ret None
        | Some tasks =>
            match JS.find (is_active (activeTask (currentContext context)))
                          (Data.tasks tasks) with
            | None => ret None
            | Some activeTask =>
                ret (Some {| sg_taskId := id activeTask; sg_title := title activeTask;
                             sg_type := Continue |})
            end
        end
      else
        nextTask <- getNextTask ;;
        match nextTask with
        | None => ret None
        | Some nextTask =>
            ret (Some {| sg_taskId := id nextTask; sg_title := title nextTask;
                         sg_type := Start |})
        end
  end.

End ContextTracker.

(** ** complete.js *)

Module Complete.

Import ContextTracker.

(** [loadTasks()] of this script: [process.exit(1)] when the file is
    missing or cannot be parsed. *)
Definition loadTasks : Script TasksData :=
  f <- readTasksFile ;;
  match f with
  | Content d => ret d
  | _ => exit 1
  end.

Definition saveTasks (tasksData : TasksData) : Script bool :=
  writeTasksFile tasksData.

(** The [message] templates of [completeTaskWithContextUpdate]. *)
Inductive Message :=
| TaskNotFound (n : JS.Number)
    (* `✗ Задача с ID ${n} не найдена` *)
| SubtaskNotFound (taskId : string)
    (* `✗ Подзадача с ID ${taskId} не найдена` *)
| SaveFailed
    (* '✗ Не удалось сохранить изменения' *)
| SubtaskCompleted (taskId : string) (parentDone : option JS.Number)
    (* `✓ Подзадача #${taskId} отмечена как выполненная`, followed when all
       subtasks are done by `✓ Все подзадачи выполнены, задача
       #${parentIdNum} отмечена как выполненная` *)
| TaskCompleted (n : JS.Number) (taskTitle : string).
    (* `✓ Задача #${n} "${task.title}" отмечена как выполненная` *)

Record Result := {
  success : bool;
  message : Message;
  nextTask : option Task;
  copilotContext : option CopilotContext
}.

Definition failure (m : Message) : Result :=
  {| success := false; message := m; nextTask := None; copilotContext := None |}.

(** [summary || fallback] for the optional [summary] argument. *)
Definition summary_or (summary : option string) (fallback : Text) : Text :=
  match summary with
  | Some (String c r) => Lit (String c r)
  | _ => fallback
  end.

(** The end of [completeTaskWithContextUpdate], shared by both branches:
    the context update after a successful save, and the returned object. *)
Definition finish (taskId : string) (mainTaskId : JS.Number)
    (summary : option string) (ok : bool) (m : Message) : Script Result :=
  if ok then
    contextUpdateResult <-
      updateContextAfterTaskCompletion mainTaskId
        (Some (summary_or summary (TxtTaskFinished taskId))) ;;
    ret {| success := ok; message := m;
           nextTask := cu_nextTask contextUpdateResult;
           copilotContext := cu_copilotContext contextUpdateResult |}
  else
    ret {| success := ok; message := m; nextTask := None; copilotContext := None |}.

(** The subtask branch ([taskId] contains a dot). *)
Definition completeSubtask (tasksData : TasksData) (taskId : string)
    (mainTaskId : JS.Number) (summary : option string) : Script Result :=
  let parentId := fst (JS.split "." taskId) in
  let parentIdNum := JS.parseInt parentId in
  let isParent := is_task parentIdNum in
  match JS.find isParent (tasks tasksData) with
  | None => ret (failure (TaskNotFound parentIdNum))
  | Some parentTask =>
      let isSubtask := is_subtask taskId in
      match JS.find isSubtask (subtasks parentTask) with
      | None => ret (failure (SubtaskNotFound taskId))
      | Some subtask =>
          let subtasks' :=
            JS.mutate_found isSubtask (set_sub_status done) (subtasks parentTask) in
          let allSubtasksDone :=
            forallb subtask_done subtasks' in
          let rolled :=
            if allSubtasksDone
            then set_status done (set_subtasks subtasks' parentTask)
            else set_subtasks subtasks' parentTask in
          stamp <- now ;;
          let parentTask' := set_updated_at stamp rolled in
          ok <- saveTasks
                  (set_tasks (JS.mutate_found isParent (fun _ => parentTask')
                                (tasks tasksData)) tasksData) ;;
          if ok then
            let autoSummary :=
              summary_or summary (TxtSubtaskDone taskId (sub_title subtask)) in
            addHistoryEntry parentIdNum update autoSummary None ;;;
            (if allSubtasksDone
             then updateTaskStatus parentIdNum done
                    (TxtAllSubtasksDone (List.length subtasks'))
             else ret false) ;;;
            finish taskId mainTaskId summary ok
              (SubtaskCompleted taskId
                 (if allSubtasksDone then Some parentIdNum else None))
          else
            finish taskId mainTaskId summary ok SaveFailed
      end
  end.

(** The task branch ([taskId] contains no dot). *)
Definition completeMainTask (tasksData : TasksData) (taskId : string)
    (mainTaskId : JS.Number) (summary : option string) : Script Result :=
  let taskIdNum := JS.parseInt taskId in
  let isTask := is_task taskIdNum in
  match JS.find isTask (tasks tasksData) with
  | None => ret (failure (TaskNotFound taskIdNum))
  | Some task =>
      stamp <- now ;;
      let task' :=
        set_subtasks (map (set_sub_status done) (subtasks task))
          (set_updated_at stamp (set_status done task)) in
      ok <- saveTasks
              (set_tasks (JS.mutate_found isTask (fun _ => task')
                            (tasks tasksData)) tasksData) ;;
      if ok then
        let autoSummary :=
          summary_or summary (TxtTaskDone (title task) (List.length (subtasks task))) in
        updateTaskStatus taskIdNum done autoSummary ;;;
        finish taskId mainTaskId summary ok (TaskCompleted taskIdNum (title task))
      else
        finish taskId mainTaskId summary ok SaveFailed
  end.

(** [completeTaskWithContextUpdate(taskId, summary)]. *)
Definition completeTaskWithContextUpdate (taskId : string)
    (summary : option string) : Script Result :=
  tasksData <- loadTasks ;;
  let isMainTask := negb (JS.includes "." taskId) in
  let mainTaskId :=
    if isMainTask then JS.parseInt taskId
    else JS.parseInt (fst (JS.split "." taskId)) in
  if negb isMainTask
  then completeSubtask tasksData taskId mainTaskId summary
  else completeMainTask tasksData taskId mainTaskId summary.

(** What [startTaskExecution] prints; the function itself returns
    nothing. *)
Inductive Report :=
| ReportNotFound (taskId : option string)
    (* `✗ Задача${taskId ? ` с ID ${taskId}` : ''} не найдена` *)
| ReportStarted (n : Z) (taskTitle : string)
    (* `✓ Задача #${task.id} "${task.title}" отмечена как "в процессе"` *)
| ReportSaveFailed
    (* '✗ Не удалось сохранить изменения' *)
| ReportNotInList (n : Z).
    (* `✗ Задача с ID ${task.id} не найдена в списке задач` *)

(** [startTaskExecution(taskId)].  With a truthy [taskId] the task is an
    element of [tasksData.tasks], so assigning its fields changes the
    array; otherwise it comes from a separate load by [getNextTask]. *)
Definition startTaskExecution (taskId : option string) : Script Report :=
  tasksData <- loadTasks ;;
  let isTask :=
    is_task (JS.parseIntArg taskId) in
  task <- (if JS.truthy taskId
           then ret (JS.find isTask (tasks tasksData))
           else getNextTask) ;;
  match task with
  | None => ret (ReportNotFound taskId)
  | Some task =>
      stamp <- now ;;
      let task' := set_updated_at stamp (set_status in_progress task) in
      let aliased :=
        if JS.truthy taskId
        then JS.mutate_found isTask (fun _ => task') (tasks tasksData)
        else tasks tasksData in
      match JS.findIndex (is_task (Some (id task'))) aliased with
      | Some taskIndex =>
          ok <- saveTasks (set_tasks (JS.assign aliased taskIndex task') tasksData) ;;
          if ok then
            updateTaskStatus (Some (id task')) in_progress (TxtStarted (title task')) ;;;
            prepareTaskContextForCopilot (id task') ;;;
            ret (ReportStarted (id task') (title task'))
          else ret ReportSaveFailed
      | None => ret (ReportNotInList (id task'))
      end
  end.

(** The taxonomy entry that each failure message reports.  No message of
    this script reports a malformed id. *)
Definition error_of (m : Message) : option Err.t :=
  match m with
  | TaskNotFound _ => Some Err.TaskNotFound
  | SubtaskNotFound _ => Some Err.SubtaskNotFound
  | SaveFailed => Some Err.IOError
  | SubtaskCompleted _ _ | TaskCompleted _ _ => None
  end.

Definition report_error (r : Report) : option Err.t :=
  match r with
  | ReportNotFound _ | ReportNotInList _ => Some Err.TaskNotFound
  | ReportSaveFailed => Some Err.IOError
  | ReportStarted _ _ => None
  end.

End Complete.

(** ** The next-task script (module [./next]) *)

Module Next.

Import ContextTracker.

(** [loadTasks()] and [saveTasks()] of this script are those of
    complete.js, word for word. *)
Definition loadTasks : Script TasksData :=
  f <- readTasksFile ;;
  match f with
  | Content d => ret d
  | _ => exit 1
  end.

Definition saveTasks (tasksData : TasksData) : Script bool :=
  writeTasksFile tasksData.

(** [priorityOrder[key]] for [{ 'high': 1, 'medium': 2, 'low': 3 }]; any
    other key reads [undefined], which arithmetic turns into [NaN]. *)
Definition priorityOrder (key : string) : JS.Number :=
  if String.eqb key "high" then Some 1
  else if String.eqb key "medium" then Some 2
  else if String.eqb key "low" then Some 3
  else JS.NaN.

(** [priorityOrder[a.priority] - priorityOrder[b.priority]]: the numeric
    priority is converted to a property key. *)
Definition by_priority_name (a b : Task) : JS.Number :=
  JS.num_sub (priorityOrder (JS.toString (priority a)))
             (priorityOrder (JS.toString (priority b))).

(** [getNextTask()] of this script. *)
Definition getNextTask : Script (option Task) :=
  tasksData <- loadTasks ;;
  let pendingTasks := filter is_pending (tasks tasksData) in
  match JS.sort by_priority_name pendingTasks with
  | first :: _ => ret (Some first)
  | [] => ret None
  end.

(** [getCurrentTask()]. *)
Definition getCurrentTask : Script (option Task) :=
  tasksData <- loadTasks ;;
  match filter is_in_progress (tasks tasksData) with
  | first :: _ => ret (Some first)
  | [] => ret None
  end.

(** The [message] templates of [startNextTask]. *)
Inductive Message :=
| NoPending
    (* 'Нет задач в статусе pending. Все задачи выполнены или находятся
       в процессе.' *)
| NotFoundOrNotPending (targetTaskId : option string)
    (* `Задача с ID ${targetTaskId} не найдена или не находится в статусе
       pending.` *)
| AlreadyActive (n : Z) (taskTitle : string)
    (* `Уже есть задача в процессе выполнения: #${currentTask.id}
       "${currentTask.title}". Завершите её перед началом новой задачи.` *)
| Started (n : Z) (taskTitle : string)
    (* `✓ Задача #${task.id} "${task.title}" отмечена как "в процессе"` *)
| SaveFailed
    (* 'Не удалось сохранить изменения' *)
| NotInList (n : Z).
    (* `Задача с ID ${task.id} не найдена в списке задач` *)

Record Result := {
  success : bool;
  message : Message;
  task : option Task;
  currentTask : option Task;
  copilotContext : option CopilotContext
}.

Definition failure (m : Message) : Result :=
  {| success := false; message := m; task := None; currentTask := None;
     copilotContext := None |}.

(** [startNextTask(auto = true, targetTaskId = null)].  With [auto] the
    task comes from a separate load by [getNextTask]; with a target id it
    is an element of [tasksData.tasks] and is changed in place. *)
Definition startNextTask (auto : bool) (targetTaskId : option string) : Script Result :=
  tasksData <- loadTasks ;;
  let isTarget := fun t : Task =>
    (is_task (JS.parseIntArg targetTaskId) t
     && is_pending t)%bool in
  found <- (if auto then getNextTask
            else if JS.truthy targetTaskId
                 then ret (JS.find isTarget (tasks tasksData))
                 else ret None) ;;
  match found with
  | None =>
      ret (failure (if auto then NoPending else NotFoundOrNotPending targetTaskId))
  | Some found =>
      active <- getCurrentTask ;;
      match active with
      | Some active =>
          ret {| success := false;
                 message := AlreadyActive (id active) (title active);
                 task := None; currentTask := Some active;
                 copilotContext := None |}
      | None =>
          stamp <- now ;;
          let task' := set_updated_at stamp (set_status in_progress found) in
          let aliased :=
            if auto then tasks tasksData
            else JS.mutate_found isTarget (fun _ => task') (tasks tasksData) in
          match JS.findIndex (is_task (Some (id task'))) aliased with
          | Some taskIndex =>
              ok <- saveTasks (set_tasks (JS.assign aliased taskIndex task') tasksData) ;;
              if ok then
                updateTaskStatus (Some (id task')) in_progress
                  (TxtStarted (title task')) ;;;
                prepared <- prepareTaskContextForCopilot (id task') ;;
                ret {| success := true;
                       message := Started (id task') (title task');
                       task := Some task'; currentTask := None;
                       copilotContext := prepared |}
              else ret (failure SaveFailed)
          | None => ret (failure (NotInList (id task')))
          end
      end
  end.

(** The taxonomy entry that each failure message reports; the message for
    an unknown id is shared with a known task that is not pending. *)
Definition error_of (m : Message) : option Err.t :=
  match m with
  | NoPending | NotFoundOrNotPending _ | NotInList _ => Some Err.TaskNotFound
  | AlreadyActive _ _ => Some Err.AlreadyActive
  | SaveFailed => Some Err.IOError
  | Started _ _ => None
  end.

End Next.

(** ** The context script (context.js) *)

Module ContextScript.

(** What [completeTask] prints. *)
Inductive Report :=
| NeedsTaskId
    (* "Необходимо указать ID задачи" *)
| NeedsSummary
    (* "Необходимо указать описание выполненной работы" *)
| Completed (taskId : JS.Number)
    (* `Задача #${taskId} отмечена как выполненная` *)
| NotCompleted (taskId : JS.Number).
    (* `Не удалось отметить задачу #${taskId} как выполненную` *)

(** [completeTask(taskId, summary)]: the status is changed by
    [updateTaskStatus] alone; the script does not save the store itself. *)
Definition completeTask (taskId : JS.Number) (summary : string) : Script Report :=
  match summary with
  | EmptyString => ret NeedsSummary
  | _ =>
      ok <- ContextTracker.updateTaskStatus taskId done (Lit summary) ;;
      ret (if ok then Completed taskId else NotCompleted taskId)
  end.

(** [args[1] ? parseInt(args[1]) : null]. *)
Definition taskId_of (args : list string) : option JS.Number :=
  if JS.truthy (JS.item args 1) then Some (JS.parseIntArg (JS.item args 1)) else None.

(** The [complete] case of the script, [args] being the command line after
    the script name: [args[0]] is the word [complete], [args[1]] the id,
    the rest the summary. *)
Definition complete (args : list string) : Script Report :=
  let taskId := taskId_of args in
  if JS.truthy_number taskId
  then completeTask (match taskId with Some n => n | None => JS.NaN end)
         (String.concat " " (skipn 2 args))
  else ret NeedsTaskId.

End ContextScript.

(** ** chat.js *)

Module Chat.

(** [loadTasks()] of chat.js, the same as in complete.js. *)
Definition loadTasks : Script TasksData :=
  f <- readTasksFile ;;
  match f with
  | Content d => ret d
  | _ => exit 1
  end.

(** [getNextTaskId(tasks)]: [1] for the empty array, otherwise
    [Math.max(...ids) + 1], a sum of doubles. *)
Definition getNextTaskId (tasks : list Task) : Z :=
  match map id tasks with
  | [] => 1
  | first :: others => JS.to_double (fold_left Z.max others first + 1)
  end.

(** The [message] templates of [checkTaskCompletion]. *)
Inductive Message :=
| TaskNotFound (n : JS.Number)
    (* `Задача с ID ${mainTaskId} не найдена` *)
| TaskStatus (n : JS.Number) (taskTitle : string) (s : Status)
    (* `Задача #${mainTaskId} "${task.title}" отмечена как выполненная`, or
       `... не отмечена как выполненная. Текущий статус: ${task.status}` *)
| SubtaskNotFound (taskId : string)
    (* `Подзадача с ID ${taskId} не найдена` *)
| SubtaskStatus (taskId : string) (subtaskTitle : string) (s : Status).
    (* `Подзадача #${taskId} "${subtask.title}" отмечена как выполненная`, or
       `... не отмечена как выполненная. Текущий статус: ${subtask.status}` *)

Record Result := {
  success : bool;
  message : Message;
  isDone : option bool   (* [data.isDone]; no [data] on failure *)
}.

(** [checkTaskCompletion(taskId)].  [subtasks] is always an array in this
    model, so the "task has no subtasks" answer does not arise. *)
Definition checkTaskCompletion (taskId : string) : Script Result :=
  tasksData <- loadTasks ;;
  let (first, rest) := JS.split "." taskId in
  let mainTaskId := JS.parseInt first in
  match JS.find (is_task mainTaskId) (tasks tasksData) with
  | None =>
      ret {| success := false; message := TaskNotFound mainTaskId; isDone := None |}
  | Some task =>
      match rest with
      | [] =>
          ret {| success := true;
                 message := TaskStatus mainTaskId (title task) (status task);
                 isDone := Some (is_done (status task)) |}
      | second :: _ =>
          let subtaskId := JS.parseInt second in
          match JS.find (is_subtask_number subtaskId) (subtasks task) with
          | None =>
              ret {| success := false; message := SubtaskNotFound taskId;
                     isDone := None |}
          | Some subtask =>
              ret {| success := true;
                     message := SubtaskStatus taskId (sub_title subtask)
                                  (sub_status subtask);
                     isDone := Some (is_done (sub_status subtask)) |}
          end
      end
  end.

Definition error_of (m : Message) : option Err.t :=
  match m with
  | TaskNotFound _ => Some Err.TaskNotFound
  | SubtaskNotFound _ => Some Err.SubtaskNotFound
  | TaskStatus _ _ _ | SubtaskStatus _ _ _ => None
  end.

(** The id that the task generators give the [ordinal]-th subtask of the
    task [parent]: the string `${parent}.${ordinal}`. *)
Definition subtask_id (parent : Z) (ordinal : nat) : JS.Value :=
  JS.VStr (JS.toString parent ++ "." ++ JS.toString (Z.of_nat ordinal))%string.

(** [saveTasks(tasksData)]. *)
Definition saveTasks (tasksData : TasksData) : Script bool :=
  writeTasksFile tasksData.

(** The answers of [getNextTask]; the text of the last one lists the task
    found. *)
Inductive NextAnswer :=
| AnswerNoTasks
    (* "Задачи не найдены. ..." *)
| AnswerNoPending
    (* "Нет задач в статусе pending. ..." *)
| AnswerNext (nextTask : Task).
    (* `Следующая задача: [${nextTask.id}] ${nextTask.title} ...` *)

(** [getNextTask()] of chat.js: the scheduler's choice is put in progress
    at once.  The answer shows the id, title, priority, description and
    subtasks of the task, none of which the function changes. *)
Definition getNextTask : Script NextAnswer :=
  tasksData <- loadTasks ;;
  match tasks tasksData with
  | [] => ret AnswerNoTasks
  | _ =>
      let pendingTasks := filter is_pending (tasks tasksData) in
      match JS.sort ContextTracker.by_priority pendingTasks with
      | [] => ret AnswerNoPending
      | nextTask :: _ =>
          match JS.findIndex (is_task (Some (id nextTask))) (tasks tasksData) with
          | Some taskIndex =>
              match JS.item (tasks tasksData) taskIndex with
              | Some task =>
                  stamp <- now ;;
                  let task' := set_updated_at stamp (set_status in_progress task) in
                  saveTasks
                    (set_tasks (JS.assign (tasks tasksData) taskIndex task') tasksData) ;;;
                  ContextTracker.updateTaskStatus (Some (id nextTask)) in_progress
                    (TxtStarted (title nextTask)) ;;;
                  ret (AnswerNext nextTask)
              | None => ret (AnswerNext nextTask)
              end
          | None => ret (AnswerNext nextTask)
          end
      end
  end.

    (* "Не удалось сохранить задачу." *)












    (* "Не удалось сохранить задачи." *)


End Chat.

(** ** Sample stores used by the examples *)

Module Sample.

Definition sub (i t : string) (s : Status) : Subtask :=
  {| sub_id := JS.VStr i; sub_title := t; sub_status := s |}.

Definition task (n : Z) (t : string) (s : Status) (p : Z)
    (subs : list Subtask) : Task :=
  {| id := n; title := t; description := "no description"; status := s;
     priority := p; subtasks := subs; created_at := O; updated_at := O |}.

Definition emptyContext : Context :=
  {| lastUpdated := O; projectState := TxtProjectInit; taskHistory := [];
     currentContext :=
       {| activeTask := None; currentSummary := TxtProjectInitialized |} |}.

(** A writable project directory holding the tasks [l] and a context. *)
Definition store (l : list Task) (c : Context) : World :=
  {| tasksFile := Content {| project := "demo"; version := "1.0.0"; tasks := l |};
     contextFile := Content c;
     tasksWritable := true; contextWritable := true;
     clock := fun n => S n; ticks := O |}.

(** Task 1 is being worked on; task 2 has the subtasks 2.1 (done) and
    2.2 (pending). *)
Definition two_tasks : list Task :=
  [ task 1 "A" in_progress 1 [];
    task 2 "B" pending 2 [sub "2.1" "first" done; sub "2.2" "second" pending] ].

Definition active_context : Context :=
  {| lastUpdated := O; projectState := TxtProjectInit; taskHistory := [];
     currentContext :=
       {| activeTask := Some (Some 1); currentSummary := TxtStarted "A" |} |}.

(** Task 1 is being worked on and task 2 is done. *)
Definition active_and_done : list Task :=
  [ task 1 "A" in_progress 1 []; task 2 "B" done 2 [] ].

(** Four pending tasks with the priorities 3, 1, 2, 1. *)
Definition priorities_3121 : list Task :=
  [ task 1 "p3" pending 3 []; task 2 "p1 first" pending 1 [];
    task 3 "p2" pending 2 []; task 4 "p1 second" pending 1 [] ].

End Sample.

(** ** Vocabulary of the statements *)

(** The first element of the array sorted with [cmp], computed directly. *)
Fixpoint front {A} (cmp : A -> A -> JS.Number) (l : list A) : option A :=
  match l with
  | [] => None
  | x :: r =>
      match front cmp r with
      | None => Some x
      | Some h => if JS.after (cmp x h) then Some h else Some x
      end
  end.

(** The first task of least priority number: [x] sits in [l] with only
    strictly larger numbers before it and no smaller number after it. *)
Definition first_least (x : Task) (l : list Task) : Prop :=
  exists before behind,
    l = before ++ x :: behind
    /\ (forall y, In y before -> priority x < priority y)
    /\ (forall y, In y behind -> priority x <= priority y).

(** The contract of the scheduler, as the specification words it: the
    pending task of numerically smallest priority, the earliest in list
    order among equals; none when no task is pending. *)
Definition next_contract (l : list Task) (r : option Task) : Prop :=
  match r with
  | Some x =>
      is_pending x = true
      /\ exists before behind,
           l = before ++ x :: behind
           /\ (forall y, In y before -> is_pending y = true -> priority x < priority y)
           /\ (forall y, In y behind -> is_pending y = true -> priority x <= priority y)
  | None => forall y, In y l -> is_pending y = false
  end.

(** A script keeps the task store when it always returns and leaves
    [tasks.json] and its writability as they were. *)
Definition same_tasks (w w' : World) : Prop :=
  tasksFile w' = tasksFile w /\ tasksWritable w' = tasksWritable w.

Definition keeps_tasks {A} (c : Script A) : Prop :=
  forall w, exists a w', c w = Returned a w' /\ same_tasks w w'.

(** The store holds, as the task that [find] returns for the id [n], a
    task satisfying [Q]; the file can be written. *)
Definition stored (n : JS.Number) (Q : Task -> Prop) (w : World) : Prop :=
  tasksWritable w = true
  /\ exists d t,
       tasksFile w = Content d /\ JS.find (is_task n) (tasks d) = Some t /\ Q t.

(** Both documents are loaded and can be written. *)
Definition ready (w : World) (d : TasksData) (c : Context) : Prop :=
  tasksFile w = Content d /\ tasksWritable w = true
  /\ contextFile w = Content c /\ contextWritable w = true.

(** The history log on disk. *)
Definition history_of (w : World) : list HistoryEntry :=
  match contextFile w with
  | Content c => taskHistory c
  | _ => []
  end.

(** The active task recorded on disk. *)
Definition active_of (w : World) : option JS.Number :=
  match contextFile w with
  | Content c => activeTask (currentContext c)
  | _ => None
  end.

(** What a history entry records, without its texts and timestamp. *)
Definition recorded (e : HistoryEntry) : JS.Number * Action * Details :=
  (taskId e, action e, details e).

Definition statuses (w : World) : list (Z * Status * list Status) :=
  match tasksFile w with
  | Content d => map (fun t => (id t, status t, map sub_status (subtasks t))) (tasks d)
  | _ => []
  end.

Definition stamps (w : World) : list Time :=
  match tasksFile w with
  | Content d => map updated_at (tasks d)
  | _ => []
  end.

(** The history of [w'] is the history of [w] with entries appended. *)
Definition extends_history (w w' : World) : Prop :=
  exists entries, history_of w' = history_of w ++ entries.

(** A script only ever appends to the history, whether it returns or
    exits. *)
Definition appends {A} (c : Script A) : Prop :=
  forall w, extends_history w (world_of (c w)).

(** The task list of [w'] has the ids of the task list of [w], in the same
    order, under the same project name and version; a file that was missing
    or unparsable is still so. *)
Definition same_ids (w w' : World) : Prop :=
  match tasksFile w with
  | Content d =>
      exists d', tasksFile w' = Content d'
                 /\ map id (tasks d') = map id (tasks d)
                 /\ project d' = project d /\ version d' = version d
  | Absent => tasksFile w' = Absent
  | Corrupt => tasksFile w' = Corrupt
  end.

Definition keeps_ids {A} (c : Script A) : Prop :=
  forall w, same_ids w (world_of (c w)).

(** A string that begins as a printed number does: with a digit, a minus
    sign or the [I] of [Infinity]. *)
Definition numeric_head (s : string) : bool :=
  match s with
  | String c _ =>
      let n := nat_of_ascii c in
      ((Nat.leb 48 n && Nat.leb n 57) || Nat.eqb n 45 || Nat.eqb n 73)%bool
  | EmptyString => false
  end.




(** * Properties *)

(** ** JavaScript primitives on examples *)

Example parseInt_12 : JS.parseInt "12" = Some 12.
Proof. reflexivity. Qed.

Example parseInt_12abc : JS.parseInt " 12abc" = Some 12.
Proof. reflexivity. Qed.

Example parseInt_abc : JS.parseInt "abc" = JS.NaN.
Proof. reflexivity. Qed.

Example parseInt_hex : JS.parseInt "0x1F" = Some 31.
Proof. reflexivity. Qed.

Example parseInt_neg : JS.parseInt "-7.5" = Some (-7).
Proof. reflexivity. Qed.

Example split_2_1 : JS.split "." "2.1" = ("2", ["1"]).
Proof. reflexivity. Qed.

Example toString_21 : JS.toString 21 = "21".
Proof. reflexivity. Qed.

(** White space of more than one byte is skipped too: a no-break space
    (U+00A0) and an ideographic space (U+3000) before the digits. *)
Example parseInt_nbsp : JS.parseInt " 1" = Some 1.
Proof. reflexivity. Qed.

Example parseInt_ideographic_space : JS.parseInt "　 12" = Some 12.
Proof. reflexivity. Qed.

(** Numerals are rounded to doubles, and overflow to [Infinity]. *)
Example parseInt_rounds : JS.parseInt "9007199254740993" = Some 9007199254740992.
Proof. vm_compute. reflexivity. Qed.

Example to_double_overflow : JS.to_double (2 ^ 1024 - 2 ^ 970) = JS.infinity.
Proof. vm_compute. reflexivity. Qed.

(** Numbers outside the safe integers are printed with the fewest digits
    that read back as the same double, in exponent form from [10^21]. *)
Example toString_2_64 : JS.toString (2 ^ 64) = "18446744073709552000".
Proof. vm_compute. reflexivity. Qed.

Example toString_1e21 : JS.toString (10 ^ 21) = "1e+21".
Proof. vm_compute. reflexivity. Qed.

Example toString_2_70 : JS.toString (2 ^ 70) = "1.1805916207174113e+21".
Proof. vm_compute. reflexivity. Qed.

Example toString_max : JS.toString (2 ^ 1024 - 2 ^ 971) = "1.7976931348623157e+308".
Proof. vm_compute. reflexivity. Qed.

Example toString_infinity : JS.toString (- JS.infinity) = "-Infinity".
Proof. vm_compute. reflexivity. Qed.

(** An id of [10^21] is printed as [1e+21], which reads back as 1. *)
Example parseInt_toString_1e21 : JS.parseInt (JS.toString (10 ^ 21)) = Some 1.
Proof. vm_compute. reflexivity. Qed.

Example sort_is_stable :
  map id (JS.sort ContextTracker.by_priority Sample.priorities_3121) = [2; 4; 3; 1].
Proof. reflexivity. Qed.

(** ** Lists *)

Section ListFacts.

Context {A : Type}.
Variable p : A -> bool.

Lemma find_unknown (l : list A) :
  (forall x, In x l -> p x = false) -> JS.find p l = None.
Proof.
  induction l as [| x l IH]; intros H; simpl; [reflexivity |].
  rewrite (H x (or_introl eq_refl)). apply IH.
  intros y Hy. apply H. now right.
Qed.

Lemma find_in (l : list A) (x : A) :
  JS.find p l = Some x -> In x l /\ p x = true.
Proof. apply find_some. Qed.

(** After the object returned by [find] is replaced by one that still
    satisfies the predicate, [find] returns the replacement. *)
Lemma find_mutate_found (f : A -> A) (l : list A) (x : A) :
  JS.find p l = Some x -> p (f x) = true ->
  JS.find p (JS.mutate_found p f l) = Some (f x).
Proof.
  induction l as [| y l IH]; simpl; [discriminate |].
  destruct (p y) eqn:Hy; intros Hx Hf.
  - injection Hx as <-. simpl. now rewrite Hf.
  - simpl. rewrite Hy. now apply IH.
Qed.

Lemma findIndex_find (l : list A) :
  JS.findIndex p l = None <-> JS.find p l = None.
Proof.
  induction l as [| y l IH]; simpl; [tauto |].
  destruct (p y); [split; discriminate |].
  destruct (JS.findIndex p l) as [n |]; simpl.
  - split; [discriminate |]. intros H. apply IH in H. discriminate.
  - split; [| reflexivity]. intros _. now apply IH.
Qed.

Lemma findIndex_item (l : list A) (i : nat) :
  JS.findIndex p l = Some i -> JS.item l i = JS.find p l.
Proof.
  revert i. induction l as [| y l IH]; simpl; intros i; [discriminate |].
  destruct (p y).
  - intros [= <-]. reflexivity.
  - destruct (JS.findIndex p l) as [j |]; simpl; [| discriminate].
    intros [= <-]. now apply IH.
Qed.

(** Assigning at the index [findIndex] returns is the mutation of the
    object [find] returns. *)
Lemma assign_findIndex (l : list A) (i : nat) (v : A) :
  JS.findIndex p l = Some i ->
  JS.assign l i v = JS.mutate_found p (fun _ => v) l.
Proof.
  revert i. induction l as [| y l IH]; simpl; intros i; [discriminate |].
  destruct (p y).
  - intros [= <-]. reflexivity.
  - destruct (JS.findIndex p l) as [j |]; simpl; [| discriminate].
    intros [= <-]. f_equal. now apply IH.
Qed.

Lemma mutate_found_unknown (f : A -> A) (l : list A) :
  JS.find p l = None -> JS.mutate_found p f l = l.
Proof.
  induction l as [| y l IH]; simpl; [reflexivity |].
  destruct (p y); [discriminate |]. intros H. f_equal. now apply IH.
Qed.

Lemma mutate_found_length (f : A -> A) (l : list A) :
  List.length (JS.mutate_found p f l) = List.length l.
Proof.
  induction l as [| y l IH]; simpl; [reflexivity |].
  destruct (p y); simpl; [reflexivity | now rewrite IH].
Qed.

(** Mutating twice the object [find] returns, when the predicate still
    holds after the first mutation. *)
Lemma mutate_found_twice (f g : A -> A) (l : list A) :
  (forall x, p x = true -> p (f x) = true) ->
  JS.mutate_found p g (JS.mutate_found p f l)
  = JS.mutate_found p (fun x => g (f x)) l.
Proof.
  intros Hf. induction l as [| y l IH]; simpl; [reflexivity |].
  destruct (p y) eqn:Hy; simpl.
  - now rewrite (Hf y Hy).
  - rewrite Hy. now rewrite IH.
Qed.

End ListFacts.

Lemma split_no_dot (s : string) :
  JS.includes "." s = false -> JS.split "." s = (s, []).
Proof.
  induction s as [| c s IH]; simpl; [reflexivity |].
  intros H. apply orb_false_iff in H as [Hc Hs].
  rewrite (IH Hs), Hc. reflexivity.
Qed.

(** ** Task ids: [getNextTaskId] *)

Lemma fold_max_bounds (l : list Z) (x : Z) :
  x <= fold_left Z.max l x
  /\ (forall y, In y l -> y <= fold_left Z.max l x)
  /\ (fold_left Z.max l x = x \/ In (fold_left Z.max l x) l).
Proof.
  revert x. induction l as [| a l IH]; intros x; simpl.
  - repeat split; [lia | tauto | now left].
  - destruct (IH (Z.max x a)) as (H1 & H2 & H3). repeat split.
    + lia.
    + intros y [<- | Hy]; [lia | now apply H2].
    + destruct H3 as [H3 | H3]; [| now right; right].
      rewrite H3. destruct (Z.max_spec x a) as [[_ ->] | [_ ->]];
        [right; now left | now left].
Qed.

(** Up to [2^53] in magnitude an integer is a double. *)
Lemma to_double_exact (z : Z) : Z.abs z <= 2 ^ 53 -> JS.to_double z = z.
Proof.
  intros H. unfold JS.to_double, JS.round_magnitude.
  destruct (Z.leb_spec (Z.abs z) (2 ^ 53)) as [_ | Hgt]; [| lia].
  rewrite Z.mul_comm. apply Z.abs_sgn.
Qed.

Lemma to_double_safe (z : Z) : JS.safe z -> JS.to_double z = z.
Proof. unfold JS.safe. intros H. apply to_double_exact. lia. Qed.

(** When the largest id is a safe integer the sum in [getNextTaskId] is
    exact. *)
Lemma getNextTaskId_max (t0 : Task) (ts : list Task) :
  JS.safe (fold_left Z.max (map id ts) (id t0)) ->
  Chat.getNextTaskId (t0 :: ts) = fold_left Z.max (map id ts) (id t0) + 1.
Proof.
  intros Hm. unfold Chat.getNextTaskId. cbn [map].
  apply to_double_exact. unfold JS.safe in Hm. lia.
Qed.


(** C3, as the code has it.  [getNextTaskId] returns 1 for the empty task
    list; for a non-empty list whose largest id is a safe integer (below
    [2^53] in magnitude) it returns the largest existing id plus one, which
    is strictly greater than every existing id. *)
Theorem getNextTaskId_fresh (tasks : list Task) :
  (forall m, In m (map id tasks) -> (forall t, In t tasks -> id t <= m) ->
             JS.safe m) ->
  Chat.getNextTaskId [] = 1
  /\ (tasks <> [] ->
      (exists m, In m (map id tasks)
                 /\ (forall t, In t tasks -> id t <= m)
                 /\ Chat.getNextTaskId tasks = m + 1)
      /\ (forall t, In t tasks -> id t < Chat.getNextTaskId tasks)).
Proof.
  intros Hsafe. split; [reflexivity |].
  intros Hne. destruct tasks as [| t0 ts]; [congruence |].
  destruct (fold_max_bounds (map id ts) (id t0)) as (H1 & H2 & H3).
  assert (Hall : forall t, In t (t0 :: ts) -> id t <= fold_left Z.max (map id ts) (id t0)).
  { intros t [<- | Ht]; [exact H1 |]. apply H2. now apply in_map. }
  assert (Hin : In (fold_left Z.max (map id ts) (id t0)) (map id (t0 :: ts))).
  { destruct H3 as [-> | H3]; [now left | now right]. }
  rewrite (getNextTaskId_max t0 ts (Hsafe _ Hin Hall)).
  split.
  - exists (fold_left Z.max (map id ts) (id t0)). repeat split.
    + exact Hin.
    + exact Hall.
  - intros t Ht. specialize (Hall t Ht). lia.
Qed.

(** Witness of [getNextTaskId_fresh] on a store with the ids 1 and 2. *)
Lemma getNextTaskId_fresh_witness :
  Sample.two_tasks <> []
  /\ Chat.getNextTaskId Sample.two_tasks = 3
  /\ (forall t, In t Sample.two_tasks -> id t < Chat.getNextTaskId Sample.two_tasks).
Proof.
  assert (Hne : Sample.two_tasks <> []) by discriminate.
  assert (Hsafe : forall m, In m (map id Sample.two_tasks) ->
                    (forall t, In t Sample.two_tasks -> id t <= m) -> JS.safe m).
  { intros m [<- | [<- | []]] _; reflexivity. }
  split; [exact Hne |]. split; [reflexivity |].
  exact (proj2 (proj2 (getNextTaskId_fresh Sample.two_tasks Hsafe) Hne)).
Defined.

(** C3, counterexample.  A store whose only task has the id [2^53]:
    [Math.max(...ids) + 1] is computed in doubles, where [2^53 + 1] is
    [2^53]; the id returned is not the largest id plus one and is not
    greater than the existing id. *)
Lemma getNextTaskId_repeats_2_53 :
  let tasks := [Sample.task (2 ^ 53) "T" pending 2 []] in
  Chat.getNextTaskId tasks = 2 ^ 53
  /\ Chat.getNextTaskId tasks <> 2 ^ 53 + 1
  /\ ~ (forall t, In t tasks -> id t < Chat.getNextTaskId tasks).
Proof.
  intros tasks.
  assert (E : Chat.getNextTaskId tasks = 2 ^ 53) by (vm_compute; reflexivity).
  split; [exact E |]. split.
  - rewrite E. vm_compute. discriminate.
  - intros H. specialize (H _ (or_introl eq_refl)). rewrite E in H.
    vm_compute in H. discriminate.
Qed.

(** ** The scheduler: [getNextTask] *)

Section Sorting.

Context {A : Type}.
Variable cmp : A -> A -> JS.Number.

Lemma head_insert (x : A) (l : list A) :
  hd_error (JS.insert cmp x l)
  = match hd_error l with
    | None => Some x
    | Some h => if JS.after (cmp x h) then Some h else Some x
    end.
Proof. destruct l as [| y r]; simpl; [reflexivity |]. now destruct (JS.after (cmp x y)). Qed.

Lemma head_sort (l : list A) : hd_error (JS.sort cmp l) = front cmp l.
Proof.
  induction l as [| x r IH]; simpl; [reflexivity |].
  now rewrite head_insert, IH.
Qed.

(** A comparator that never answers "greater" leaves the array as it is. *)
Lemma sort_never_after (l : list A) :
  (forall a b, JS.after (cmp a b) = false) -> JS.sort cmp l = l.
Proof.
  intros H. induction l as [| x r IH]; simpl; [reflexivity |].
  rewrite IH. destruct r as [| y r']; simpl; [reflexivity |]. now rewrite H.
Qed.

End Sorting.

Lemma front_none {A} (cmp : A -> A -> JS.Number) (l : list A) :
  front cmp l = None -> l = [].
Proof.
  destruct l as [| x r]; simpl; [reflexivity |].
  destruct (front cmp r); [destruct (JS.after _) |]; discriminate.
Qed.

Lemma front_first_least (l : list Task) (x : Task) :
  front ContextTracker.by_priority l = Some x -> first_least x l.
Proof.
  revert x. induction l as [| y r IH]; simpl; intros x; [discriminate |].
  destruct (front ContextTracker.by_priority r) as [h |] eqn:Hr.
  - destruct (IH h eq_refl) as (before & behind & -> & Hb & Ha).
    destruct (Z.ltb_spec 0 (priority y - priority h)); intros [= <-].
    + exists (y :: before), behind. repeat split; [| exact Ha].
      intros z [<- | Hz]; [lia | now apply Hb].
    + exists [], (before ++ h :: behind). repeat split; [intros z [] |].
      intros z Hz. apply in_app_or in Hz as [Hz | [<- | Hz]].
      * specialize (Hb z Hz). lia.
      * lia.
      * specialize (Ha z Hz). lia.
  - intros [= <-]. destruct r as [| z r'].
    + exists [], []. repeat split; intros ? [].
    + apply front_none in Hr. discriminate.
Qed.

(** A position in the filtered array is a position in the array. *)
Lemma filter_position {A} (p : A -> bool) (l : list A) (x : A) (before behind : list A) :
  filter p l = before ++ x :: behind ->
  exists before' behind',
    l = before' ++ x :: behind'
    /\ filter p before' = before /\ filter p behind' = behind.
Proof.
  revert before. induction l as [| y r IH]; simpl; intros before H.
  - destruct before; discriminate.
  - destruct (p y) eqn:Hy.
    + destruct before as [| b before]; simpl in H; injection H as <- H.
      * exists [], r. repeat split. exact H.
      * destruct (IH _ H) as (b' & a' & -> & <- & <-).
        exists (y :: b'), a'. simpl. rewrite Hy. repeat split.
    + destruct (IH _ H) as (b' & a' & -> & <- & <-).
      exists (y :: b'), a'. simpl. rewrite Hy. repeat split.
Qed.

(** X1.  [getNextTask] of context-tracker.js meets the scheduler's contract
    on every loadable store: it returns a pending task of least priority
    number, the earliest in list order among equals, and none exactly when
    no task is pending; it changes nothing. *)
Theorem ContextTracker_getNextTask_contract (w : World) (d : TasksData) :
  tasksFile w = Content d ->
  exists r, ContextTracker.getNextTask w = Returned r w /\ next_contract (tasks d) r.
Proof.
  intros Hd. unfold ContextTracker.getNextTask, ContextTracker.loadTasks,
    bind, readTasksFile, ret. rewrite Hd.
  destruct (tasks d) as [| t0 ts] eqn:Hts.
  - exists None. split; [reflexivity |]. intros y [].
  - rewrite <- Hts. clear Hts t0 ts.
    pose proof (head_sort ContextTracker.by_priority (filter is_pending (tasks d))) as Hh.
      destruct (JS.sort ContextTracker.by_priority (filter is_pending (tasks d)))
      as [| x s]; simpl in Hh; symmetry in Hh.
    + exists None. split; [reflexivity |]. apply front_none in Hh.
      intros y Hy. destruct (is_pending y) eqn:Hp; [| reflexivity].
      assert (In y (filter is_pending (tasks d))) as Hin by (apply filter_In; tauto).
      rewrite Hh in Hin. destruct Hin.
    + exists (Some x). split; [reflexivity |].
      apply front_first_least in Hh. destruct Hh as (b & a & Hf & Hb & Ha).
      destruct (filter_position _ _ _ _ _ Hf) as (b' & a' & Hl & <- & <-).
      split.
      * assert (In x (filter is_pending (tasks d))) as Hin
          by (rewrite Hf; apply in_elt).
        now apply filter_In in Hin.
      * exists b', a'. split; [exact Hl |]. split; intros y Hy Hp.
        -- apply Hb. apply filter_In. tauto.
        -- apply Ha. apply filter_In. tauto.
Qed.

(** Witness of [ContextTracker_getNextTask_contract]: of four pending tasks
    with the priorities 3, 1, 2, 1 the second is returned. *)
Lemma ContextTracker_getNextTask_contract_witness :
  exists r,
    ContextTracker.getNextTask (Sample.store Sample.priorities_3121 Sample.emptyContext)
    = Returned r (Sample.store Sample.priorities_3121 Sample.emptyContext)
    /\ next_contract Sample.priorities_3121 r
    /\ option_map id r = Some 2.
Proof.
  destruct (ContextTracker_getNextTask_contract
              (Sample.store Sample.priorities_3121 Sample.emptyContext)
              {| project := "demo"; version := "1.0.0"; tasks := Sample.priorities_3121 |}
              eq_refl) as (r & E & H).
  exists r. split; [exact E |]. split; [exact H |].
  pose proof E as E'. vm_compute in E'. injection E' as <-. reflexivity.
Defined.

Lemma decimal_head (z : Z) : numeric_head (JS.decimal z) = true.
Proof.
  unfold JS.decimal, NilZero.string_of_int.
  destruct (Z.to_int z) as [u | u]; [destruct u |]; reflexivity.
Qed.

Lemma render_head (s n k : Z) : numeric_head (JS.render s n k) = true.
Proof.
  unfold JS.render. pose proof (decimal_head s) as H.
  destruct (JS.decimal s) as [| c r]; [discriminate |].
  destruct (n <=? 21); exact H.
Qed.

Lemma toString_head (n : Z) : numeric_head (JS.toString n) = true.
Proof.
  unfold JS.toString.
  destruct (Z.abs n <? 2 ^ 53); [apply decimal_head |].
  destruct (n <? 0); [reflexivity |].
  destruct (JS.infinity <=? Z.abs n); [reflexivity |].
  destruct (JS.shortest _ _ _ _) as [[s n'] k]. apply render_head.
Qed.

Lemma priorityOrder_numeric_head (s : string) :
  numeric_head s = true -> Next.priorityOrder s = JS.NaN.
Proof.
  destruct s as [| c r]; [discriminate |].
  unfold Next.priorityOrder, numeric_head.
  destruct c as [[] [] [] [] [] [] [] []]; try discriminate; reflexivity.
Qed.

(** A numeric priority is never a key of [priorityOrder]. *)
Lemma priorityOrder_numeric (n : Z) : Next.priorityOrder (JS.toString n) = JS.NaN.
Proof. apply priorityOrder_numeric_head, toString_head. Qed.

(** [getNextTask] of the next-task script returns the first pending task
    in list order, whatever the priorities. *)
Lemma Next_getNextTask_first_pending (w : World) (d : TasksData) :
  tasksFile w = Content d ->
  Next.getNextTask w = Returned (hd_error (filter is_pending (tasks d))) w.
Proof.
  intros Hd. unfold Next.getNextTask, Next.loadTasks, Complete.loadTasks,
    bind, readTasksFile, ret. rewrite Hd.
  rewrite sort_never_after.
  - now destruct (filter is_pending (tasks d)).
  - intros a b. unfold Next.by_priority_name. now rewrite !priorityOrder_numeric.
Qed.

(** C2.  On four pending tasks with the priorities 3, 1, 2, 1 the
    next-task script's [getNextTask] returns the first task, of priority 3,
    where the scheduler's contract (and [getNextTask] of context-tracker.js)
    gives the first task of priority 1. *)
Theorem Next_getNextTask_priorities_3121 :
  let w := Sample.store Sample.priorities_3121 Sample.emptyContext in
  Next.getNextTask w = Returned (Some (Sample.task 1 "p3" pending 3 [])) w
  /\ ContextTracker.getNextTask w
     = Returned (Some (Sample.task 2 "p1 first" pending 1 [])) w
  /\ ~ next_contract Sample.priorities_3121 (Some (Sample.task 1 "p3" pending 3 [])).
Proof.
  repeat split.
  intros (_ & before & behind & Hl & _ & Ha).
  destruct before as [| b before].
  - injection Hl as <-. specialize (Ha (Sample.task 2 "p1 first" pending 1 [])).
    simpl in Ha. specialize (Ha (or_introl eq_refl) eq_refl). lia.
  - injection Hl as <- Hl.
    assert (In (Sample.task 1 "p3" pending 3 []) (before ++ Sample.task 1 "p3" pending 3 [] :: behind))
      as Hin by apply in_elt.
    rewrite <- Hl in Hin. simpl in Hin.
    destruct Hin as [H | [H | [H | []]]]; discriminate.
Qed.

(** ** Running scripts *)

Lemma bind_returned {A B} (c : Script A) (k : A -> Script B) (w w' : World) (a : A) :
  c w = Returned a w' -> bind c k w = k a w'.
Proof. unfold bind. now intros ->. Qed.

Lemma same_tasks_refl (w : World) : same_tasks w w.
Proof. now split. Qed.

Lemma same_tasks_trans (w1 w2 w3 : World) :
  same_tasks w1 w2 -> same_tasks w2 w3 -> same_tasks w1 w3.
Proof. intros [H1 H2] [H3 H4]. split; congruence. Qed.

Lemma keeps_ret {A} (a : A) : keeps_tasks (ret a).
Proof. intros w. exists a, w. split; [reflexivity | apply same_tasks_refl]. Qed.

Lemma keeps_bind {A B} (c : Script A) (k : A -> Script B) :
  keeps_tasks c -> (forall a, keeps_tasks (k a)) -> keeps_tasks (bind c k).
Proof.
  intros Hc Hk w. destruct (Hc w) as (a & w1 & E1 & S1).
  destruct (Hk a w1) as (b & w2 & E2 & S2).
  exists b, w2. split; [| eapply same_tasks_trans; eassumption].
  now rewrite (bind_returned _ _ _ _ _ E1).
Qed.

Lemma keeps_now : keeps_tasks now.
Proof. intros w. exists (clock w (ticks w)), (tick w). repeat split. Qed.

Lemma keeps_readTasksFile : keeps_tasks readTasksFile.
Proof. intros w. exists (tasksFile w), w. repeat split. Qed.

Lemma keeps_readContextFile : keeps_tasks readContextFile.
Proof. intros w. exists (contextFile w), w. repeat split. Qed.

Lemma keeps_writeContextFile (c : Context) : keeps_tasks (writeContextFile c).
Proof.
  intros w. unfold writeContextFile. destruct (contextWritable w).
  - exists true, (put_contextFile (Content c) w). repeat split.
  - exists false, w. repeat split.
Qed.

Create HintDb keeps discriminated.

#[local] Hint Resolve keeps_ret keeps_now keeps_readTasksFile
  keeps_readContextFile keeps_writeContextFile : keeps.

(** Decompose a script along its binds and case distinctions. *)
Ltac keeps_step :=
  match goal with
  | |- keeps_tasks (bind _ _) => apply keeps_bind; [| intros ?]
  | |- keeps_tasks (match ?x with _ => _ end) => destruct x
  | |- keeps_tasks (if ?x then _ else _) => destruct x
  | |- keeps_tasks _ => solve [auto with keeps]
  end.

Ltac keeps := repeat keeps_step.

Lemma keeps_loadContext : keeps_tasks ContextTracker.loadContext.
Proof. unfold ContextTracker.loadContext, ContextTracker.createContext. keeps. Qed.

Lemma keeps_loadTasks : keeps_tasks ContextTracker.loadTasks.
Proof. unfold ContextTracker.loadTasks. keeps. Qed.

#[local] Hint Resolve keeps_loadContext keeps_loadTasks : keeps.

Lemma keeps_addHistoryEntry n a s dt :
  keeps_tasks (ContextTracker.addHistoryEntry n a s dt).
Proof. unfold ContextTracker.addHistoryEntry, ContextTracker.saveContext. keeps. Qed.

Lemma keeps_getTaskHistory n : keeps_tasks (ContextTracker.getTaskHistory n).
Proof. unfold ContextTracker.getTaskHistory. keeps. Qed.

Lemma keeps_getNextTask : keeps_tasks ContextTracker.getNextTask.
Proof. unfold ContextTracker.getNextTask. keeps. Qed.

#[local] Hint Resolve keeps_addHistoryEntry keeps_getTaskHistory
  keeps_getNextTask : keeps.

Lemma keeps_prepareTaskContextForCopilot n :
  keeps_tasks (ContextTracker.prepareTaskContextForCopilot n).
Proof. unfold ContextTracker.prepareTaskContextForCopilot. keeps. Qed.

#[local] Hint Resolve keeps_prepareTaskContextForCopilot : keeps.

Lemma keeps_updateContextAfterTaskCompletion n s :
  keeps_tasks (ContextTracker.updateContextAfterTaskCompletion n s).
Proof.
  unfold ContextTracker.updateContextAfterTaskCompletion, ContextTracker.saveContext.
  keeps.
Qed.

#[local] Hint Resolve keeps_updateContextAfterTaskCompletion : keeps.

(** ** The completion-status query of the chat *)

(** C10.  For a task whose subtask ids are the composite strings
    `${parentId}.${ordinal}`, [checkTaskCompletion] on a dotted id answers
    "subtask not found", whether or not the subtask exists: the part after
    the dot is parsed to a number, and no string id is strictly equal to a
    number. *)
Theorem checkTaskCompletion_dotted_id_not_found
    (w : World) (d : TasksData) (taskId first second : string)
    (rest : list string) (task : Task) :
  tasksFile w = Content d ->
  JS.split "." taskId = (first, second :: rest) ->
  JS.find (is_task (JS.parseInt first)) (tasks d) = Some task ->
  (forall st, In st (subtasks task) ->
     exists ordinal, sub_id st = Chat.subtask_id (id task) ordinal) ->
  Chat.checkTaskCompletion taskId w
  = Returned {| Chat.success := false;
                Chat.message := Chat.SubtaskNotFound taskId;
                Chat.isDone := None |} w.
Proof.
  intros Hd Hsplit Hfind Hids.
  unfold Chat.checkTaskCompletion, Chat.loadTasks, Complete.loadTasks.
  unfold bind, readTasksFile, ret. rewrite Hd, Hsplit, Hfind.
  rewrite find_unknown; [reflexivity |].
  intros st Hst. destruct (Hids st Hst) as [ordinal E].
  unfold is_subtask_number. now rewrite E.
Qed.

(** Witness of [checkTaskCompletion_dotted_id_not_found]: subtask "2.1" of
    task 2 exists and is done, and the query on "2.1" does not find it. *)
Lemma checkTaskCompletion_dotted_id_not_found_witness :
  let w := Sample.store Sample.two_tasks Sample.active_context in
  In (Sample.sub "2.1" "first" done)
     (subtasks (Sample.task 2 "B" pending 2
                  [Sample.sub "2.1" "first" done; Sample.sub "2.2" "second" pending]))
  /\ Chat.checkTaskCompletion "2.1" w
     = Returned {| Chat.success := false;
                   Chat.message := Chat.SubtaskNotFound "2.1";
                   Chat.isDone := None |} w.
Proof.
  split; [now left |].
  apply (checkTaskCompletion_dotted_id_not_found _
           {| project := "demo"; version := "1.0.0"; tasks := Sample.two_tasks |}
           "2.1" "2" "1" []
           (Sample.task 2 "B" pending 2
              [Sample.sub "2.1" "first" done; Sample.sub "2.2" "second" pending]));
    try reflexivity.
  intros st [<- | [<- | []]]; [exists 1%nat | exists 2%nat]; reflexivity.
Defined.

(** ** [updateTaskStatus] and the task store *)

Lemma stored_same_tasks n Q w w' :
  same_tasks w w' -> stored n Q w -> stored n Q w'.
Proof.
  intros [Hf Hw] (Hwr & d & t & Hd & Ht & HQ).
  split; [congruence |]. exists d, t. repeat split; congruence.
Qed.

Lemma is_task_set_updated_at n u t : is_task n (set_updated_at u t) = is_task n t.
Proof. reflexivity. Qed.

Lemma is_task_set_status n s t : is_task n (set_status s t) = is_task n t.
Proof. reflexivity. Qed.

(** [updateTaskStatus] always returns; on a writable store holding the
    task it sets the status and keeps the subtasks. *)
Lemma updateTaskStatus_stored n s txt (L : list Subtask) w :
  stored n (fun t => subtasks t = L) w ->
  exists b w',
    ContextTracker.updateTaskStatus n s txt w = Returned b w'
    /\ stored n (fun t => subtasks t = L /\ status t = s) w'.
Proof.
  intros (Hwr & d & t & Hd & Ht & HL).
  unfold ContextTracker.updateTaskStatus, ContextTracker.loadTasks.
  unfold bind at 1 2. unfold readTasksFile at 1. rewrite Hd. unfold ret at 1.
  destruct (JS.findIndex (is_task n) (tasks d)) as [i |] eqn:Hi.
  2: { apply findIndex_find in Hi. congruence. }
  rewrite (findIndex_item _ _ _ Hi), Ht.
  unfold bind at 1. unfold now at 1.
  unfold bind at 1. unfold writeTasksFile at 1. simpl tasksWritable.
  rewrite Hwr.
  destruct (keeps_addHistoryEntry n (ContextTracker.action_for (status t) s) txt
              (Some (status t, s))
              (put_tasksFile
                 (Content (set_tasks
                    (JS.assign (tasks d) i
                       (set_updated_at (clock w (ticks w)) (set_status s t))) d))
                 (tick w)))
    as (b & w' & E & S).
  exists b, w'. split; [exact E |].
  apply (stored_same_tasks _ _ _ _ S).
  split; [exact Hwr |].
  eexists. eexists. split; [reflexivity |]. simpl.
  rewrite (assign_findIndex _ _ _ _ Hi).
  rewrite (find_mutate_found _ _ _ _ Ht).
  - repeat split. exact HL.
  - apply find_in in Ht. now destruct Ht.
Qed.

(** ** Completing tasks and subtasks: the task store *)

Lemma keeps_finish taskId mainTaskId summary ok m :
  keeps_tasks (Complete.finish taskId mainTaskId summary ok m).
Proof. unfold Complete.finish. keeps. Qed.


Lemma loadTasks_content (w : World) (d : TasksData) :
  tasksFile w = Content d -> Complete.loadTasks w = Returned d w.
Proof.
  intros Hd. unfold Complete.loadTasks, bind, readTasksFile. now rewrite Hd.
Qed.

Lemma saveTasks_writable (w : World) (d : TasksData) :
  tasksWritable w = true ->
  Complete.saveTasks d w = Returned true (put_tasksFile (Content d) w).
Proof. intros Hw. unfold Complete.saveTasks, writeTasksFile. now rewrite Hw. Qed.


(** Completing a task: the stored task afterwards. *)
Lemma completeMainTask_stored (w : World) (d : TasksData) (taskId : string)
    (summary : option string) (task : Task) :
  tasksFile w = Content d -> tasksWritable w = true ->
  JS.includes "." taskId = false ->
  JS.find (is_task (JS.parseInt taskId)) (tasks d) = Some task ->
  exists r w',
    Complete.completeTaskWithContextUpdate taskId summary w = Returned r w'
    /\ stored (JS.parseInt taskId)
         (fun t => subtasks t = map (set_sub_status done) (subtasks task)
                   /\ status t = done) w'.
Proof.
  intros Hd Hw Hdot Hp.
  unfold Complete.completeTaskWithContextUpdate.
  rewrite (bind_returned _ _ _ _ _ (loadTasks_content _ _ Hd)).
  rewrite Hdot. cbn [negb]. unfold Complete.completeMainTask.
  rewrite Hp.
  unfold bind at 1. unfold now at 1.
  set (task' := set_subtasks _ _).
  assert (Hw1 : tasksWritable (tick w) = true) by exact Hw.
  rewrite (bind_returned _ _ _ _ _ (saveTasks_writable _ _ Hw1)).
  set (w1 := put_tasksFile _ _).
  assert (S1 : stored (JS.parseInt taskId)
                 (fun t => subtasks t = map (set_sub_status done) (subtasks task)) w1).
  { split; [exact Hw |]. eexists. eexists. split; [reflexivity |]. simpl.
    rewrite (find_mutate_found _ _ _ _ Hp); [split; reflexivity |].
    apply find_in in Hp. now destruct Hp. }
  clearbody w1 task'.
  destruct (updateTaskStatus_stored (JS.parseInt taskId) done
              (Complete.summary_or summary
                 (TxtTaskDone (title task) (List.length (subtasks task))))
              _ w1 S1)
    as (b & w2 & E2 & S2).
  rewrite (bind_returned _ _ _ _ _ E2).
  destruct (keeps_finish taskId (JS.parseInt taskId) summary true
              (Complete.TaskCompleted (JS.parseInt taskId) (title task)) w2)
    as (r & w3 & E3 & S3).
  exists r, w3. split; [exact E3 |].
  now apply (stored_same_tasks _ _ _ _ S3).
Qed.





(** ** Starting a task *)

Lemma truthy_nonempty (s : string) : s <> EmptyString -> JS.truthy (Some s) = true.
Proof. destruct s; [congruence | reflexivity]. Qed.

(** The id that [parseInt] extracted is the id of the task found with it. *)
Lemma is_task_found (n : JS.Number) (l : list Task) (t : Task) :
  JS.find (is_task n) l = Some t -> n = Some (id t).
Proof.
  intros H. apply find_in in H as [_ H]. unfold is_task, JS.num_eq in H.
  destruct n as [m |]; [| discriminate]. apply Z.eqb_eq in H. now subst.
Qed.

(** [startTaskExecution] on an id that is not in the store. *)
Lemma startTaskExecution_unknown_id (w : World) (d : TasksData) (taskId : string) :
  tasksFile w = Content d ->
  taskId <> EmptyString ->
  (forall t, In t (tasks d) -> is_task (JS.parseInt taskId) t = false) ->
  Complete.startTaskExecution (Some taskId) w
  = Returned (Complete.ReportNotFound (Some taskId)) w.
Proof.
  intros Hd Hne Hunknown. unfold Complete.startTaskExecution. cbn [JS.parseIntArg].
  rewrite (bind_returned _ _ _ _ _ (loadTasks_content _ _ Hd)).
  rewrite (truthy_nonempty _ Hne).
  unfold bind, ret. now rewrite (find_unknown _ _ Hunknown).
Qed.

(** C7.  Starting a task whose id is not in the store fails with the
    task-not-found report and leaves the world, the task store included,
    exactly as it was: nothing is saved.  This holds for
    [startTaskExecution] of complete.js and for [startNextTask] of the
    next-task script. *)
Theorem start_unknown_id_unchanged (w : World) (d : TasksData) (taskId : string) :
  tasksFile w = Content d ->
  taskId <> EmptyString ->
  (forall t, In t (tasks d) -> is_task (JS.parseInt taskId) t = false) ->
  (Complete.startTaskExecution (Some taskId) w
   = Returned (Complete.ReportNotFound (Some taskId)) w
   /\ Complete.report_error (Complete.ReportNotFound (Some taskId))
      = Some Err.TaskNotFound)
  /\ (Next.startNextTask false (Some taskId) w
      = Returned (Next.failure (Next.NotFoundOrNotPending (Some taskId))) w
      /\ Next.error_of (Next.NotFoundOrNotPending (Some taskId))
         = Some Err.TaskNotFound).
Proof.
  intros Hd Hne Hunknown. repeat split.
  - now apply (startTaskExecution_unknown_id w d).
  - unfold Next.startNextTask, Next.loadTasks. cbn [JS.parseIntArg].
    rewrite (bind_returned _ _ _ _ _ (loadTasks_content _ _ Hd)).
    rewrite (truthy_nonempty _ Hne).
    unfold bind, ret. rewrite find_unknown; [reflexivity |].
    intros t Ht. now rewrite (Hunknown t Ht).
Qed.

(** Witness of [start_unknown_id_unchanged]: id 7 in a store with the ids
    1 and 2. *)
Lemma start_unknown_id_unchanged_witness :
  let w := Sample.store Sample.two_tasks Sample.active_context in
  Complete.startTaskExecution (Some "7") w
  = Returned (Complete.ReportNotFound (Some "7")) w
  /\ Next.startNextTask false (Some "7") w
     = Returned (Next.failure (Next.NotFoundOrNotPending (Some "7"))) w.
Proof.
  intros w.
  assert (Hunknown : forall t, In t Sample.two_tasks -> is_task (JS.parseInt "7") t = false).
  { intros t [<- | [<- | []]]; reflexivity. }
  assert (Hne : "7" <> EmptyString) by discriminate.
  destruct (start_unknown_id_unchanged w
              {| project := "demo"; version := "1.0.0"; tasks := Sample.two_tasks |}
              "7" eq_refl Hne Hunknown) as [[H1 _] [H2 _]].
  split; assumption.
Defined.

Lemma getCurrentTask_content (w : World) (d : TasksData) :
  tasksFile w = Content d ->
  Next.getCurrentTask w = Returned (hd_error (filter is_in_progress (tasks d))) w.
Proof.
  intros Hd. unfold Next.getCurrentTask, Next.loadTasks.
  rewrite (bind_returned _ _ _ _ _ (loadTasks_content _ _ Hd)).
  now destruct (filter is_in_progress (tasks d)).
Qed.

(** [startTaskExecution] on a known id and a writable store starts the
    task, whatever its status and whatever else is in progress. *)
Lemma startTaskExecution_starts (w : World) (d : TasksData) (taskId : string) (t : Task) :
  tasksFile w = Content d -> tasksWritable w = true ->
  taskId <> EmptyString ->
  JS.find (is_task (JS.parseInt taskId)) (tasks d) = Some t ->
  exists w',
    Complete.startTaskExecution (Some taskId) w
    = Returned (Complete.ReportStarted (id t) (title t)) w'
    /\ stored (JS.parseInt taskId) (fun t' => status t' = in_progress) w'.
Proof.
  intros Hd Hw Hne Ht.
  pose proof (is_task_found _ _ _ Ht) as Hn.
  unfold Complete.startTaskExecution. cbn [JS.parseIntArg].
  rewrite (bind_returned _ _ _ _ _ (loadTasks_content _ _ Hd)).
  rewrite (truthy_nonempty _ Hne).
  unfold bind at 1. unfold ret at 1. rewrite Ht.
  unfold bind at 1. unfold now at 1.
  set (task' := set_updated_at _ _).
  assert (Hid : Some (id task') = JS.parseInt taskId) by (now rewrite Hn).
  rewrite Hid.
  assert (Hp' : is_task (JS.parseInt taskId) task' = true).
  { apply find_in in Ht. now destruct Ht. }
  pose proof (find_mutate_found _ (fun _ => task') _ _ Ht Hp') as Hf.
  destruct (JS.findIndex (is_task (JS.parseInt taskId))
              (JS.mutate_found (is_task (JS.parseInt taskId)) (fun _ => task') (tasks d)))
    as [i |] eqn:Hi.
  2: { apply findIndex_find in Hi. congruence. }
  rewrite (assign_findIndex _ _ _ _ Hi).
  rewrite mutate_found_twice by (intros; exact Hp').
  assert (Hw1 : tasksWritable (tick w) = true) by exact Hw.
  rewrite (bind_returned _ _ _ _ _ (saveTasks_writable _ _ Hw1)).
  set (w1 := put_tasksFile _ _).
  assert (S1 : stored (JS.parseInt taskId) (fun t' => subtasks t' = subtasks t) w1).
  { split; [exact Hw |]. eexists. eexists. split; [reflexivity |]. simpl.
    rewrite Hf. split; reflexivity. }
  clearbody w1.
  destruct (updateTaskStatus_stored _ in_progress (TxtStarted (title task')) _ w1 S1)
    as (b & w2 & E2 & S2).
  rewrite (bind_returned _ _ _ _ _ E2).
  destruct (keeps_prepareTaskContextForCopilot (id task') w2) as (c & w3 & E3 & S3).
  rewrite (bind_returned _ _ _ _ _ E3).
  exists w3. split; [reflexivity |].
  apply (stored_same_tasks _ _ _ _ S3).
  destruct S2 as (Hw2 & d2 & t2 & Hd2 & Ht2 & _ & Hs2).
  split; [exact Hw2 |]. now exists d2, t2.
Qed.

(** C4, as the code has it.  In the next flow ([startNextTask] with a
    target id) a start succeeds only on a pending task and only while no
    task is in progress; an id that is not in the store gets the
    not-found-or-not-pending failure; a pending target beside a task in
    progress gets the already-active failure.  The direct start
    ([startTaskExecution]) fails on an id that is not in the store and has
    no already-active failure: it starts a pending task whatever else is in
    progress. *)
Theorem start_guards (w : World) (d : TasksData) (taskId : string) :
  tasksFile w = Content d ->
  taskId <> EmptyString ->
  let isTarget := fun t => (is_task (JS.parseInt taskId) t && is_pending t)%bool in
  (forall r w',
     Next.startNextTask false (Some taskId) w = Returned r w' ->
     Next.success r = true ->
     (exists t, In t (tasks d) /\ is_task (JS.parseInt taskId) t = true
                /\ status t = pending)
     /\ (forall u, In u (tasks d) -> status u <> in_progress))
  /\ ((forall t, In t (tasks d) -> is_task (JS.parseInt taskId) t = false) ->
      Next.startNextTask false (Some taskId) w
      = Returned (Next.failure (Next.NotFoundOrNotPending (Some taskId))) w)
  /\ (forall t active others,
        JS.find isTarget (tasks d) = Some t ->
        filter is_in_progress (tasks d) = active :: others ->
        Next.startNextTask false (Some taskId) w
        = Returned {| Next.success := false;
                      Next.message := Next.AlreadyActive (id active) (title active);
                      Next.task := None; Next.currentTask := Some active;
                      Next.copilotContext := None |} w)
  /\ ((forall t, In t (tasks d) -> is_task (JS.parseInt taskId) t = false) ->
      Complete.startTaskExecution (Some taskId) w
      = Returned (Complete.ReportNotFound (Some taskId)) w)
  /\ (forall t,
        JS.find (is_task (JS.parseInt taskId)) (tasks d) = Some t ->
        status t = pending ->
        tasksWritable w = true ->
        exists w',
          Complete.startTaskExecution (Some taskId) w
          = Returned (Complete.ReportStarted (id t) (title t)) w'
          /\ stored (JS.parseInt taskId) (fun t' => status t' = in_progress) w').
Proof.
  intros Hd Hne isTarget.
  assert (Hrun : Next.startNextTask false (Some taskId) w
                 = match JS.find isTarget (tasks d) with
                   | None => Returned (Next.failure (Next.NotFoundOrNotPending (Some taskId))) w
                   | Some found =>
                       match filter is_in_progress (tasks d) with
                       | active :: _ =>
                           Returned {| Next.success := false;
                                       Next.message := Next.AlreadyActive (id active) (title active);
                                       Next.task := None; Next.currentTask := Some active;
                                       Next.copilotContext := None |} w
                       | [] => Next.startNextTask false (Some taskId) w
                       end
                   end).
  { unfold Next.startNextTask at 1, Next.loadTasks. cbn [JS.parseIntArg].
    rewrite (bind_returned _ _ _ _ _ (loadTasks_content _ _ Hd)).
    rewrite (truthy_nonempty _ Hne).
    unfold bind at 1. unfold ret at 1. fold isTarget.
    destruct (JS.find isTarget (tasks d)) as [found |] eqn:Hf; [| reflexivity].
    destruct (filter is_in_progress (tasks d)) as [| active others] eqn:Ha.
    - unfold Next.startNextTask, Next.loadTasks. cbn [JS.parseIntArg].
      rewrite (bind_returned _ _ _ _ _ (loadTasks_content _ _ Hd)).
      rewrite (truthy_nonempty _ Hne).
      unfold bind at 1. unfold ret at 1. fold isTarget. now rewrite Hf.
    - rewrite (bind_returned _ _ _ _ _ (getCurrentTask_content _ _ Hd)).
      now rewrite Ha. }
  split; [| split; [| split; [| split]]].
  - intros r w' Hr Hs. rewrite Hrun in Hr.
    destruct (JS.find isTarget (tasks d)) as [found |] eqn:Hf.
    2: { injection Hr as <- _. discriminate. }
    destruct (filter is_in_progress (tasks d)) as [| active others] eqn:Ha.
    2: { injection Hr as <- _. discriminate. }
    apply find_in in Hf as [Hin Hp]. apply andb_true_iff in Hp as [Hp1 Hp2].
    split.
    + exists found. repeat split; try assumption.
      unfold is_pending in Hp2. now destruct (status found).
    + intros u Hu Hs'.
      assert (In u (filter is_in_progress (tasks d))) as Hin'.
      { apply filter_In. split; [exact Hu |]. unfold is_in_progress. now rewrite Hs'. }
      rewrite Ha in Hin'. destruct Hin'.
  - intros Hunknown. rewrite Hrun. rewrite find_unknown; [reflexivity |].
    intros t Ht. unfold isTarget. now rewrite (Hunknown t Ht).
  - intros t active others Hf Ha. rewrite Hrun, Hf, Ha. reflexivity.
  - intros Hunknown.
    apply (startTaskExecution_unknown_id w d taskId Hd Hne Hunknown).
  - intros t Ht _ Hw. now apply (startTaskExecution_starts w d).
Qed.

(** Witness of [start_guards] on a store where task 1 is in progress and
    task 2 is pending: the next flow refuses to start task 2, the direct
    start starts it. *)
Lemma start_guards_witness :
  let w := Sample.store Sample.two_tasks Sample.active_context in
  Next.startNextTask false (Some "2") w
  = Returned {| Next.success := false;
                Next.message := Next.AlreadyActive 1 "A";
                Next.task := None;
                Next.currentTask := Some (Sample.task 1 "A" in_progress 1 []);
                Next.copilotContext := None |} w
  /\ exists w',
       Complete.startTaskExecution (Some "2") w
       = Returned (Complete.ReportStarted 2 "B") w'
       /\ stored (Some 2) (fun t' => status t' = in_progress) w'.
Proof.
  intros w.
  assert (Hne : "2" <> EmptyString) by discriminate.
  destruct (start_guards w
              {| project := "demo"; version := "1.0.0"; tasks := Sample.two_tasks |}
              "2" eq_refl Hne) as (_ & _ & Hactive & _ & Hdirect).
  split.
  - exact (Hactive _ (Sample.task 1 "A" in_progress 1 []) [] eq_refl eq_refl).
  - exact (Hdirect _ eq_refl eq_refl eq_refl).
Defined.

(** C4, counterexample.  Task 1 is in progress and task 2 is pending;
    [startTaskExecution] on "2" succeeds and puts task 2 in progress beside
    task 1: no already-active failure although another task is in
    progress. *)
Lemma startTaskExecution_starts_beside_active :
  let w := Sample.store Sample.two_tasks Sample.active_context in
  let o := Complete.startTaskExecution (Some "2") w in
  value_of o = Some (Complete.ReportStarted 2 "B")
  /\ Complete.report_error (Complete.ReportStarted 2 "B") = None
  /\ match tasksFile (world_of o) with
     | Content d' => map status (tasks d') = [in_progress; in_progress]
     | _ => False
     end.
Proof. repeat split. Qed.

(** The direct start does not look at the status of the task either: with
    task 1 in progress and task 2 done, [startTaskExecution] on "2" puts
    the done task in progress again, which [startNextTask] refuses. *)
Example startTaskExecution_starts_done_task_beside_active :
  let w := Sample.store Sample.active_and_done Sample.active_context in
  let o := Complete.startTaskExecution (Some "2") w in
  value_of o = Some (Complete.ReportStarted 2 "B")
  /\ match tasksFile (world_of o) with
     | Content d' => map status (tasks d') = [in_progress; in_progress]
     | _ => False
     end
  /\ Next.startNextTask false (Some "2") w
     = Returned (Next.failure (Next.NotFoundOrNotPending (Some "2"))) w.
Proof. repeat split. Qed.

(** ** Malformed id tokens *)

Lemma find_task_NaN (l : list Task) : JS.find (is_task JS.NaN) l = None.
Proof. apply find_unknown. intros t _. reflexivity. Qed.

(** C8, as the code has it.  A token whose task part yields no number
    under [parseInt] is answered like an unknown id: the failure is the
    task-not-found message, naming the id [NaN], and the world is left as
    it was. *)
Theorem complete_unparsable_id (w : World) (d : TasksData) (taskId : string)
    (summary : option string) :
  tasksFile w = Content d ->
  JS.parseInt (fst (JS.split "." taskId)) = JS.NaN ->
  Complete.completeTaskWithContextUpdate taskId summary w
  = Returned (Complete.failure (Complete.TaskNotFound JS.NaN)) w
  /\ Complete.error_of (Complete.TaskNotFound JS.NaN) = Some Err.TaskNotFound.
Proof.
  intros Hd Hnan. split; [| reflexivity].
  unfold Complete.completeTaskWithContextUpdate.
  rewrite (bind_returned _ _ _ _ _ (loadTasks_content _ _ Hd)).
  destruct (JS.includes "." taskId) eqn:Hdot; cbn [negb].
  - unfold Complete.completeSubtask. rewrite Hnan, find_task_NaN. reflexivity.
  - unfold Complete.completeMainTask.
    rewrite (split_no_dot _ Hdot) in Hnan. simpl in Hnan.
    rewrite Hnan, find_task_NaN. reflexivity.
Qed.

(** Witness of [complete_unparsable_id] on the token "abc". *)
Lemma complete_unparsable_id_witness :
  let w := Sample.store Sample.two_tasks Sample.active_context in
  Complete.completeTaskWithContextUpdate "abc" None w
  = Returned (Complete.failure (Complete.TaskNotFound JS.NaN)) w.
Proof.
  intros w.
  exact (proj1 (complete_unparsable_id w
                  {| project := "demo"; version := "1.0.0"; tasks := Sample.two_tasks |}
                  "abc" None eq_refl eq_refl)).
Defined.

(** C8, counterexample.  Completing the token "abc" fails with the same
    kind of failure as completing the unknown id 99, task-not-found, and
    not with an invalid-id failure. *)
Lemma complete_abc_is_task_not_found :
  let w := Sample.store Sample.two_tasks Sample.active_context in
  let error := fun taskId =>
    option_map (fun r => Complete.error_of (Complete.message r))
      (value_of (Complete.completeTaskWithContextUpdate taskId None w)) in
  error "abc" = Some (Some Err.TaskNotFound)
  /\ error "99" = Some (Some Err.TaskNotFound)
  /\ error "abc" <> Some (Some Err.InvalidId).
Proof. repeat split. discriminate. Qed.

(** ** Completing tasks: the history log *)

Lemma getNextTask_pure (w : World) :
  exists r, ContextTracker.getNextTask w = Returned r w.
Proof.
  unfold ContextTracker.getNextTask, ContextTracker.loadTasks, bind, readTasksFile, ret.
  destruct (tasksFile w) as [| | d]; eauto.
  destruct (tasks d); eauto.
  destruct (JS.sort _ _); eauto.
Qed.

Lemma loadContext_content (w : World) (c : Context) :
  contextFile w = Content c -> ContextTracker.loadContext w = Returned (Some c) w.
Proof.
  intros Hc. unfold ContextTracker.loadContext, bind, readContextFile. now rewrite Hc.
Qed.

Lemma prepareTaskContextForCopilot_pure (n : Z) (w : World) (c : Context) :
  contextFile w = Content c ->
  exists r, ContextTracker.prepareTaskContextForCopilot n w = Returned r w.
Proof.
  intros Hc.
  unfold ContextTracker.prepareTaskContextForCopilot, ContextTracker.loadTasks.
  unfold bind, readTasksFile, ret.
  destruct (tasksFile w) as [| | d]; eauto.
  destruct (JS.find (is_task (JS.parseInt (JS.toString n))) (tasks d)); eauto.
  unfold ContextTracker.getTaskHistory, bind, ret.
  rewrite (loadContext_content _ _ Hc). eauto.
Qed.

(** [addHistoryEntry] on loaded, writable documents appends one entry. *)
Lemma addHistoryEntry_ready n a s dt w d c t :
  ready w d c -> JS.find (is_task n) (tasks d) = Some t ->
  exists w' c' e,
    ContextTracker.addHistoryEntry n a s dt w = Returned true w'
    /\ ready w' d c'
    /\ taskHistory c' = taskHistory c ++ [e]
    /\ taskId e = n /\ action e = a /\ summary e = s /\ details e = dt
    /\ activeTask (currentContext c')
       = match a with
         | start => Some n
         | complete => None
         | update => activeTask (currentContext c)
         end.
Proof.
  intros (Hd & Hw & Hc & Hcw) Ht.
  unfold ContextTracker.addHistoryEntry.
  rewrite (bind_returned _ _ _ _ _ (loadContext_content _ _ Hc)).
  unfold ContextTracker.loadTasks.
  unfold bind at 1 2. unfold readTasksFile at 1. rewrite Hd. unfold ret at 1.
  rewrite Ht. unfold bind, now, ContextTracker.saveContext, writeContextFile.
  simpl contextWritable. rewrite Hcw.
  eexists. eexists. eexists. split; [reflexivity |].
  repeat split; simpl; assumption.
Qed.

(** [updateTaskStatus] on loaded, writable documents: the status is set
    and one entry is appended, whose action compares the new status with
    the status read back from disk. *)
Lemma updateTaskStatus_ready n s txt w d c t :
  ready w d c -> JS.find (is_task n) (tasks d) = Some t ->
  exists w' d' c' e t',
    ContextTracker.updateTaskStatus n s txt w = Returned true w'
    /\ ready w' d' c'
    /\ JS.find (is_task n) (tasks d') = Some t'
    /\ status t' = s /\ subtasks t' = subtasks t /\ title t' = title t
    /\ taskHistory c' = taskHistory c ++ [e]
    /\ taskId e = n
    /\ action e = ContextTracker.action_for (status t) s
    /\ details e = Some (status t, s)
    /\ activeTask (currentContext c')
       = match ContextTracker.action_for (status t) s with
         | start => Some n
         | complete => None
         | update => activeTask (currentContext c)
         end.
Proof.
  intros (Hd & Hw & Hc & Hcw) Ht.
  unfold ContextTracker.updateTaskStatus, ContextTracker.loadTasks.
  unfold bind at 1 2. unfold readTasksFile at 1. rewrite Hd. unfold ret at 1.
  destruct (JS.findIndex (is_task n) (tasks d)) as [i |] eqn:Hi.
  2: { apply findIndex_find in Hi. congruence. }
  rewrite (findIndex_item _ _ _ Hi), Ht.
  unfold bind at 1. unfold now at 1.
  unfold bind at 1. unfold writeTasksFile at 1. simpl tasksWritable. rewrite Hw.
  rewrite (assign_findIndex _ _ _ _ Hi).
  set (t' := set_updated_at (clock w (ticks w)) (set_status s t)).
  assert (Hp' : is_task n t' = true).
  { apply find_in in Ht. now destruct Ht. }
  pose proof (find_mutate_found _ (fun _ => t') _ _ Ht Hp') as Hf.
  set (d' := set_tasks _ d) in *.
  destruct (addHistoryEntry_ready n (ContextTracker.action_for (status t) s) txt
              (Some (status t, s)) (put_tasksFile (Content d') (tick w)) d' c t')
    as (w' & c' & e & E & R & Hh & He1 & He2 & _ & He4 & Ha).
  { repeat split; assumption. }
  { exact Hf. }
  exists w', d', c', e, t'. repeat split; try assumption.
  apply R. apply R. apply R. apply R.
Qed.

(** [updateContextAfterTaskCompletion] on loaded, writable documents clears
    the active task and leaves the history as it is. *)
Lemma updateContextAfterTaskCompletion_ready n s w d c :
  ready w d c ->
  exists r w' c',
    ContextTracker.updateContextAfterTaskCompletion n s w = Returned r w'
    /\ ready w' d c'
    /\ ContextTracker.cu_success r = true
    /\ taskHistory c' = taskHistory c
    /\ activeTask (currentContext c') = None.
Proof.
  intros (Hd & Hw & Hc & Hcw).
  unfold ContextTracker.updateContextAfterTaskCompletion.
  rewrite (bind_returned _ _ _ _ _ (loadContext_content _ _ Hc)).
  unfold bind at 1. unfold now at 1.
  unfold bind at 1. unfold ContextTracker.saveContext, writeContextFile.
  simpl contextWritable. rewrite Hcw.
  set (c' := Build_Context _ _ _ _).
  set (w1 := put_contextFile (Content c') (tick w)).
  destruct (getNextTask_pure w1) as [next E1].
  rewrite (bind_returned _ _ _ _ _ E1).
  assert (exists prepared,
            match next with
            | Some nextTask => ContextTracker.prepareTaskContextForCopilot (id nextTask)
            | None => ret None
            end w1 = Returned prepared w1) as [prepared E2].
  { destruct next as [nextTask |]; [| now exists None].
    apply (prepareTaskContextForCopilot_pure _ _ c'). reflexivity. }
  rewrite (bind_returned _ _ _ _ _ E2).
  eexists. exists w1, c'. split; [reflexivity |].
  repeat split; assumption.
Qed.

(** Completing a task on loaded, writable documents. *)
Lemma completeMainTask_ready (w : World) (d : TasksData) (c : Context)
    (taskId : string) (summary : option string) (t : Task) :
  ready w d c ->
  JS.includes "." taskId = false ->
  JS.find (is_task (JS.parseInt taskId)) (tasks d) = Some t ->
  exists r w' d' c' e t',
    Complete.completeTaskWithContextUpdate taskId summary w = Returned r w'
    /\ Complete.success r = true
    /\ ready w' d' c'
    /\ JS.find (is_task (JS.parseInt taskId)) (tasks d') = Some t'
    /\ status t' = done
    /\ taskHistory c' = taskHistory c ++ [e]
    /\ Data.taskId e = JS.parseInt taskId
    /\ action e = update
    /\ details e = Some (done, done)
    /\ activeTask (currentContext c') = None.
Proof.
  intros (Hd & Hw & Hc & Hcw) Hdot Ht.
  unfold Complete.completeTaskWithContextUpdate.
  rewrite (bind_returned _ _ _ _ _ (loadTasks_content _ _ Hd)).
  rewrite Hdot. cbn [negb]. unfold Complete.completeMainTask. rewrite Ht.
  unfold bind at 1. unfold now at 1.
  set (t1 := set_subtasks _ _).
  assert (Hw1 : tasksWritable (tick w) = true) by exact Hw.
  rewrite (bind_returned _ _ _ _ _ (saveTasks_writable _ _ Hw1)).
  set (d1 := set_tasks _ d).
  assert (Hp1 : is_task (JS.parseInt taskId) t1 = true).
  { apply find_in in Ht. now destruct Ht. }
  pose proof (find_mutate_found _ (fun _ => t1) _ _ Ht Hp1) as Hf1.
  destruct (updateTaskStatus_ready (JS.parseInt taskId) done
              (Complete.summary_or summary
                 (TxtTaskDone (title t) (List.length (subtasks t))))
              (put_tasksFile (Content d1) (tick w)) d1 c t1)
    as (w2 & d2 & c2 & e & t2 & E2 & R2 & Hf2 & Hs2 & _ & _ & Hh2 & He1 & He2 & He3 & Ha2).
  { repeat split; assumption. }
  { exact Hf1. }
  rewrite (bind_returned _ _ _ _ _ E2).
  unfold Complete.finish.
  destruct (updateContextAfterTaskCompletion_ready (JS.parseInt taskId)
              (Some (Complete.summary_or summary (TxtTaskFinished taskId))) w2 d2 c2 R2)
    as (r3 & w3 & c3 & E3 & R3 & _ & Hh3 & Ha3).
  rewrite (bind_returned _ _ _ _ _ E3).
  eexists. exists w3, d2, c3, e, t2. split; [reflexivity |].
  repeat split; try assumption; try apply R3.
  congruence.
Qed.

Lemma history_of_ready w d c : ready w d c -> history_of w = taskHistory c.
Proof. intros (_ & _ & Hc & _). unfold history_of. now rewrite Hc. Qed.

Lemma stored_ready w d c n t (Q : Task -> Prop) :
  ready w d c -> JS.find (is_task n) (tasks d) = Some t -> Q t -> stored n Q w.
Proof. intros (Hd & Hw & _) Ht HQ. split; [exact Hw |]. now exists d, t. Qed.

(** Completing a subtask on loaded, writable documents: one entry is
    appended, or two when all subtasks are then done, and every one of them
    has the action [update]. *)
Lemma completeSubtask_ready (w : World) (d : TasksData) (c : Context)
    (taskId : string) (summary : option string) (parent : Task) (st : Subtask) :
  ready w d c ->
  JS.includes "." taskId = true ->
  JS.find (is_task (JS.parseInt (fst (JS.split "." taskId)))) (tasks d) = Some parent ->
  JS.find (is_subtask taskId) (subtasks parent) = Some st ->
  let all :=
    forallb subtask_done
      (JS.mutate_found (is_subtask taskId) (set_sub_status done) (subtasks parent)) in
  exists r w' d' c' entries,
    Complete.completeTaskWithContextUpdate taskId summary w = Returned r w'
    /\ Complete.success r = true
    /\ ready w' d' c'
    /\ taskHistory c' = taskHistory c ++ entries
    /\ List.length entries = (if all then 2%nat else 1%nat)
    /\ Forall (fun e => action e = update
                        /\ Data.taskId e = JS.parseInt (fst (JS.split "." taskId)))
              entries
    /\ activeTask (currentContext c') = None.
Proof.
  intros (Hd & Hw & Hc & Hcw) Hdot Hp Hst all.
  unfold Complete.completeTaskWithContextUpdate.
  rewrite (bind_returned _ _ _ _ _ (loadTasks_content _ _ Hd)).
  rewrite Hdot. cbn [negb]. unfold Complete.completeSubtask.
  rewrite Hp, Hst. fold all.
  set (n := JS.parseInt (fst (JS.split "." taskId))) in *.
  unfold bind at 1. unfold now at 1.
  set (p1 := set_updated_at _ _).
  assert (Hw1 : tasksWritable (tick w) = true) by exact Hw.
  rewrite (bind_returned _ _ _ _ _ (saveTasks_writable _ _ Hw1)).
  set (d1 := set_tasks _ d).
  assert (Hp1 : is_task n p1 = true).
  { apply find_in in Hp. subst p1. destruct Hp as [_ Hp]. now destruct all. }
  pose proof (find_mutate_found _ (fun _ => p1) _ _ Hp Hp1) as Hf1.
  destruct (addHistoryEntry_ready n update
              (Complete.summary_or summary (TxtSubtaskDone taskId (sub_title st)))
              None (put_tasksFile (Content d1) (tick w)) d1 c p1)
    as (w2 & c2 & e1 & E2 & R2 & Hh2 & He11 & He12 & _ & _ & Ha2).
  { repeat split; assumption. }
  { exact Hf1. }
  rewrite (bind_returned _ _ _ _ _ E2).
  unfold Complete.finish.
  destruct all eqn:Hall.
  - destruct (updateTaskStatus_ready n done
                (TxtAllSubtasksDone
                   (List.length (JS.mutate_found (is_subtask taskId)
                                   (set_sub_status done) (subtasks parent))))
                w2 d1 c2 p1 R2 Hf1)
      as (w3 & d3 & c3 & e2 & t3 & E3 & R3 & _ & _ & _ & _ & Hh3 & He21 & He22 & _ & _).
    rewrite (bind_returned _ _ _ _ _ E3).
    destruct (updateContextAfterTaskCompletion_ready n
                (Some (Complete.summary_or summary (TxtTaskFinished taskId))) w3 d3 c3 R3)
      as (r4 & w4 & c4 & E4 & R4 & _ & Hh4 & Ha4).
    rewrite (bind_returned _ _ _ _ _ E4).
    eexists. exists w4, d3, c4, [e1; e2]. split; [reflexivity |].
    split; [reflexivity |]. split; [exact R4 |].
    split; [rewrite Hh4, Hh3, Hh2, <- app_assoc; reflexivity |].
    split; [reflexivity |]. split; [| exact Ha4].
    repeat constructor; assumption.
  - unfold bind at 1. unfold ret at 1.
    destruct (updateContextAfterTaskCompletion_ready n
                (Some (Complete.summary_or summary (TxtTaskFinished taskId))) w2 d1 c2 R2)
      as (r4 & w4 & c4 & E4 & R4 & _ & Hh4 & Ha4).
    rewrite (bind_returned _ _ _ _ _ E4).
    eexists. exists w4, d1, c4, [e1]. split; [reflexivity |].
    split; [reflexivity |]. split; [exact R4 |].
    split; [rewrite Hh4, Hh2; reflexivity |].
    split; [reflexivity |]. split; [| exact Ha4].
    repeat constructor; assumption.
Qed.

(** C9.  Completing a task twice: the task is done after the first and
    after the second call, and each call appends one entry of its own to
    the history; the second call leaves the earlier entries as they are. *)
Theorem completeTask_idempotent (w : World) (d : TasksData) (c : Context)
    (taskId : string) (summary1 summary2 : option string) (t : Task) :
  ready w d c ->
  JS.includes "." taskId = false ->
  JS.find (is_task (JS.parseInt taskId)) (tasks d) = Some t ->
  exists r1 w1 r2 w2 e1 e2,
    Complete.completeTaskWithContextUpdate taskId summary1 w = Returned r1 w1
    /\ Complete.completeTaskWithContextUpdate taskId summary2 w1 = Returned r2 w2
    /\ stored (JS.parseInt taskId) (fun t' => status t' = done) w1
    /\ stored (JS.parseInt taskId) (fun t' => status t' = done) w2
    /\ history_of w1 = history_of w ++ [e1]
    /\ history_of w2 = history_of w1 ++ [e2]
    /\ Data.taskId e1 = JS.parseInt taskId
    /\ Data.taskId e2 = JS.parseInt taskId.
Proof.
  intros R Hdot Ht.
  destruct (completeMainTask_ready w d c taskId summary1 t R Hdot Ht)
    as (r1 & w1 & d1 & c1 & e1 & t1 & E1 & _ & R1 & Hf1 & Hs1 & Hh1 & He1 & _).
  destruct (completeMainTask_ready w1 d1 c1 taskId summary2 t1 R1 Hdot Hf1)
    as (r2 & w2 & d2 & c2 & e2 & t2 & E2 & _ & R2 & Hf2 & Hs2 & Hh2 & He2 & _).
  exists r1, w1, r2, w2, e1, e2.
  split; [exact E1 |]. split; [exact E2 |].
  split; [exact (stored_ready _ _ _ _ _ _ R1 Hf1 Hs1) |].
  split; [exact (stored_ready _ _ _ _ _ _ R2 Hf2 Hs2) |].
  split; [now rewrite (history_of_ready _ _ _ R), (history_of_ready _ _ _ R1) |].
  split; [now rewrite (history_of_ready _ _ _ R1), (history_of_ready _ _ _ R2) |].
  split; assumption.
Qed.

(** Witness of [completeTask_idempotent]: task 1 of the sample store is
    completed twice; the history has exactly two entries afterwards. *)
Lemma completeTask_idempotent_witness :
  let w := Sample.store Sample.two_tasks Sample.active_context in
  exists r1 w1 r2 w2 e1 e2,
    Complete.completeTaskWithContextUpdate "1" None w = Returned r1 w1
    /\ Complete.completeTaskWithContextUpdate "1" None w1 = Returned r2 w2
    /\ stored (Some 1) (fun t' => status t' = done) w2
    /\ history_of w2 = [e1; e2].
Proof.
  intros w.
  destruct (completeTask_idempotent w
              {| project := "demo"; version := "1.0.0"; tasks := Sample.two_tasks |}
              Sample.active_context "1" None None
              (Sample.task 1 "A" in_progress 1 []))
    as (r1 & w1 & r2 & w2 & e1 & e2 & E1 & E2 & _ & S2 & H1 & H2 & _).
  - repeat split.
  - reflexivity.
  - reflexivity.
  - exists r1, w1, r2, w2, e1, e2.
    split; [exact E1 |]. split; [exact E2 |]. split; [exact S2 |].
    rewrite H2, H1. reflexivity.
Defined.

(** C5.  Task 2 has the subtasks 2.1 (done) and 2.2 (pending), and the
    history is empty.  Completing "2.2" makes all subtasks done, cascades
    task 2 to done and stamps it; the history receives two entries for
    task 2, and both have the action [update]: the second one is written
    by [updateTaskStatus], which reads the status back from the file saved
    a moment before, finds it done already, and so records no
    [complete]. *)
Theorem completeSubtask_rollup_history :
  let w := Sample.store Sample.two_tasks Sample.active_context in
  let w' := world_of (Complete.completeTaskWithContextUpdate "2.2" None w) in
  statuses w' = [(1, in_progress, []); (2, done, [done; done])]
  /\ map recorded (history_of w')
     = [(Some 2, update, None); (Some 2, update, Some (done, done))]
  /\ existsb (fun e => action_eqb (action e) complete) (history_of w') = false
  /\ stamps w = [O; O] /\ stamps w' = [O; 4%nat].
Proof. repeat split. Qed.

(** C6.  Task 1 is in progress and is the active task; the history is
    empty.  Completing "1" leaves task 1 done and clears the active task,
    and the one history entry it writes for task 1 has the action [update],
    with old and new status both done; no entry has the action
    [complete]. *)
Theorem completeTask_history :
  let w := Sample.store Sample.two_tasks Sample.active_context in
  let w' := world_of (Complete.completeTaskWithContextUpdate "1" None w) in
  active_of w = Some (Some 1)
  /\ statuses w' = [(1, done, []); (2, pending, [done; pending])]
  /\ map recorded (history_of w') = [(Some 1, update, Some (done, done))]
  /\ existsb (fun e => action_eqb (action e) complete) (history_of w') = false
  /\ active_of w' = None.
Proof. repeat split. Qed.

(** Where the completion is recorded through [updateTaskStatus] alone, on
    a store that still holds the old status, the entry has the action
    [complete]. *)
Example updateTaskStatus_records_complete :
  let w := Sample.store Sample.two_tasks Sample.active_context in
  let w' := world_of (ContextTracker.updateTaskStatus (Some 1) done (Lit "finished") w) in
  map recorded (history_of w') = [(Some 1, complete, Some (in_progress, done))]
  /\ active_of w' = None.
Proof. repeat split. Qed.

(** When completing a subtask leaves another subtask open, one [update]
    entry is written and the parent is stamped and keeps its status. *)
Example completeSubtask_no_rollup :
  let l := [ Sample.task 2 "B" pending 2
               [Sample.sub "2.1" "first" pending; Sample.sub "2.2" "second" pending] ] in
  let w := Sample.store l Sample.emptyContext in
  let w' := world_of (Complete.completeTaskWithContextUpdate "2.1" None w) in
  statuses w' = [(2, pending, [done; pending])]
  /\ map recorded (history_of w') = [(Some 2, update, None)]
  /\ stamps w' = [1%nat].
Proof. repeat split. Qed.

(** ** The history is append-only *)

Lemma extends_history_refl (w : World) : extends_history w w.
Proof. exists []. now rewrite app_nil_r. Qed.

Lemma extends_history_trans (w1 w2 w3 : World) :
  extends_history w1 w2 -> extends_history w2 w3 -> extends_history w1 w3.
Proof.
  intros [l1 H1] [l2 H2]. exists (l1 ++ l2). now rewrite H2, H1, app_assoc.
Qed.

(** A step that leaves [context.json] alone. *)
Lemma extends_history_same_context (w w' : World) :
  contextFile w' = contextFile w -> extends_history w w'.
Proof. intros H. exists []. unfold history_of. now rewrite H, app_nil_r. Qed.

Lemma appends_ret {A} (a : A) : appends (ret a).
Proof. intros w. apply extends_history_refl. Qed.

Lemma appends_exit {A} (code : Z) : appends (@exit A code).
Proof. intros w. apply extends_history_refl. Qed.

Lemma appends_bind {A B} (c : Script A) (k : A -> Script B) :
  appends c -> (forall a, appends (k a)) -> appends (bind c k).
Proof.
  intros Hc Hk w. specialize (Hc w). unfold bind.
  destruct (c w) as [a w1 | code w1]; simpl in *; [| exact Hc].
  eapply extends_history_trans; [exact Hc | apply Hk].
Qed.

Lemma appends_now : appends now.
Proof. intros w. now apply extends_history_same_context. Qed.

Lemma appends_readTasksFile : appends readTasksFile.
Proof. intros w. apply extends_history_refl. Qed.

Lemma appends_readContextFile : appends readContextFile.
Proof. intros w. apply extends_history_refl. Qed.

Lemma appends_writeTasksFile (d : TasksData) : appends (writeTasksFile d).
Proof.
  intros w. unfold writeTasksFile.
  destruct (tasksWritable w); now apply extends_history_same_context.
Qed.

Create HintDb appends discriminated.

#[local] Hint Resolve appends_ret appends_exit appends_now appends_readTasksFile
  appends_readContextFile appends_writeTasksFile : appends.

Ltac appends_step :=
  match goal with
  | |- appends (bind _ _) => apply appends_bind; [| intros ?]
  | |- appends (match ?x with _ => _ end) => destruct x
  | |- appends (if ?x then _ else _) => destruct x
  | |- appends _ => solve [auto with appends]
  end.

Ltac appends := repeat appends_step.

(** Loading the context creates it when absent: the history it then holds
    is empty, as is the history of the missing file. *)
Lemma appends_loadContext : appends ContextTracker.loadContext.
Proof.
  intros w. unfold ContextTracker.loadContext, ContextTracker.createContext.
  unfold bind, readContextFile, now, writeContextFile, ret.
  destruct (contextFile w) as [| | c] eqn:Hc; simpl.
  - destruct (contextWritable w); simpl.
    + exists []. unfold history_of. simpl. now rewrite Hc.
    + now apply extends_history_same_context.
  - apply extends_history_refl.
  - apply extends_history_refl.
Qed.

(** What [loadContext] returns is what the file then holds. *)
Lemma loadContext_returns (w : World) :
  exists r w',
    ContextTracker.loadContext w = Returned r w'
    /\ extends_history w w'
    /\ tasksFile w' = tasksFile w /\ tasksWritable w' = tasksWritable w
    /\ contextWritable w' = contextWritable w
    /\ match r with
       | Some c => contextFile w' = Content c
       | None => contextFile w' = contextFile w
       end.
Proof.
  pose proof (appends_loadContext w) as Ha. revert Ha.
  unfold ContextTracker.loadContext, ContextTracker.createContext.
  unfold bind, readContextFile, now, writeContextFile, ret.
  destruct (contextFile w) as [| | c] eqn:Hc; simpl.
  - destruct (contextWritable w) eqn:Hw; simpl; intros Ha;
      eexists; eexists; (split; [reflexivity |]); repeat split; auto.
  - intros Ha. exists None, w. repeat split; auto.
  - intros Ha. exists (Some c), w. repeat split; auto.
Qed.

#[local] Hint Resolve appends_loadContext : appends.

Lemma appends_loadTasks : appends ContextTracker.loadTasks.
Proof. unfold ContextTracker.loadTasks. appends. Qed.

#[local] Hint Resolve appends_loadTasks : appends.

Lemma appends_addHistoryEntry n a s dt :
  appends (ContextTracker.addHistoryEntry n a s dt).
Proof.
  intros w. unfold ContextTracker.addHistoryEntry.
  destruct (loadContext_returns w) as (r & w1 & E1 & X1 & _ & _ & _ & Hr).
  rewrite (bind_returned _ _ _ _ _ E1).
  destruct r as [c |]; [| exact X1].
  eapply extends_history_trans; [exact X1 |].
  unfold ContextTracker.loadTasks, bind, readTasksFile, ret.
  destruct (tasksFile w1) as [| | d]; try apply extends_history_refl.
  destruct (JS.find (is_task n) (tasks d)); [| apply extends_history_refl].
  unfold now, ContextTracker.saveContext, writeContextFile. simpl.
  destruct (contextWritable w1); simpl.
  - eexists. unfold history_of. simpl. rewrite Hr. reflexivity.
  - now apply extends_history_same_context.
Qed.

#[local] Hint Resolve appends_addHistoryEntry : appends.

Lemma appends_getTaskHistory n : appends (ContextTracker.getTaskHistory n).
Proof. unfold ContextTracker.getTaskHistory. appends. Qed.

Lemma appends_getNextTask : appends ContextTracker.getNextTask.
Proof. unfold ContextTracker.getNextTask. appends. Qed.

#[local] Hint Resolve appends_getTaskHistory appends_getNextTask : appends.

Lemma appends_prepareTaskContextForCopilot n :
  appends (ContextTracker.prepareTaskContextForCopilot n).
Proof. unfold ContextTracker.prepareTaskContextForCopilot. appends. Qed.

Lemma appends_updateTaskStatus n s txt :
  appends (ContextTracker.updateTaskStatus n s txt).
Proof. unfold ContextTracker.updateTaskStatus. appends. Qed.

#[local] Hint Resolve appends_prepareTaskContextForCopilot
  appends_updateTaskStatus : appends.

Lemma appends_updateContextAfterTaskCompletion n s :
  appends (ContextTracker.updateContextAfterTaskCompletion n s).
Proof.
  intros w. unfold ContextTracker.updateContextAfterTaskCompletion.
  destruct (loadContext_returns w) as (r & w1 & E1 & X1 & _ & _ & _ & Hr).
  rewrite (bind_returned _ _ _ _ _ E1).
  destruct r as [c |]; [| exact X1].
  eapply extends_history_trans; [exact X1 |].
  unfold bind at 1. unfold now at 1.
  unfold bind at 1. unfold ContextTracker.saveContext, writeContextFile.
  simpl contextWritable.
  assert (Hrest : forall b, appends
            (nextTask <- ContextTracker.getNextTask ;;
             copilotContext <-
               match nextTask with
               | Some nextTask =>
                   ContextTracker.prepareTaskContextForCopilot (id nextTask)
               | None => ret None
               end ;;
             ret {| ContextTracker.cu_success := b;
                    ContextTracker.cu_nextTask := nextTask;
                    ContextTracker.cu_copilotContext := copilotContext |}))
    by (intros b; appends).
  destruct (contextWritable w1).
  - eapply extends_history_trans; [| apply Hrest].
    exists []. unfold history_of. simpl. now rewrite Hr, app_nil_r.
  - eapply extends_history_trans; [| apply Hrest].
    now apply extends_history_same_context.
Qed.

#[local] Hint Resolve appends_updateContextAfterTaskCompletion : appends.

Lemma appends_complete_loadTasks : appends Complete.loadTasks.
Proof. unfold Complete.loadTasks. appends. Qed.

#[local] Hint Resolve appends_complete_loadTasks : appends.

(** X2.  The history is append-only: whatever the arguments and whatever
    the state of the two files, completing a task or subtask, starting a
    task directly and starting it through the next flow leave every earlier
    history entry in place and in order, and at most add entries behind
    them. *)
Theorem history_append_only (w : World) (taskId : string)
    (summary target : option string) (auto : bool) :
  extends_history w
    (world_of (Complete.completeTaskWithContextUpdate taskId summary w))
  /\ extends_history w (world_of (Complete.startTaskExecution target w))
  /\ extends_history w (world_of (Next.startNextTask auto target w)).
Proof.
  split; [| split]; revert w.
  - change (appends (Complete.completeTaskWithContextUpdate taskId summary)).
    unfold Complete.completeTaskWithContextUpdate, Complete.completeSubtask,
      Complete.completeMainTask, Complete.finish, Complete.saveTasks.
    appends.
  - change (appends (Complete.startTaskExecution target)).
    unfold Complete.startTaskExecution, Complete.saveTasks. appends.
  - change (appends (Next.startNextTask auto target)).
    unfold Next.startNextTask, Next.getNextTask, Next.getCurrentTask,
      Next.loadTasks, Next.saveTasks.
    appends.
Qed.

(** ** The task list keeps its ids *)

Lemma same_ids_refl (w : World) : same_ids w w.
Proof.
  unfold same_ids. destruct (tasksFile w) as [| | d]; try reflexivity.
  exists d. repeat split.
Qed.

Lemma same_ids_trans (w1 w2 w3 : World) :
  same_ids w1 w2 -> same_ids w2 w3 -> same_ids w1 w3.
Proof.
  unfold same_ids. destruct (tasksFile w1) as [| | d1].
  - intros ->. exact (fun H => H).
  - intros ->. exact (fun H => H).
  - intros (d2 & -> & Hi & Hp & Hv) (d3 & H3 & Hi3 & Hp3 & Hv3).
    exists d3. repeat split; congruence.
Qed.

Lemma same_ids_same_tasks (w w' : World) : same_tasks w w' -> same_ids w w'.
Proof.
  intros [H _]. unfold same_ids. rewrite H.
  destruct (tasksFile w) as [| | d]; try reflexivity.
  exists d. repeat split.
Qed.

Lemma keeps_tasks_ids {A} (c : Script A) : keeps_tasks c -> keeps_ids c.
Proof.
  intros H w. destruct (H w) as (a & w' & E & S). rewrite E.
  now apply same_ids_same_tasks.
Qed.


Lemma map_id_assign (l : list Task) (i : nat) (t v : Task) :
  JS.item l i = Some t -> id v = id t -> map id (JS.assign l i v) = map id l.
Proof.
  revert i. induction l as [| x l IH]; intros [| i]; simpl; try discriminate.
  - intros [= ->] ->. reflexivity.
  - intros Hi Hv. f_equal. now apply (IH i).
Qed.

Lemma map_id_mutate_found (p : Task -> bool) (f : Task -> Task) (l : list Task) :
  (forall x, In x l -> p x = true -> id (f x) = id x) ->
  map id (JS.mutate_found p f l) = map id l.
Proof.
  induction l as [| x l IH]; simpl; intros H; [reflexivity |].
  destruct (p x) eqn:Hx; simpl.
  - now rewrite (H x (or_introl eq_refl) Hx).
  - f_equal. apply IH. intros y Hy. apply H. now right.
Qed.


(** Writing back the loaded document with a task list of the same ids. *)
Lemma same_ids_write (w w1 : World) (d d' : TasksData) :
  tasksFile w = Content d -> tasksFile w1 = Content d ->
  map id (tasks d') = map id (tasks d) ->
  project d' = project d -> version d' = version d ->
  same_ids w (world_of (writeTasksFile d' w1)).
Proof.
  intros Hd Hd1 Hi Hp Hv. unfold same_ids, writeTasksFile. rewrite Hd.
  destruct (tasksWritable w1); simpl.
  - exists d'. repeat split; assumption.
  - exists d. repeat split. exact Hd1.
Qed.

Lemma keeps_ids_updateTaskStatus n s txt :
  keeps_ids (ContextTracker.updateTaskStatus n s txt).
Proof.
  intros w. unfold ContextTracker.updateTaskStatus, ContextTracker.loadTasks.
  unfold bind at 1 2. unfold readTasksFile at 1.
  destruct (tasksFile w) as [| | d] eqn:Hd; try apply same_ids_refl.
  unfold ret at 1.
  destruct (JS.findIndex (is_task n) (tasks d)) as [i |] eqn:Hi;
    [| apply same_ids_refl].
  destruct (JS.item (tasks d) i) as [t |] eqn:Ht; [| apply same_ids_refl].
  unfold bind at 1. unfold now at 1.
  set (t' := set_updated_at _ _). set (d' := set_tasks _ d).
  assert (Hw : same_ids w (world_of (writeTasksFile d' (tick w)))).
  { apply (same_ids_write w (tick w) d d' Hd Hd); try reflexivity.
    apply (map_id_assign _ _ t); [exact Ht | reflexivity]. }
  unfold bind. destruct (writeTasksFile d' (tick w)) as [ok w1 | code w1];
    simpl in Hw; [| exact Hw].
  destruct ok; [| exact Hw].
  eapply same_ids_trans; [exact Hw |].
  apply (keeps_tasks_ids _ (keeps_addHistoryEntry _ _ _ _)).
Qed.








Lemma next_loadTasks_run (w : World) :
  Next.loadTasks w
  = match tasksFile w with
    | Content d => Returned d w
    | _ => Exited 1 w
    end.
Proof.
  unfold Next.loadTasks, bind, readTasksFile. now destruct (tasksFile w).
Qed.




(** ** Numbers as strings: [parseInt] after [toString] *)

(** Evaluate the digit value of a literal character. *)
Ltac digit_value :=
  match goal with
  | |- context [JS.digit10 ?c] =>
      let v := eval vm_compute in (JS.digit10 c) in
      change (JS.digit10 c) with v
  end.

Lemma digits_string_of_uint_acc (d : Decimal.uint) (acc : positive) :
  JS.digits 10 JS.digit10 (Some (Z.pos acc)) (NilEmpty.string_of_uint d)
  = Some (Z.pos (Pos.of_uint_acc d acc)).
Proof.
  revert acc. induction d; intros acc;
    cbn [NilEmpty.string_of_uint JS.digits Pos.of_uint_acc];
    [reflexivity | ..];
    digit_value; cbv iota; rewrite <- IHd; do 2 f_equal; lia.
Qed.

Lemma digits_string_of_uint (d : Decimal.uint) :
  JS.digits 10 JS.digit10 (Some 0) (NilEmpty.string_of_uint d)
  = Some (Z.of_N (Pos.of_uint d)).
Proof.
  induction d; cbn [NilEmpty.string_of_uint JS.digits Pos.of_uint];
    [reflexivity | ..]; digit_value; cbv iota;
    [exact IHd | ..]; apply digits_string_of_uint_acc.
Qed.

Lemma digits_from_NaN (d : Decimal.uint) :
  d <> Decimal.Nil ->
  JS.digits 10 JS.digit10 JS.NaN (NilEmpty.string_of_uint d)
  = JS.digits 10 JS.digit10 (Some 0) (NilEmpty.string_of_uint d).
Proof. destruct d; [congruence | ..]; intros _; reflexivity. Qed.

(** A string of decimal digits is not taken for a hexadecimal literal. *)
Lemma unsigned_string_of_uint (d : Decimal.uint) :
  JS.unsigned (NilEmpty.string_of_uint d)
  = JS.digits 10 JS.digit10 JS.NaN (NilEmpty.string_of_uint d).
Proof.
  destruct d as [| d | d | d | d | d | d | d | d | d | d]; try reflexivity;
    destruct d; reflexivity.
Qed.

Lemma numeral_string_of_uint (d : Decimal.uint) :
  d <> Decimal.Nil ->
  JS.numeral (NilEmpty.string_of_uint d) = Some (Z.of_N (Pos.of_uint d)).
Proof.
  intros Hd.
  rewrite <- digits_string_of_uint, <- (digits_from_NaN d Hd),
    <- unsigned_string_of_uint.
  destruct d; [congruence | ..]; reflexivity.
Qed.

Lemma NilZero_string_of_uint_nonnil (d : Decimal.uint) :
  d <> Decimal.Nil -> NilZero.string_of_uint d = NilEmpty.string_of_uint d.
Proof. destruct d; [congruence | ..]; reflexivity. Qed.

(** The decimal numeral of an integer denotes that integer. *)
Lemma numeral_decimal (n : Z) : JS.numeral (JS.decimal n) = Some n.
Proof.
  unfold JS.decimal. destruct n as [| p | p]; [reflexivity | |];
    cbn [Z.to_int NilZero.string_of_int];
    rewrite (NilZero_string_of_uint_nonnil _ (DecimalPos.Unsigned.to_uint_nonnil p)).
  - rewrite (numeral_string_of_uint _ (DecimalPos.Unsigned.to_uint_nonnil p)).
    now rewrite DecimalPos.Unsigned.of_to.
  - change (option_map Z.opp
              (JS.unsigned (NilEmpty.string_of_uint (Pos.to_uint p))) = Some (Z.neg p)).
    rewrite unsigned_string_of_uint,
      (digits_from_NaN _ (DecimalPos.Unsigned.to_uint_nonnil p)),
      digits_string_of_uint, DecimalPos.Unsigned.of_to.
    reflexivity.
Qed.

(** Reading a decimal numeral gives the double nearest to the integer. *)
Lemma parseInt_decimal (n : Z) : JS.parseInt (JS.decimal n) = Some (JS.to_double n).
Proof. unfold JS.parseInt. now rewrite numeral_decimal. Qed.

(** A safe integer is printed as its decimal numeral. *)
Lemma toString_safe (n : Z) : JS.safe n -> JS.toString n = JS.decimal n.
Proof.
  unfold JS.safe, JS.toString. intros H.
  destruct (Z.ltb_spec (Z.abs n) (2 ^ 53)) as [_ | Hge]; [reflexivity | lia].
Qed.

(** A safe integer that is printed and read back is the same integer. *)
Lemma parseInt_toString (n : Z) : JS.safe n -> JS.parseInt (JS.toString n) = Some n.
Proof.
  intros H. now rewrite (toString_safe n H), parseInt_decimal, (to_double_safe n H).
Qed.

(** ** Completing: failures that change nothing *)

(** X4.  Completing an id that is not in the store, or a subtask id that
    its parent does not have, fails with the matching not-found message
    and leaves the world as it was: nothing is saved and no history entry
    is written. *)
Theorem complete_unknown_id_unchanged (w : World) (d : TasksData)
    (taskId : string) (summary : option string) :
  tasksFile w = Content d ->
  let n := JS.parseInt (fst (JS.split "." taskId)) in
  (JS.find (is_task n) (tasks d) = None ->
   Complete.completeTaskWithContextUpdate taskId summary w
   = Returned (Complete.failure (Complete.TaskNotFound n)) w)
  /\ (forall parent,
        JS.includes "." taskId = true ->
        JS.find (is_task n) (tasks d) = Some parent ->
        JS.find (is_subtask taskId) (subtasks parent) = None ->
        Complete.completeTaskWithContextUpdate taskId summary w
        = Returned (Complete.failure (Complete.SubtaskNotFound taskId)) w).
Proof.
  intros Hd n. split.
  - intros Hn. unfold Complete.completeTaskWithContextUpdate.
    rewrite (bind_returned _ _ _ _ _ (loadTasks_content _ _ Hd)).
    destruct (JS.includes "." taskId) eqn:Hdot; cbn [negb].
    + unfold Complete.completeSubtask. fold n. now rewrite Hn.
    + unfold Complete.completeMainTask. subst n.
      rewrite (split_no_dot _ Hdot) in Hn. simpl in Hn.
      rewrite (split_no_dot _ Hdot). simpl. now rewrite Hn.
  - intros parent Hdot Hp Hs. unfold Complete.completeTaskWithContextUpdate.
    rewrite (bind_returned _ _ _ _ _ (loadTasks_content _ _ Hd)).
    rewrite Hdot. cbn [negb]. unfold Complete.completeSubtask. fold n.
    now rewrite Hp, Hs.
Qed.

(** Witness of [complete_unknown_id_unchanged]: task 9 and subtask 2.7 are
    not in the sample store. *)
Lemma complete_unknown_id_unchanged_witness :
  let w := Sample.store Sample.two_tasks Sample.active_context in
  Complete.completeTaskWithContextUpdate "9" None w
  = Returned (Complete.failure (Complete.TaskNotFound (Some 9))) w
  /\ Complete.completeTaskWithContextUpdate "2.7" None w
     = Returned (Complete.failure (Complete.SubtaskNotFound "2.7")) w.
Proof.
  intros w. split.
  - exact (proj1 (complete_unknown_id_unchanged w
                    {| project := "demo"; version := "1.0.0"; tasks := Sample.two_tasks |}
                    "9" None eq_refl) eq_refl).
  - exact (proj2 (complete_unknown_id_unchanged w
                    {| project := "demo"; version := "1.0.0"; tasks := Sample.two_tasks |}
                    "2.7" None eq_refl) _ eq_refl eq_refl eq_refl).
Defined.

Lemma chat_loadTasks_run (w : World) :
  Chat.loadTasks w
  = match tasksFile w with
    | Content d => Returned d w
    | _ => Exited 1 w
    end.
Proof.
  unfold Chat.loadTasks, bind, readTasksFile. now destruct (tasksFile w).
Qed.

Lemma complete_loadTasks_run (w : World) :
  Complete.loadTasks w
  = match tasksFile w with
    | Content d => Returned d w
    | _ => Exited 1 w
    end.
Proof.
  unfold Complete.loadTasks, bind, readTasksFile. now destruct (tasksFile w).
Qed.

(** X5.  When [tasks.json] is missing or cannot be parsed, the command
    scripts stop the process with exit code 1 before touching anything,
    while the functions of context-tracker.js answer [false] or [null] and
    carry on; in both cases the world is left as it was. *)
Theorem missing_store (w : World) (taskId : string)
    (summary target : option string) (auto : bool)
    (n : JS.Number) (s : Status) (txt : Text) :
  (forall d, tasksFile w <> Content d) ->
  Complete.completeTaskWithContextUpdate taskId summary w = Exited 1 w
  /\ Complete.startTaskExecution target w = Exited 1 w
  /\ Next.startNextTask auto target w = Exited 1 w
  /\ Chat.checkTaskCompletion taskId w = Exited 1 w
  /\ ContextTracker.updateTaskStatus n s txt w = Returned false w
  /\ ContextTracker.getNextTask w = Returned None w.
Proof.
  intros Hno.
  assert (H1 : Complete.loadTasks w = Exited 1 w).
  { rewrite complete_loadTasks_run. destruct (tasksFile w) as [| | d]; try reflexivity.
    now destruct (Hno d). }
  assert (H2 : Next.loadTasks w = Exited 1 w).
  { rewrite next_loadTasks_run. destruct (tasksFile w) as [| | d]; try reflexivity.
    now destruct (Hno d). }
  assert (H3 : Chat.loadTasks w = Exited 1 w).
  { rewrite chat_loadTasks_run. destruct (tasksFile w) as [| | d]; try reflexivity.
    now destruct (Hno d). }
  assert (H4 : ContextTracker.loadTasks w = Returned None w).
  { unfold ContextTracker.loadTasks, bind, readTasksFile.
    destruct (tasksFile w) as [| | d]; try reflexivity. now destruct (Hno d). }
  repeat split.
  - unfold Complete.completeTaskWithContextUpdate, bind. now rewrite H1.
  - unfold Complete.startTaskExecution, bind. now rewrite H1.
  - unfold Next.startNextTask, bind. now rewrite H2.
  - unfold Chat.checkTaskCompletion, bind. now rewrite H3.
  - unfold ContextTracker.updateTaskStatus, bind. now rewrite H4.
  - unfold ContextTracker.getNextTask, bind. now rewrite H4.
Qed.

(** Witness of [missing_store]: a project directory without
    [tasks.json]. *)
Lemma missing_store_witness :
  let w := put_tasksFile Absent (Sample.store [] Sample.emptyContext) in
  Complete.completeTaskWithContextUpdate "1" None w = Exited 1 w
  /\ ContextTracker.updateTaskStatus (Some 1) done (Lit "x") w = Returned false w.
Proof.
  intros w.
  assert (Hno : forall d, tasksFile w <> Content d) by (intros d; discriminate).
  destruct (missing_store w "1" None None true (Some 1) done (Lit "x") Hno)
    as (H1 & _ & _ & _ & H5 & _).
  split; assumption.
Defined.

(** X6.  When [tasks.json] cannot be written, completing an existing task
    or subtask reports the save failure and stops there: both files are as
    they were, no history entry is written and no next task is offered;
    only the clock has been read once. *)
Theorem complete_save_failure (w : World) (d : TasksData) (taskId : string)
    (summary : option string) :
  tasksFile w = Content d -> tasksWritable w = false ->
  let n := JS.parseInt (fst (JS.split "." taskId)) in
  let failed := Returned {| Complete.success := false;
                            Complete.message := Complete.SaveFailed;
                            Complete.nextTask := None;
                            Complete.copilotContext := None |} (tick w) in
  (forall t,
     JS.includes "." taskId = false ->
     JS.find (is_task n) (tasks d) = Some t ->
     Complete.completeTaskWithContextUpdate taskId summary w = failed)
  /\ (forall parent st,
        JS.includes "." taskId = true ->
        JS.find (is_task n) (tasks d) = Some parent ->
        JS.find (is_subtask taskId) (subtasks parent) = Some st ->
        Complete.completeTaskWithContextUpdate taskId summary w = failed).
Proof.
  intros Hd Hw n failed.
  assert (Hsave : forall d', Complete.saveTasks d' (tick w) = Returned false (tick w)).
  { intros d'. unfold Complete.saveTasks, writeTasksFile. simpl. now rewrite Hw. }
  split.
  - intros t Hdot Ht. unfold Complete.completeTaskWithContextUpdate.
    rewrite (bind_returned _ _ _ _ _ (loadTasks_content _ _ Hd)).
    rewrite Hdot. cbn [negb]. unfold Complete.completeMainTask.
    subst n. rewrite (split_no_dot _ Hdot) in Ht. simpl in Ht. rewrite Ht.
    unfold bind at 1. unfold now at 1.
    now rewrite (bind_returned _ _ _ _ _ (Hsave _)).
  - intros parent st Hdot Hp Hst. unfold Complete.completeTaskWithContextUpdate.
    rewrite (bind_returned _ _ _ _ _ (loadTasks_content _ _ Hd)).
    rewrite Hdot. cbn [negb]. unfold Complete.completeSubtask. fold n.
    rewrite Hp, Hst.
    unfold bind at 1. unfold now at 1.
    now rewrite (bind_returned _ _ _ _ _ (Hsave _)).
Qed.

(** Witness of [complete_save_failure]: the sample store, read-only. *)
Lemma complete_save_failure_witness :
  let w := {| tasksFile := Content {| project := "demo"; version := "1.0.0";
                                      tasks := Sample.two_tasks |};
              contextFile := Content Sample.active_context;
              tasksWritable := false; contextWritable := true;
              clock := fun n => S n; ticks := O |} in
  value_of (Complete.completeTaskWithContextUpdate "1" None w)
  = Some {| Complete.success := false; Complete.message := Complete.SaveFailed;
            Complete.nextTask := None; Complete.copilotContext := None |}
  /\ value_of (Complete.completeTaskWithContextUpdate "2.2" None w)
     = Some {| Complete.success := false; Complete.message := Complete.SaveFailed;
               Complete.nextTask := None; Complete.copilotContext := None |}.
Proof.
  intros w.
  destruct (complete_save_failure w _ "1" None eq_refl eq_refl) as [H1 _].
  destruct (complete_save_failure w _ "2.2" None eq_refl eq_refl) as [_ H2].
  split.
  - now rewrite (H1 _ eq_refl eq_refl).
  - now rewrite (H2 _ _ eq_refl eq_refl eq_refl).
Defined.

(** ** The next task offered after a completion *)

Lemma getNextTask_front (w : World) (d : TasksData) :
  tasksFile w = Content d ->
  ContextTracker.getNextTask w
  = Returned (front ContextTracker.by_priority (filter is_pending (tasks d))) w.
Proof.
  intros Hd. unfold ContextTracker.getNextTask, ContextTracker.loadTasks.
  unfold bind, readTasksFile, ret. rewrite Hd.
  destruct (tasks d) as [| t0 ts] eqn:Hts; [reflexivity |].
  rewrite <- head_sort.
  now destruct (JS.sort ContextTracker.by_priority (filter is_pending (t0 :: ts))).
Qed.

Lemma front_contract (l : list Task) :
  next_contract l (front ContextTracker.by_priority (filter is_pending l)).
Proof.
  destruct (front ContextTracker.by_priority (filter is_pending l)) as [x |] eqn:Hf;
    simpl.
  - apply front_first_least in Hf. destruct Hf as (b & a & Hl & Hb & Ha).
    destruct (filter_position _ _ _ _ _ Hl) as (b' & a' & Hl' & <- & <-).
    split.
    + assert (In x (filter is_pending l)) as Hin by (rewrite Hl; apply in_elt).
      now apply filter_In in Hin.
    + exists b', a'. split; [exact Hl' |]. split; intros y Hy Hp.
      * apply Hb. apply filter_In. tauto.
      * apply Ha. apply filter_In. tauto.
  - apply front_none in Hf. intros y Hy.
    destruct (is_pending y) eqn:Hp; [| reflexivity].
    assert (In y (filter is_pending l)) as Hin by (apply filter_In; tauto).
    rewrite Hf in Hin. destruct Hin.
Qed.

Lemma updateContextAfterTaskCompletion_next n s w d c :
  ready w d c ->
  exists r w' c',
    ContextTracker.updateContextAfterTaskCompletion n s w = Returned r w'
    /\ ready w' d c'
    /\ ContextTracker.cu_nextTask r
       = front ContextTracker.by_priority (filter is_pending (tasks d)).
Proof.
  intros (Hd & Hw & Hc & Hcw).
  unfold ContextTracker.updateContextAfterTaskCompletion.
  rewrite (bind_returned _ _ _ _ _ (loadContext_content _ _ Hc)).
  unfold bind at 1. unfold now at 1.
  unfold bind at 1. unfold ContextTracker.saveContext, writeContextFile.
  simpl contextWritable. rewrite Hcw.
  set (c' := Build_Context _ _ _ _).
  set (w1 := put_contextFile (Content c') (tick w)).
  assert (Hd1 : tasksFile w1 = Content d) by exact Hd.
  rewrite (bind_returned _ _ _ _ _ (getNextTask_front w1 d Hd1)).
  set (next := front _ _).
  assert (exists prepared,
            match next with
            | Some nextTask => ContextTracker.prepareTaskContextForCopilot (id nextTask)
            | None => ret None
            end w1 = Returned prepared w1) as [prepared E2].
  { destruct next as [nextTask |]; [| now exists None].
    apply (prepareTaskContextForCopilot_pure _ _ c'). reflexivity. }
  rewrite (bind_returned _ _ _ _ _ E2).
  eexists. exists w1, c'. split; [reflexivity |].
  repeat split; assumption.
Qed.

(** The end of a successful completion on loaded, writable documents: the
    next task offered is the scheduler's choice on the store as it is
    then. *)
Lemma finish_ready taskId n summary m w d c :
  ready w d c ->
  exists r w' c',
    Complete.finish taskId n summary true m w = Returned r w'
    /\ ready w' d c'
    /\ Complete.nextTask r
       = front ContextTracker.by_priority (filter is_pending (tasks d)).
Proof.
  intros R. unfold Complete.finish.
  destruct (updateContextAfterTaskCompletion_next n
              (Some (Complete.summary_or summary (TxtTaskFinished taskId))) w d c R)
    as (r & w' & c' & E & R' & Hn).
  rewrite (bind_returned _ _ _ _ _ E).
  eexists. exists w', c'. split; [reflexivity |]. split; [exact R' | exact Hn].
Qed.

(** X7.  On loaded, writable documents, a successful completion of a task
    or subtask offers as next task the scheduler's choice on the store it
    leaves behind: the pending task of least priority number, the earliest
    in list order among equals, and none exactly when no task is pending
    any more. *)
Theorem complete_offers_next (w : World) (d : TasksData) (c : Context)
    (taskId : string) (summary : option string)
    (r : Complete.Result) (w' : World) :
  ready w d c ->
  Complete.completeTaskWithContextUpdate taskId summary w = Returned r w' ->
  Complete.success r = true ->
  exists d', tasksFile w' = Content d'
             /\ next_contract (tasks d') (Complete.nextTask r).
Proof.
  intros R. pose proof R as (Hd & Hw & Hc & Hcw).
  unfold Complete.completeTaskWithContextUpdate.
  rewrite (bind_returned _ _ _ _ _ (loadTasks_content _ _ Hd)).
  assert (Hw1 : tasksWritable (tick w) = true) by exact Hw.
  destruct (JS.includes "." taskId) eqn:Hdot; cbn [negb].
  - unfold Complete.completeSubtask.
    set (n := JS.parseInt (fst (JS.split "." taskId))).
    destruct (JS.find (is_task n) (tasks d)) as [parent |] eqn:Hp.
    2: { intros [= <- _]. discriminate. }
    destruct (JS.find (is_subtask taskId) (subtasks parent)) as [st |] eqn:Hst.
    2: { intros [= <- _]. discriminate. }
    set (all := forallb subtask_done _).
    unfold bind at 1. unfold now at 1.
    set (p1 := set_updated_at _ _).
    rewrite (bind_returned _ _ _ _ _ (saveTasks_writable _ _ Hw1)).
    set (d1 := set_tasks _ d).
    assert (Hp1 : is_task n p1 = true).
    { apply find_in in Hp. subst p1. destruct Hp as [_ Hp]. now destruct all. }
    pose proof (find_mutate_found _ (fun _ => p1) _ _ Hp Hp1) as Hf1.
    destruct (addHistoryEntry_ready n update
                (Complete.summary_or summary (TxtSubtaskDone taskId (sub_title st)))
                None (put_tasksFile (Content d1) (tick w)) d1 c p1)
      as (w2 & c2 & e1 & E2 & R2 & _).
    { repeat split; assumption. }
    { exact Hf1. }
    rewrite (bind_returned _ _ _ _ _ E2).
    destruct all.
    + destruct (updateTaskStatus_ready n done
                  (TxtAllSubtasksDone
                     (List.length (JS.mutate_found (is_subtask taskId)
                                     (set_sub_status done) (subtasks parent))))
                  w2 d1 c2 p1 R2 Hf1)
        as (w3 & d3 & c3 & e2 & t3 & E3 & R3 & _).
      rewrite (bind_returned _ _ _ _ _ E3).
      destruct (finish_ready taskId n summary
                  (Complete.SubtaskCompleted taskId (Some n)) w3 d3 c3 R3)
        as (r4 & w4 & c4 & E4 & R4 & Hn).
      rewrite E4. intros [= <- <-] _. exists d3. split; [apply R4 |].
      rewrite Hn. apply front_contract.
    + unfold bind at 1. unfold ret at 1.
      destruct (finish_ready taskId n summary
                  (Complete.SubtaskCompleted taskId None) w2 d1 c2 R2)
        as (r4 & w4 & c4 & E4 & R4 & Hn).
      rewrite E4. intros [= <- <-] _. exists d1. split; [apply R4 |].
      rewrite Hn. apply front_contract.
  - unfold Complete.completeMainTask.
    set (n := JS.parseInt taskId).
    destruct (JS.find (is_task n) (tasks d)) as [t |] eqn:Ht.
    2: { intros [= <- _]. discriminate. }
    unfold bind at 1. unfold now at 1.
    set (t1 := set_subtasks _ _).
    rewrite (bind_returned _ _ _ _ _ (saveTasks_writable _ _ Hw1)).
    set (d1 := set_tasks _ d).
    assert (Hp1 : is_task n t1 = true).
    { apply find_in in Ht. now destruct Ht. }
    pose proof (find_mutate_found _ (fun _ => t1) _ _ Ht Hp1) as Hf1.
    destruct (updateTaskStatus_ready n done
                (Complete.summary_or summary
                   (TxtTaskDone (title t) (List.length (subtasks t))))
                (put_tasksFile (Content d1) (tick w)) d1 c t1)
      as (w2 & d2 & c2 & e & t2 & E2 & R2 & _).
    { repeat split; assumption. }
    { exact Hf1. }
    rewrite (bind_returned _ _ _ _ _ E2).
    destruct (finish_ready taskId n summary
                (Complete.TaskCompleted n (title t)) w2 d2 c2 R2)
      as (r4 & w4 & c4 & E4 & R4 & Hn).
    rewrite E4. intros [= <- <-] _. exists d2. split; [apply R4 |].
    rewrite Hn. apply front_contract.
Qed.

(** Witness of [complete_offers_next]: after task 1 of the sample store is
    completed, task 2, the only pending one, is offered. *)
Lemma complete_offers_next_witness :
  let w := Sample.store Sample.two_tasks Sample.active_context in
  exists r w' d',
    Complete.completeTaskWithContextUpdate "1" None w = Returned r w'
    /\ option_map id (Complete.nextTask r) = Some 2
    /\ tasksFile w' = Content d'
    /\ next_contract (tasks d') (Complete.nextTask r).
Proof.
  intros w.
  destruct (Complete.completeTaskWithContextUpdate "1" None w) as [r w' | code w'] eqn:E.
  - assert (Hr : Complete.success r = true
                 /\ option_map id (Complete.nextTask r) = Some 2).
    { pose proof E as E'. vm_compute in E'. injection E' as <- _.
      split; reflexivity. }
    destruct Hr as [Hs Hn].
    destruct (complete_offers_next w _ Sample.active_context "1" None r w'
                (conj eq_refl (conj eq_refl (conj eq_refl eq_refl))) E Hs)
      as (d' & Hd' & Hc).
    exists r, w', d'. repeat split; assumption.
  - vm_compute in E. discriminate.
Defined.

(** ** Asking the chat about a task that was completed *)

(** X8.  After a task of a writable store has been completed by its id,
    the chat's completion-status query on the same id answers that the task
    is done, whatever happened to the history. *)
Theorem complete_then_check (w : World) (d : TasksData) (taskId : string)
    (summary : option string) (t : Task) :
  tasksFile w = Content d -> tasksWritable w = true ->
  JS.includes "." taskId = false ->
  JS.find (is_task (JS.parseInt taskId)) (tasks d) = Some t ->
  exists r w' t',
    Complete.completeTaskWithContextUpdate taskId summary w = Returned r w'
    /\ Chat.checkTaskCompletion taskId w'
       = Returned {| Chat.success := true;
                     Chat.message := Chat.TaskStatus (JS.parseInt taskId) (title t') done;
                     Chat.isDone := Some true |} w'.
Proof.
  intros Hd Hw Hdot Ht.
  destruct (completeMainTask_stored w d taskId summary t Hd Hw Hdot Ht)
    as (r & w' & E & _ & d' & t' & Hd' & Ht' & _ & Hs).
  exists r, w', t'. split; [exact E |].
  unfold Chat.checkTaskCompletion, bind. rewrite chat_loadTasks_run, Hd'.
  rewrite (split_no_dot _ Hdot), Ht', Hs. reflexivity.
Qed.

(** Witness of [complete_then_check] on task 1 of the sample store. *)
Lemma complete_then_check_witness :
  let w := Sample.store Sample.two_tasks Sample.active_context in
  exists r w' t',
    Complete.completeTaskWithContextUpdate "1" None w = Returned r w'
    /\ Chat.checkTaskCompletion "1" w'
       = Returned {| Chat.success := true;
                     Chat.message := Chat.TaskStatus (Some 1) (title t') done;
                     Chat.isDone := Some true |} w'.
Proof.
  intros w.
  exact (complete_then_check w _ "1" None (Sample.task 1 "A" in_progress 1 [])
           eq_refl eq_refl eq_refl eq_refl).
Defined.

(** ** [updateTaskStatus]: what is recorded, and what is left half done *)

(** X9.  On loaded, writable documents [updateTaskStatus] sets the status
    of the task and appends exactly one history entry, with the old and the
    new status as details.  The entry is a [start], and the task becomes
    the active task, when the task enters in-progress; it is a [complete],
    and the active task is cleared, when the task enters done; otherwise it
    is an [update] and the active task stays as it was. *)
Theorem updateTaskStatus_records (w : World) (d : TasksData) (c : Context)
    (n : JS.Number) (s : Status) (txt : Text) (t : Task) :
  ready w d c -> JS.find (is_task n) (tasks d) = Some t ->
  exists w' d' c' e t',
    ContextTracker.updateTaskStatus n s txt w = Returned true w'
    /\ ready w' d' c'
    /\ JS.find (is_task n) (tasks d') = Some t'
    /\ status t' = s
    /\ taskHistory c' = taskHistory c ++ [e]
    /\ Data.taskId e = n /\ details e = Some (status t, s)
    /\ (s = in_progress -> status t <> in_progress ->
        action e = start /\ activeTask (currentContext c') = Some n)
    /\ (s = done -> status t <> done ->
        action e = complete /\ activeTask (currentContext c') = None)
    /\ (s = status t \/ s = pending \/ s = deferred ->
        action e = update
        /\ activeTask (currentContext c') = activeTask (currentContext c)).
Proof.
  intros R Ht.
  destruct (updateTaskStatus_ready n s txt w d c t R Ht)
    as (w' & d' & c' & e & t' & E & R' & Hf & Hs & _ & _ & Hh & He1 & He2 & He3 & Ha).
  exists w', d', c', e, t'.
  split; [exact E |]. split; [exact R' |]. split; [exact Hf |].
  split; [exact Hs |]. split; [exact Hh |]. split; [exact He1 |].
  split; [exact He3 |]. rewrite He2, Ha. clear.
  split; [| split].
  - intros -> Hne. destruct (status t); try congruence; split; reflexivity.
  - intros -> Hne. destruct (status t); try congruence; split; reflexivity.
  - intros [-> | [-> | ->]]; destruct (status t); split; reflexivity.
Qed.

(** Witness of [updateTaskStatus_records]: task 2 of the sample store, which is
    pending, enters in-progress and becomes the active task. *)
Lemma updateTaskStatus_records_witness :
  let w := Sample.store Sample.two_tasks Sample.emptyContext in
  exists w' e,
    ContextTracker.updateTaskStatus (Some 2) in_progress (Lit "go") w
    = Returned true w'
    /\ history_of w' = [e] /\ action e = start
    /\ active_of w' = Some (Some 2).
Proof.
  intros w.
  destruct (updateTaskStatus_records w _ Sample.emptyContext (Some 2) in_progress
              (Lit "go")
              (Sample.task 2 "B" pending 2
                 [Sample.sub "2.1" "first" done; Sample.sub "2.2" "second" pending])
              (conj eq_refl (conj eq_refl (conj eq_refl eq_refl))) eq_refl)
    as (w' & d' & c' & e & t' & E & R' & _ & _ & Hh & _ & _ & Hstart & _).
  destruct (Hstart eq_refl) as [Ha Hact]; [discriminate |].
  exists w', e. split; [exact E |].
  unfold history_of, active_of.
  destruct R' as (_ & _ & -> & _). repeat split; assumption.
Defined.

(** X10.  The two files are not updated together.  When the task exists
    and [tasks.json] can be written but [context.json] cannot be parsed or
    cannot be written, [updateTaskStatus] answers [false] although it has
    already saved the new status: the store changes and no history entry
    records it. *)
Theorem updateTaskStatus_half_done (w : World) (d : TasksData)
    (n : JS.Number) (s : Status) (txt : Text) (t : Task) :
  tasksFile w = Content d -> tasksWritable w = true ->
  JS.find (is_task n) (tasks d) = Some t ->
  contextFile w = Corrupt \/ contextWritable w = false ->
  exists w',
    ContextTracker.updateTaskStatus n s txt w = Returned false w'
    /\ stored n (fun t' => status t' = s /\ subtasks t' = subtasks t) w'
    /\ contextFile w' = contextFile w.
Proof.
  intros Hd Hw Ht Hctx.
  unfold ContextTracker.updateTaskStatus, ContextTracker.loadTasks.
  unfold bind at 1 2. unfold readTasksFile at 1. rewrite Hd. unfold ret at 1.
  destruct (JS.findIndex (is_task n) (tasks d)) as [i |] eqn:Hi.
  2: { apply findIndex_find in Hi. congruence. }
  rewrite (findIndex_item _ _ _ Hi), Ht.
  unfold bind at 1. unfold now at 1.
  unfold bind at 1. unfold writeTasksFile at 1. simpl tasksWritable. rewrite Hw.
  rewrite (assign_findIndex _ _ _ _ Hi).
  set (t' := set_updated_at (clock w (ticks w)) (set_status s t)).
  assert (Hp' : is_task n t' = true).
  { apply find_in in Ht. now destruct Ht. }
  pose proof (find_mutate_found _ (fun _ => t') _ _ Ht Hp') as Hf.
  set (d' := set_tasks _ d) in *.
  set (w1 := put_tasksFile (Content d') (tick w)).
  assert (Hadd : exists w2,
            ContextTracker.addHistoryEntry n (ContextTracker.action_for (status t) s)
              txt (Some (status t, s)) w1 = Returned false w2
            /\ tasksFile w2 = Content d' /\ tasksWritable w2 = true
            /\ contextFile w2 = contextFile w).
  { unfold ContextTracker.addHistoryEntry, ContextTracker.loadContext,
      ContextTracker.createContext, ContextTracker.loadTasks,
      ContextTracker.saveContext.
    unfold bind, readContextFile, readTasksFile, now, writeContextFile, ret.
    simpl. destruct Hctx as [Hc | Hcw].
    - rewrite Hc. eexists. split; [reflexivity |]. repeat split; auto.
    - destruct (contextFile w) as [| | c] eqn:Hc; simpl; rewrite ?Hcw; simpl.
      + eexists. split; [reflexivity |]. repeat split; auto.
      + eexists. split; [reflexivity |]. repeat split; auto.
      + rewrite Hf. simpl. rewrite Hcw.
        eexists. split; [reflexivity |]. repeat split; auto. }
  destruct Hadd as (w2 & E2 & Hd2 & Hw2 & Hc2).
  exists w2. split; [exact E2 |]. split; [| exact Hc2].
  split; [exact Hw2 |]. exists d', t'. repeat split; assumption.
Qed.

(** Witness of [updateTaskStatus_half_done]: the sample store with an
    unparsable [context.json]. *)
Lemma updateTaskStatus_half_done_witness :
  let w := put_contextFile Corrupt (Sample.store Sample.two_tasks Sample.emptyContext) in
  exists w',
    ContextTracker.updateTaskStatus (Some 2) done (Lit "x") w = Returned false w'
    /\ stored (Some 2) (fun t' => status t' = done) w'
    /\ history_of w' = [].
Proof.
  intros w.
  destruct (updateTaskStatus_half_done w _ (Some 2) done (Lit "x")
              (Sample.task 2 "B" pending 2
                 [Sample.sub "2.1" "first" done; Sample.sub "2.2" "second" pending])
              eq_refl eq_refl eq_refl (or_introl eq_refl))
    as (w' & E & (Hw' & d' & t' & Hd' & Ht' & Hs & _) & Hc).
  exists w'. split; [exact E |]. split.
  - split; [exact Hw' |]. now exists d', t'.
  - unfold history_of. now rewrite Hc.
Defined.

(** ** Creating and reading the context *)

Lemma initContext_content (w : World) (c : Context) :
  contextFile w = Content c -> ContextTracker.initContext w = Returned (Some c) w.
Proof.
  intros Hc. unfold ContextTracker.initContext.
  unfold bind at 1. unfold readContextFile at 1. rewrite Hc.
  now apply loadContext_content.
Qed.

(** X11.  [initContext] never overwrites: an existing context is returned
    as it is and the world is unchanged; a missing one is created, when the
    file can be written, with an empty history and no active task.  Either
    way a second [initContext] returns the same context and changes
    nothing. *)
Theorem initContext_idempotent (w : World) :
  contextWritable w = true -> contextFile w <> Corrupt ->
  exists c w',
    ContextTracker.initContext w = Returned (Some c) w'
    /\ ContextTracker.initContext w' = Returned (Some c) w'
    /\ contextFile w' = Content c
    /\ tasksFile w' = tasksFile w
    /\ (forall c0, contextFile w = Content c0 -> c = c0 /\ w' = w)
    /\ (contextFile w = Absent ->
        taskHistory c = [] /\ activeTask (currentContext c) = None).
Proof.
  intros Hcw Hnc.
  destruct (contextFile w) as [| | c0] eqn:Hc; [| congruence |].
  - assert (E : exists c,
              ContextTracker.initContext w
              = Returned (Some c) (put_contextFile (Content c) (tick w))
              /\ taskHistory c = [] /\ activeTask (currentContext c) = None).
    { unfold ContextTracker.initContext, ContextTracker.createContext.
      unfold bind, readContextFile, now, writeContextFile, ret.
      rewrite Hc. simpl. rewrite Hcw. eexists. split; [reflexivity |].
      split; reflexivity. }
    destruct E as (c & E & Hh & Ha).
    exists c, (put_contextFile (Content c) (tick w)).
    split; [exact E |].
    split; [now apply initContext_content |].
    split; [reflexivity |]. split; [reflexivity |].
    split; [intros c1 [=] | intros _; split; assumption].
  - exists c0, w. rewrite (initContext_content _ _ Hc).
    split; [reflexivity |]. split; [reflexivity |]. split; [exact Hc |].
    split; [reflexivity |].
    split; [intros c1 [= ->]; split; reflexivity | discriminate].
Qed.

(** Witness of [initContext_idempotent]: a project directory without
    [context.json]. *)
Lemma initContext_idempotent_witness :
  let w := put_contextFile Absent (Sample.store Sample.two_tasks Sample.emptyContext) in
  exists c w',
    ContextTracker.initContext w = Returned (Some c) w'
    /\ ContextTracker.initContext w' = Returned (Some c) w'
    /\ taskHistory c = [].
Proof.
  intros w.
  assert (Hnc : contextFile w <> Corrupt) by discriminate.
  destruct (initContext_idempotent w eq_refl Hnc)
    as (c & w' & E1 & E2 & _ & _ & _ & Hnew).
  exists c, w'. repeat split; try assumption. now apply Hnew.
Defined.

(** X14.  The history of one task: after [addHistoryEntry] for the task
    [n] on loaded, writable documents, [getTaskHistory] gives for [n] its
    earlier entries followed by the new one, and for any other id exactly
    what it gave before. *)
Theorem getTaskHistory_after_add (w : World) (d : TasksData) (c : Context)
    (n : Z) (a : Action) (s : Text) (dt : Details) (t : Task) (m : Z) :
  ready w d c -> JS.find (is_task (Some n)) (tasks d) = Some t -> m <> n ->
  exists w' e before other,
    ContextTracker.addHistoryEntry (Some n) a s dt w = Returned true w'
    /\ ContextTracker.getTaskHistory (Some n) w = Returned (Some before) w
    /\ ContextTracker.getTaskHistory (Some n) w' = Returned (Some (before ++ [e])) w'
    /\ Data.taskId e = Some n /\ action e = a /\ taskTitle e = title t
    /\ ContextTracker.getTaskHistory (Some m) w = Returned (Some other) w
    /\ ContextTracker.getTaskHistory (Some m) w' = Returned (Some other) w'.
Proof.
  intros (Hd & Hw & Hc & Hcw) Ht Hm.
  assert (Hget : forall k w0 c0, contextFile w0 = Content c0 ->
            ContextTracker.getTaskHistory k w0
            = Returned (Some (filter (fun entry => JS.num_eq (Data.taskId entry) k)
                                     (taskHistory c0))) w0).
  { intros k w0 c0 H0. unfold ContextTracker.getTaskHistory.
    now rewrite (bind_returned _ _ _ _ _ (loadContext_content _ _ H0)). }
  unfold ContextTracker.addHistoryEntry.
  rewrite (bind_returned _ _ _ _ _ (loadContext_content _ _ Hc)).
  unfold ContextTracker.loadTasks.
  unfold bind at 1 2. unfold readTasksFile at 1. rewrite Hd. unfold ret at 1.
  rewrite Ht. unfold bind, now, ContextTracker.saveContext, writeContextFile.
  simpl contextWritable. rewrite Hcw.
  set (e := Build_HistoryEntry _ _ _ _ _ _).
  set (c' := Build_Context _ _ _ _).
  set (w' := put_contextFile (Content c') _).
  assert (Hc' : contextFile w' = Content c') by reflexivity.
  exists w', e. eexists. eexists. split; [reflexivity |].
  split; [apply (Hget _ _ _ Hc) |].
  split.
  { rewrite (Hget _ _ _ Hc'). subst c'. simpl taskHistory.
    rewrite filter_app. simpl.
    unfold JS.num_eq at 2. rewrite Z.eqb_refl. reflexivity. }
  split; [reflexivity |]. split; [reflexivity |]. split; [reflexivity |].
  split; [apply (Hget _ _ _ Hc) |].
  rewrite (Hget _ _ _ Hc'). subst c'. simpl taskHistory.
  rewrite filter_app. simpl.
  unfold JS.num_eq at 2.
  destruct (Z.eqb_spec n m) as [-> | _]; [congruence |].
  now rewrite app_nil_r.
Qed.

(** Witness of [getTaskHistory_after_add]: an entry for task 2 of the sample
    store does not show in the history of task 1. *)
Lemma getTaskHistory_after_add_witness :
  let w := Sample.store Sample.two_tasks Sample.emptyContext in
  exists w' e,
    ContextTracker.addHistoryEntry (Some 2) update (Lit "note") None w
    = Returned true w'
    /\ ContextTracker.getTaskHistory (Some 2) w' = Returned (Some [e]) w'
    /\ ContextTracker.getTaskHistory (Some 1) w' = Returned (Some []) w'.
Proof.
  intros w.
  assert (Hm : 1 <> 2) by discriminate.
  destruct (getTaskHistory_after_add w _ Sample.emptyContext 2 update (Lit "note") None
              (Sample.task 2 "B" pending 2
                 [Sample.sub "2.1" "first" done; Sample.sub "2.2" "second" pending])
              1 (conj eq_refl (conj eq_refl (conj eq_refl eq_refl))) eq_refl Hm)
    as (w' & e & before & other & E & Hb & Ha & _ & _ & _ & Ho & Ho').
  injection Hb as <-. injection Ho as <-.
  exists w', e. repeat split; assumption.
Defined.

(** ** The next flow keeps a single active task *)

(** The exact task list [updateTaskStatus] saves. *)
Lemma updateTaskStatus_tasks n s txt w d t :
  tasksFile w = Content d -> tasksWritable w = true ->
  JS.find (is_task n) (tasks d) = Some t ->
  exists b w' u,
    ContextTracker.updateTaskStatus n s txt w = Returned b w'
    /\ tasksWritable w' = true
    /\ tasksFile w'
       = Content (set_tasks
                    (JS.mutate_found (is_task n)
                       (fun _ => set_updated_at u (set_status s t)) (tasks d)) d).
Proof.
  intros Hd Hw Ht.
  unfold ContextTracker.updateTaskStatus, ContextTracker.loadTasks.
  unfold bind at 1 2. unfold readTasksFile at 1. rewrite Hd. unfold ret at 1.
  destruct (JS.findIndex (is_task n) (tasks d)) as [i |] eqn:Hi.
  2: { apply findIndex_find in Hi. congruence. }
  rewrite (findIndex_item _ _ _ Hi), Ht.
  unfold bind at 1. unfold now at 1.
  unfold bind at 1. unfold writeTasksFile at 1. simpl tasksWritable. rewrite Hw.
  rewrite (assign_findIndex _ _ _ _ Hi).
  destruct (keeps_addHistoryEntry n (ContextTracker.action_for (status t) s) txt
              (Some (status t, s))
              (put_tasksFile
                 (Content (set_tasks
                    (JS.mutate_found (is_task n)
                       (fun _ => set_updated_at (clock w (ticks w)) (set_status s t))
                       (tasks d)) d))
                 (tick w)))
    as (b & w' & E & Hf & Hwr).
  exists b, w', (clock w (ticks w)). split; [exact E |].
  split; [now rewrite Hwr | now rewrite Hf].
Qed.

(** With distinct ids, the pending task found for an id is the task found
    for that id. *)
Lemma mutate_found_target (n : JS.Number) (f : Task -> Task) (l : list Task) (t : Task) :
  NoDup (map id l) ->
  JS.find (fun x => (is_task n x && is_pending x)%bool) l = Some t ->
  JS.mutate_found (fun x => (is_task n x && is_pending x)%bool) f l
  = JS.mutate_found (is_task (Some (id t))) f l.
Proof.
  induction l as [| x l IH]; simpl; intros Hnd Hf; [discriminate |].
  apply NoDup_cons_iff in Hnd as [Hx Hnd].
  destruct (is_task n x && is_pending x)%bool eqn:Ex.
  - injection Hf as <-. unfold is_task at 1, JS.num_eq. now rewrite Z.eqb_refl.
  - destruct (is_task (Some (id t)) x) eqn:Et.
    + exfalso. apply Hx. unfold is_task, JS.num_eq in Et. apply Z.eqb_eq in Et.
      rewrite Et. apply in_map. now apply find_in in Hf.
    + f_equal. now apply IH.
Qed.

(** Putting one task in progress where none was. *)
Lemma filter_in_progress_mutate (p : Task -> bool) (v : Task) (l : list Task) :
  filter is_in_progress l = [] -> JS.find p l <> None ->
  is_in_progress v = true ->
  filter is_in_progress (JS.mutate_found p (fun _ => v) l) = [v].
Proof.
  induction l as [| x l IH]; simpl; intros Hnone Hf Hv; [congruence |].
  destruct (is_in_progress x) eqn:Hx; [discriminate |].
  destruct (p x); simpl.
  - now rewrite Hv, Hnone.
  - rewrite Hx. now apply IH.
Qed.

Lemma find_member (p : Task -> bool) (l : list Task) (t : Task) :
  In t l -> p t = true -> JS.find p l <> None.
Proof.
  intros Hin Hp Hnone. pose proof (find_none _ _ Hnone t Hin). congruence.
Qed.

(** X12.  With distinct task ids, a successful [startNextTask] (automatic
    or with a target id) leaves exactly one task in progress, the one it
    reports as started, and [getCurrentTask] then returns that task. *)
Theorem startNextTask_single_active (w : World) (d : TasksData) (auto : bool)
    (target : option string) (r : Next.Result) (w' : World) :
  tasksFile w = Content d ->
  NoDup (map id (tasks d)) ->
  Next.startNextTask auto target w = Returned r w' ->
  Next.success r = true ->
  exists d' x,
    tasksFile w' = Content d'
    /\ filter is_in_progress (tasks d') = [x]
    /\ option_map id (Next.task r) = Some (id x)
    /\ Next.getCurrentTask w' = Returned (Some x) w'.
Proof.
  intros Hd Hnd. unfold Next.startNextTask.
  unfold bind at 1. rewrite next_loadTasks_run, Hd.
  set (isTarget := fun t : Task => (is_task (JS.parseIntArg target) t && is_pending t)%bool).
  assert (Hfound : exists found,
            (if auto then Next.getNextTask
             else if JS.truthy target
                  then ret (JS.find isTarget (tasks d)) else ret None) w
            = Returned found w
            /\ (forall t, found = Some t ->
                In t (tasks d)
                /\ (auto = false -> JS.find isTarget (tasks d) = Some t))).
  { destruct auto.
    - rewrite (Next_getNextTask_first_pending w d Hd). eexists. split; [reflexivity |].
      intros t Ht. split; [| discriminate].
      destruct (filter is_pending (tasks d)) as [| x l] eqn:Hf; [discriminate |].
      injection Ht as ->.
      assert (In t (filter is_pending (tasks d))) as Hin by (rewrite Hf; now left).
      now apply filter_In in Hin.
    - destruct (JS.truthy target); eexists; (split; [reflexivity |]).
      + intros t Ht. split; [| now intros _]. now apply find_in in Ht.
      + intros t [=]. }
  destruct Hfound as (found & E & Hin).
  rewrite (bind_returned _ _ _ _ _ E).
  destruct found as [t |]; [| intros [= <- _]; discriminate].
  destruct (Hin t eq_refl) as [Ht Htarget]. clear Hin.
  rewrite (bind_returned _ _ _ _ _ (getCurrentTask_content _ _ Hd)).
  destruct (filter is_in_progress (tasks d)) as [| active others] eqn:Hnone;
    [| intros [= <- _]; discriminate].
  cbn [hd_error]. unfold bind at 1. unfold now at 1.
  set (t1 := set_updated_at _ _).
  set (p := is_task (Some (id t1))).
  assert (Hpt : p t = true) by (unfold p, is_task, JS.num_eq; apply Z.eqb_refl).
  assert (Hpt1 : p t1 = true) by exact Hpt.
  pose proof (find_member p _ _ Ht Hpt) as Hsome.
  assert (Hal : (if auto then tasks d
                 else JS.mutate_found isTarget (fun _ => t1) (tasks d))
                = if auto then tasks d
                  else JS.mutate_found p (fun _ => t1) (tasks d)).
  { destruct auto; [reflexivity |].
    apply (mutate_found_target _ _ _ t Hnd). now apply Htarget. }
  rewrite Hal. clear Hal.
  set (aliased := if auto then _ else _).
  assert (Hfa : JS.find p aliased <> None).
  { subst aliased. destruct auto; [exact Hsome |].
    destruct (JS.find p (tasks d)) as [t0 |] eqn:Hf0; [| congruence].
    rewrite (find_mutate_found _ _ _ _ Hf0 Hpt1). discriminate. }
  destruct (JS.findIndex p aliased) as [i |] eqn:Hi.
  2: { apply findIndex_find in Hi. congruence. }
  rewrite (assign_findIndex _ _ _ _ Hi).
  assert (Hsaved : JS.mutate_found p (fun _ => t1) aliased
                   = JS.mutate_found p (fun _ => t1) (tasks d)).
  { subst aliased. destruct auto; [reflexivity |].
    rewrite mutate_found_twice; [reflexivity | intros; exact Hpt1]. }
  rewrite Hsaved. clear Hsaved Hi Hfa. clearbody aliased. clear aliased.
  unfold Next.saveTasks, bind at 1, writeTasksFile at 1. simpl tasksWritable.
  destruct (tasksWritable w) eqn:Hw; [| intros [= <- _]; discriminate].
  set (d1 := set_tasks _ d).
  destruct (JS.find p (tasks d)) as [t0 |] eqn:Hf0; [| congruence].
  pose proof (find_mutate_found _ (fun _ => t1) _ _ Hf0 Hpt1) as Hf1.
  destruct (updateTaskStatus_tasks (Some (id t1)) in_progress (TxtStarted (title t1))
              (put_tasksFile (Content d1) (tick w)) d1 t1 eq_refl Hw Hf1)
    as (b & w2 & u & E2 & Hw2 & Hd2).
  rewrite (bind_returned _ _ _ _ _ E2).
  destruct (keeps_prepareTaskContextForCopilot (id t1) w2) as (c & w3 & E3 & Hf3 & _).
  rewrite (bind_returned _ _ _ _ _ E3).
  intros [= <- <-] _.
  set (t2 := set_updated_at u (set_status in_progress t1)) in Hd2.
  assert (Hlist : filter is_in_progress
                    (JS.mutate_found p (fun _ => t2)
                       (JS.mutate_found p (fun _ => t1) (tasks d))) = [t2]).
  { rewrite mutate_found_twice by (intros; exact Hpt1).
    apply filter_in_progress_mutate; [exact Hnone | congruence | reflexivity]. }
  eexists. exists t2. split; [rewrite Hf3; exact Hd2 |].
  split; [exact Hlist |]. split; [reflexivity |].
  assert (Hd3 : tasksFile w3 = Content
                  (set_tasks (JS.mutate_found p (fun _ => t2) (tasks d1)) d1))
    by (rewrite Hf3; exact Hd2).
  rewrite (getCurrentTask_content _ _ Hd3). simpl tasks.
  unfold d1. simpl tasks. now rewrite Hlist.
Qed.

(** Witness of [startNextTask_single_active]: task 2 is started in a store
    where task 1 is done. *)
Lemma startNextTask_single_active_witness :
  let l := [Sample.task 1 "A" done 1 []; Sample.task 2 "B" pending 2 []] in
  let w := Sample.store l Sample.emptyContext in
  exists r w' d' x,
    Next.startNextTask false (Some "2") w = Returned r w'
    /\ tasksFile w' = Content d'
    /\ filter is_in_progress (tasks d') = [x] /\ id x = 2.
Proof.
  intros l w.
  destruct (Next.startNextTask false (Some "2") w) as [r w' | code w'] eqn:E.
  - assert (Hr : Next.success r = true /\ option_map id (Next.task r) = Some 2).
    { pose proof E as E'. vm_compute in E'. injection E' as <- _. split; reflexivity. }
    destruct Hr as [Hs Hid].
    assert (Hnd : NoDup (map id l)).
    { repeat constructor; simpl; intuition discriminate. }
    destruct (startNextTask_single_active w _ false (Some "2") r w' eq_refl Hnd E Hs)
      as (d' & x & Hd' & Hx & Hrx & _).
    exists r, w', d', x. repeat split; try assumption. congruence.
  - vm_compute in E. discriminate.
Defined.

(** X13.  In automatic mode [startNextTask] refuses without changing
    anything: with the no-pending failure when no task is pending, and with
    the already-active failure, naming the first task in progress, when a
    task is pending while another is in progress. *)
Theorem startNextTask_auto_refuses (w : World) (d : TasksData)
    (target : option string) :
  tasksFile w = Content d ->
  ((forall t, In t (tasks d) -> is_pending t = false) ->
   Next.startNextTask true target w = Returned (Next.failure Next.NoPending) w)
  /\ (forall t active others,
        In t (tasks d) -> is_pending t = true ->
        filter is_in_progress (tasks d) = active :: others ->
        Next.startNextTask true target w
        = Returned {| Next.success := false;
                      Next.message := Next.AlreadyActive (id active) (title active);
                      Next.task := None; Next.currentTask := Some active;
                      Next.copilotContext := None |} w).
Proof.
  intros Hd. split.
  - intros Hnone. unfold Next.startNextTask.
    unfold bind at 1. rewrite next_loadTasks_run, Hd.
    rewrite (bind_returned _ _ _ _ _ (Next_getNextTask_first_pending w d Hd)).
    assert (Hf : filter is_pending (tasks d) = []).
    { destruct (filter is_pending (tasks d)) as [| x l] eqn:Hf; [reflexivity |].
      assert (In x (filter is_pending (tasks d))) as Hin by (rewrite Hf; now left).
      apply filter_In in Hin as [Hin Hp]. rewrite (Hnone x Hin) in Hp. discriminate. }
    now rewrite Hf.
  - intros t active others Ht Hp Ha. unfold Next.startNextTask.
    unfold bind at 1. rewrite next_loadTasks_run, Hd.
    rewrite (bind_returned _ _ _ _ _ (Next_getNextTask_first_pending w d Hd)).
    destruct (filter is_pending (tasks d)) as [| x l] eqn:Hf.
    + assert (In t (filter is_pending (tasks d))) as Hin by (apply filter_In; tauto).
      rewrite Hf in Hin. destruct Hin.
    + cbn [hd_error].
      rewrite (bind_returned _ _ _ _ _ (getCurrentTask_content _ _ Hd)).
      now rewrite Ha.
Qed.

(** Witness of [startNextTask_auto_refuses]: the sample store, where task 1
    is in progress and task 2 is pending. *)
Lemma startNextTask_auto_refuses_witness :
  let w := Sample.store Sample.two_tasks Sample.active_context in
  Next.startNextTask true None w
  = Returned {| Next.success := false;
                Next.message := Next.AlreadyActive 1 "A";
                Next.task := None;
                Next.currentTask := Some (Sample.task 1 "A" in_progress 1 []);
                Next.copilotContext := None |} w
  /\ Next.startNextTask true None (Sample.store Sample.active_and_done Sample.emptyContext)
     = Returned (Next.failure Next.NoPending)
         (Sample.store Sample.active_and_done Sample.emptyContext).
Proof.
  intros w. split.
  - refine (proj2 (startNextTask_auto_refuses w _ None eq_refl)
              (Sample.task 2 "B" pending 2
                 [Sample.sub "2.1" "first" done; Sample.sub "2.2" "second" pending])
              _ [] _ eq_refl eq_refl).
    right. now left.
  - apply (proj1 (startNextTask_auto_refuses
                    (Sample.store Sample.active_and_done Sample.emptyContext)
                    {| project := "demo"; version := "1.0.0";
                       tasks := Sample.active_and_done |} None eq_refl)).
    intros t [<- | [<- | []]]; reflexivity.
Defined.

(** ** Ids printed and read back *)

Lemma includes_dot_string_of_uint (d : Decimal.uint) :
  JS.includes "." (NilEmpty.string_of_uint d) = false.
Proof. induction d; simpl; [reflexivity | ..]; exact IHd. Qed.

Lemma includes_dot_decimal (n : Z) : JS.includes "." (JS.decimal n) = false.
Proof.
  unfold JS.decimal. destruct n as [| p | p]; [reflexivity | |];
    cbn [Z.to_int NilZero.string_of_int];
    rewrite (NilZero_string_of_uint_nonnil _ (DecimalPos.Unsigned.to_uint_nonnil p)).
  - apply includes_dot_string_of_uint.
  - simpl. apply includes_dot_string_of_uint.
Qed.

Lemma toString_nonempty (n : Z) : JS.toString n <> EmptyString.
Proof.
  intros H. pose proof (toString_head n) as Hh. rewrite H in Hh. discriminate.
Qed.

(** X15.  [prepareTaskContextForCopilot], called with a numeric id that is
    a safe integer (below [2^53] in magnitude), finds the stored task of
    that id although it passes the id through [parseInt], which prints it
    and reads it back; it leaves the task store alone, and returns [null]
    for an id that is not in the store without touching anything. *)
Theorem prepareTaskContextForCopilot_finds (w : World) (d : TasksData) (n : Z) :
  tasksFile w = Content d ->
  JS.safe n ->
  (forall t, JS.find (is_task (Some n)) (tasks d) = Some t ->
     exists history w',
       ContextTracker.prepareTaskContextForCopilot n w
       = Returned (Some {| ContextTracker.cc_task := t;
                           ContextTracker.cc_history := history |}) w'
       /\ same_tasks w w'
       /\ (forall c, contextFile w = Content c ->
           w' = w
           /\ history = Some (filter (fun e => JS.num_eq (Data.taskId e) (Some n))
                                     (taskHistory c))))
  /\ (JS.find (is_task (Some n)) (tasks d) = None ->
      ContextTracker.prepareTaskContextForCopilot n w = Returned None w).
Proof.
  intros Hd Hsafe.
  assert (Hrun : ContextTracker.prepareTaskContextForCopilot n w
                 = match JS.find (is_task (Some n)) (tasks d) with
                   | None => Returned None w
                   | Some task =>
                       bind (ContextTracker.getTaskHistory (Some n))
                         (fun history =>
                            ret (Some {| ContextTracker.cc_task := task;
                                         ContextTracker.cc_history := history |})) w
                   end).
  { unfold ContextTracker.prepareTaskContextForCopilot, ContextTracker.loadTasks.
    unfold bind at 1 2. unfold readTasksFile at 1. rewrite Hd. unfold ret at 1.
    rewrite (parseInt_toString n Hsafe).
    now destruct (JS.find (is_task (Some n)) (tasks d)). }
  rewrite Hrun. split.
  - intros t Ht. rewrite Ht.
    destruct (keeps_getTaskHistory (Some n) w) as (h & w' & E & S).
    rewrite (bind_returned _ _ _ _ _ E).
    exists h, w'. split; [reflexivity |]. split; [exact S |].
    intros c Hc. revert E. unfold ContextTracker.getTaskHistory.
    rewrite (bind_returned _ _ _ _ _ (loadContext_content _ _ Hc)).
    now intros [= <- <-].
  - now intros ->.
Qed.

(** Witness of [prepareTaskContextForCopilot_finds] on task 2 of the sample
    store. *)
Lemma prepareTaskContextForCopilot_finds_witness :
  let w := Sample.store Sample.two_tasks Sample.emptyContext in
  exists history w',
    ContextTracker.prepareTaskContextForCopilot 2 w
    = Returned (Some {| ContextTracker.cc_task :=
                          Sample.task 2 "B" pending 2
                            [Sample.sub "2.1" "first" done;
                             Sample.sub "2.2" "second" pending];
                        ContextTracker.cc_history := history |}) w'
    /\ same_tasks w w'.
Proof.
  intros w.
  destruct (proj1 (prepareTaskContextForCopilot_finds w _ 2 eq_refl eq_refl) _ eq_refl)
    as (h & w' & E & S & _).
  exists h, w'. split; assumption.
Defined.

(** X16.  The id of a task, printed with [toString] as the chat does before
    it calls complete.js, addresses that task when it is a safe integer
    (below [2^53] in magnitude; negative or zero included): on a writable
    store [completeTaskWithContextUpdate] leaves the task done and
    [startTaskExecution] leaves it in progress. *)
Theorem printed_id_addresses_task (w : World) (d : TasksData) (n : Z)
    (summary : option string) (t : Task) :
  tasksFile w = Content d -> tasksWritable w = true ->
  JS.safe n ->
  JS.find (is_task (Some n)) (tasks d) = Some t ->
  (exists r w',
     Complete.completeTaskWithContextUpdate (JS.toString n) summary w = Returned r w'
     /\ stored (Some n) (fun t' => status t' = done) w')
  /\ (exists w',
        Complete.startTaskExecution (Some (JS.toString n)) w
        = Returned (Complete.ReportStarted (id t) (title t)) w'
        /\ stored (Some n) (fun t' => status t' = in_progress) w').
Proof.
  intros Hd Hw Hsafe Ht.
  pose proof (parseInt_toString n Hsafe) as Hp.
  assert (Ht' : JS.find (is_task (JS.parseInt (JS.toString n))) (tasks d) = Some t)
    by (now rewrite Hp).
  assert (Hdot : JS.includes "." (JS.toString n) = false)
    by (rewrite (toString_safe n Hsafe); apply includes_dot_decimal).
  split.
  - destruct (completeMainTask_stored w d (JS.toString n) summary t Hd Hw Hdot Ht')
      as (r & w' & E & Hw' & d' & t' & Hd' & Hf' & _ & Hs).
    exists r, w'. split; [exact E |]. rewrite Hp in Hf'.
    split; [exact Hw' |]. now exists d', t'.
  - destruct (startTaskExecution_starts w d (JS.toString n) t Hd Hw
                (toString_nonempty n) Ht')
      as (w' & E & S).
    exists w'. split; [exact E |]. now rewrite Hp in S.
Qed.

(** Witness of [printed_id_addresses_task] on task 2 of the sample
    store. *)
Lemma printed_id_addresses_task_witness :
  let w := Sample.store Sample.two_tasks Sample.active_context in
  exists r w',
    Complete.completeTaskWithContextUpdate "2" None w = Returned r w'
    /\ stored (Some 2) (fun t' => status t' = done) w'.
Proof.
  intros w.
  exact (proj1 (printed_id_addresses_task w _ 2 None _ eq_refl eq_refl eq_refl eq_refl)).
Defined.

(** ** [suggestTaskExecution] *)

Lemma ct_loadTasks_content (w : World) (d : TasksData) :
  tasksFile w = Content d -> ContextTracker.loadTasks w = Returned (Some d) w.
Proof.
  intros Hd. unfold ContextTracker.loadTasks, bind, readTasksFile. now rewrite Hd.
Qed.

(** X17.  On loaded documents [suggestTaskExecution] changes nothing, and
    its answer is read off the recorded active task.  A suggestion to
    continue names the recorded active task, whose id is not 0 and which is
    in the store, whatever its status.  A suggestion to start is made only
    when no active task is recorded (the record is [null], or the id 0,
    which counts as none) and names the scheduler's choice.  There is no
    suggestion when the recorded active task is not in the store, or when
    none is recorded and no task is pending. *)
Theorem suggestTaskExecution_sound (w : World) (d : TasksData) (c : Context) :
  tasksFile w = Content d -> contextFile w = Content c ->
  exists r,
    ContextTracker.suggestTaskExecution w = Returned r w
    /\ match r with
       | Some s =>
           match ContextTracker.sg_type s with
           | ContextTracker.Continue =>
               ContextTracker.sg_taskId s <> 0
               /\ activeTask (currentContext c) = Some (Some (ContextTracker.sg_taskId s))
               /\ exists t,
                    JS.find (is_task (Some (ContextTracker.sg_taskId s))) (tasks d) = Some t
                    /\ ContextTracker.sg_title s = title t
           | ContextTracker.Start =>
               JS.truthy_number (activeTask (currentContext c)) = false
               /\ exists x,
                    next_contract (tasks d) (Some x)
                    /\ ContextTracker.sg_taskId s = id x
                    /\ ContextTracker.sg_title s = title x
           end
       | None =>
           if JS.truthy_number (activeTask (currentContext c))
           then forall t, In t (tasks d)
                          -> activeTask (currentContext c) <> Some (Some (id t))
           else forall t, In t (tasks d) -> is_pending t = false
       end.
Proof.
  intros Hd Hc. unfold ContextTracker.suggestTaskExecution.
  rewrite (bind_returned _ _ _ _ _ (loadContext_content _ _ Hc)).
  destruct (JS.truthy_number (activeTask (currentContext c))) eqn:Ha.
  - rewrite (bind_returned _ _ _ _ _ (ct_loadTasks_content _ _ Hd)).
    destruct (activeTask (currentContext c)) as [[n |] |] eqn:Hn; try discriminate.
    simpl in Ha.
    change (ContextTracker.is_active (Some (Some n))) with (is_task (Some n)).
    destruct (JS.find (is_task (Some n)) (tasks d)) as [t |] eqn:Hf.
    + exists (Some {| ContextTracker.sg_taskId := id t;
                      ContextTracker.sg_title := title t;
                      ContextTracker.sg_type := ContextTracker.Continue |}).
      split; [reflexivity |]. simpl.
      pose proof (is_task_found _ _ _ Hf) as Hid. injection Hid as <-.
      split; [| split; [reflexivity |]].
      * intros H0. rewrite H0 in Ha. discriminate.
      * exists t. split; [exact Hf | reflexivity].
    + exists None. split; [reflexivity |]. intros t Hin Heq. injection Heq as ->.
      apply (List.find_none _ _ Hf) in Hin.
      unfold is_task, JS.num_eq in Hin. rewrite Z.eqb_refl in Hin. discriminate.
  - rewrite (bind_returned _ _ _ _ _ (getNextTask_front _ _ Hd)).
    pose proof (front_contract (tasks d)) as Hk.
    destruct (front ContextTracker.by_priority (filter is_pending (tasks d)))
      as [x |] eqn:Hx.
    + exists (Some {| ContextTracker.sg_taskId := id x;
                      ContextTracker.sg_title := title x;
                      ContextTracker.sg_type := ContextTracker.Start |}).
      split; [reflexivity |]. simpl. split; [reflexivity |].
      exists x. split; [exact Hk |]. split; reflexivity.
    + exists None. split; [reflexivity |]. exact Hk.
Qed.

(** Witness of [suggestTaskExecution_sound]: task 1 of the sample store is
    the recorded active task, and continuing it is suggested. *)
Lemma suggestTaskExecution_sound_witness :
  exists r,
    ContextTracker.suggestTaskExecution
      (Sample.store Sample.two_tasks Sample.active_context)
    = Returned r (Sample.store Sample.two_tasks Sample.active_context)
    /\ option_map ContextTracker.sg_type r = Some ContextTracker.Continue
    /\ option_map ContextTracker.sg_taskId r = Some 1.
Proof.
  destruct (suggestTaskExecution_sound
              (Sample.store Sample.two_tasks Sample.active_context)
              {| project := "demo"; version := "1.0.0"; tasks := Sample.two_tasks |}
              Sample.active_context eq_refl eq_refl) as (r & E & _).
  exists r. split; [exact E |].
  pose proof E as E'. vm_compute in E'. injection E' as <-. split; reflexivity.
Defined.

(** ** Starting a task: what the history records *)

(** [startTaskExecution] on loaded, writable documents and a known id. *)
Lemma startTaskExecution_ready (w : World) (d : TasksData) (c : Context)
    (taskId : string) (t : Task) :
  ready w d c -> taskId <> EmptyString ->
  JS.find (is_task (JS.parseInt taskId)) (tasks d) = Some t ->
  exists w' d' c' e t',
    Complete.startTaskExecution (Some taskId) w
    = Returned (Complete.ReportStarted (id t) (title t)) w'
    /\ ready w' d' c'
    /\ JS.find (is_task (JS.parseInt taskId)) (tasks d') = Some t'
    /\ status t' = in_progress
    /\ map id (tasks d') = map id (tasks d)
    /\ taskHistory c' = taskHistory c ++ [e]
    /\ recorded e = (JS.parseInt taskId, update, Some (in_progress, in_progress))
    /\ activeTask (currentContext c') = activeTask (currentContext c).
Proof.
  intros (Hd & Hw & Hc & Hcw) Hne Ht.
  pose proof (is_task_found _ _ _ Ht) as Hn.
  unfold Complete.startTaskExecution. cbn [JS.parseIntArg].
  rewrite (bind_returned _ _ _ _ _ (loadTasks_content _ _ Hd)).
  rewrite (truthy_nonempty _ Hne).
  unfold bind at 1. unfold ret at 1. rewrite Ht.
  unfold bind at 1. unfold now at 1.
  set (task' := set_updated_at _ _).
  assert (Hid : Some (id task') = JS.parseInt taskId) by (now rewrite Hn).
  rewrite Hid.
  assert (Hp' : is_task (JS.parseInt taskId) task' = true).
  { apply find_in in Ht. now destruct Ht. }
  pose proof (find_mutate_found _ (fun _ => task') _ _ Ht Hp') as Hf.
  destruct (JS.findIndex (is_task (JS.parseInt taskId))
              (JS.mutate_found (is_task (JS.parseInt taskId)) (fun _ => task') (tasks d)))
    as [i |] eqn:Hi.
  2: { apply findIndex_find in Hi. congruence. }
  rewrite (assign_findIndex _ _ _ _ Hi).
  rewrite mutate_found_twice by (intros; exact Hp').
  assert (Hw1 : tasksWritable (tick w) = true) by exact Hw.
  rewrite (bind_returned _ _ _ _ _ (saveTasks_writable _ _ Hw1)).
  set (d1 := set_tasks _ d).
  set (w1 := put_tasksFile _ _).
  assert (R1 : ready w1 d1 c) by (repeat split; assumption).
  assert (Hf1 : JS.find (is_task (JS.parseInt taskId)) (tasks d1) = Some task')
    by exact Hf.
  clearbody w1.
  destruct (updateTaskStatus_ready _ in_progress (TxtStarted (title task')) w1 d1 c
              task' R1 Hf1)
    as (w2 & d2 & c2 & e & t2 & E2 & R2 & Hf2 & Hs2 & _ & _ & Hh & He1 & He2 & He3 & Ha).
  rewrite (bind_returned _ _ _ _ _ E2).
  destruct (prepareTaskContextForCopilot_pure (id task') w2 c2) as (r3 & E3).
  { apply R2. }
  rewrite (bind_returned _ _ _ _ _ E3).
  exists w2, d2, c2, e, t2. split; [reflexivity |].
  split; [exact R2 |]. split; [exact Hf2 |]. split; [exact Hs2 |].
  split.
  { pose proof (keeps_ids_updateTaskStatus (JS.parseInt taskId) in_progress
                  (TxtStarted (title task')) w1) as K.
    unfold same_ids in K. rewrite E2 in K. simpl in K.
    destruct R1 as (Hd1 & _). rewrite Hd1 in K.
    destruct K as (d2' & Hd2' & Hm & _).
    destruct R2 as (Hd2 & _). rewrite Hd2 in Hd2'. injection Hd2' as <-.
    rewrite Hm. unfold d1. simpl. apply map_id_mutate_found.
    intros x _ Hx. unfold task'. simpl.
    unfold is_task, JS.num_eq in Hx. rewrite Hn in Hx.
    apply Z.eqb_eq in Hx. congruence. }
  split; [exact Hh |]. split.
  - unfold recorded. rewrite He1, He2, He3. reflexivity.
  - rewrite Ha. reflexivity.
Qed.

(** X18.  A start through complete.js is logged as an update.  On loaded,
    writable documents [startTaskExecution] with a known id puts the task
    in progress and appends exactly one history entry, but the script saves
    the new status before it calls [updateTaskStatus], which therefore
    compares in-progress with in-progress: the entry has the action
    [update], never [start], and the recorded active task stays what it
    was. *)
Theorem start_records_update (w : World) (d : TasksData) (c : Context)
    (taskId : string) (t : Task) :
  ready w d c -> taskId <> EmptyString ->
  JS.find (is_task (JS.parseInt taskId)) (tasks d) = Some t ->
  exists w' d' c' e,
    Complete.startTaskExecution (Some taskId) w
    = Returned (Complete.ReportStarted (id t) (title t)) w'
    /\ ready w' d' c'
    /\ stored (JS.parseInt taskId) (fun t' => status t' = in_progress) w'
    /\ taskHistory c' = taskHistory c ++ [e]
    /\ recorded e = (JS.parseInt taskId, update, Some (in_progress, in_progress))
    /\ activeTask (currentContext c') = activeTask (currentContext c).
Proof.
  intros R Hne Ht.
  destruct (startTaskExecution_ready w d c taskId t R Hne Ht)
    as (w' & d' & c' & e & t' & E & R' & Hf & Hs & _ & Hh & He & Ha).
  exists w', d', c', e.
  split; [exact E |]. split; [exact R' |]. split.
  { split; [apply R' |]. exists d', t'. split; [apply R' |]. now split. }
  split; [exact Hh |]. split; [exact He | exact Ha].
Qed.

(** Witness of [start_records_update]: task 2 of the sample store is
    started while no active task is recorded. *)
Lemma start_records_update_witness :
  exists w' e,
    Complete.startTaskExecution (Some "2")
      (Sample.store Sample.two_tasks Sample.emptyContext)
    = Returned (Complete.ReportStarted 2 "B") w'
    /\ history_of w' = [e]
    /\ action e = update
    /\ active_of w' = None.
Proof.
  destruct (start_records_update
              (Sample.store Sample.two_tasks Sample.emptyContext)
              {| project := "demo"; version := "1.0.0"; tasks := Sample.two_tasks |}
              Sample.emptyContext "2"
              (Sample.task 2 "B" pending 2
                 [Sample.sub "2.1" "first" done; Sample.sub "2.2" "second" pending])
              (conj eq_refl (conj eq_refl (conj eq_refl eq_refl)))
              ltac:(discriminate) eq_refl)
    as (w' & d' & c' & e & E & R' & _ & Hh & He & Ha).
  exists w', e. split; [exact E |].
  unfold history_of, active_of. destruct R' as (_ & _ & -> & _).
  split; [exact Hh |]. split; [| exact Ha].
  unfold recorded in He. now injection He.
Defined.

(** X19.  Start, then ask for a suggestion.  When no active task is
    recorded and a task is started through complete.js, the task is in
    progress afterwards, yet [suggestTaskExecution] does not suggest to
    continue it: it suggests to start a pending task, or nothing when no
    task is pending. *)
Theorem start_then_suggest (w : World) (d : TasksData) (c : Context)
    (taskId : string) (t : Task) :
  ready w d c -> taskId <> EmptyString ->
  JS.find (is_task (JS.parseInt taskId)) (tasks d) = Some t ->
  JS.truthy_number (activeTask (currentContext c)) = false ->
  exists w' d' r,
    Complete.startTaskExecution (Some taskId) w
    = Returned (Complete.ReportStarted (id t) (title t)) w'
    /\ tasksFile w' = Content d'
    /\ stored (JS.parseInt taskId) (fun t' => status t' = in_progress) w'
    /\ ContextTracker.suggestTaskExecution w' = Returned r w'
    /\ match r with
       | Some s =>
           ContextTracker.sg_type s = ContextTracker.Start
           /\ exists x, In x (tasks d') /\ is_pending x = true
                        /\ ContextTracker.sg_taskId s = id x
       | None => forall x, In x (tasks d') -> is_pending x = false
       end.
Proof.
  intros R Hne Ht Hno.
  destruct (startTaskExecution_ready w d c taskId t R Hne Ht)
    as (w' & d' & c' & e & t' & E & R' & Hf & Hs & _ & _ & _ & Ha).
  destruct R' as (Hd' & Hw' & Hc' & Hcw').
  pose proof (front_contract (tasks d')) as Hk.
  exists w', d', (option_map
                    (fun x => {| ContextTracker.sg_taskId := id x;
                                 ContextTracker.sg_title := title x;
                                 ContextTracker.sg_type := ContextTracker.Start |})
                    (front ContextTracker.by_priority (filter is_pending (tasks d')))).
  split; [exact E |]. split; [exact Hd' |]. split.
  { split; [exact Hw' |]. exists d', t'. now split. }
  split.
  - unfold ContextTracker.suggestTaskExecution.
    rewrite (bind_returned _ _ _ _ _ (loadContext_content _ _ Hc')).
    rewrite Ha, Hno.
    rewrite (bind_returned _ _ _ _ _ (getNextTask_front _ _ Hd')).
    now destruct (front ContextTracker.by_priority (filter is_pending (tasks d'))).
  - destruct (front ContextTracker.by_priority (filter is_pending (tasks d')))
      as [x |]; simpl.
    + split; [reflexivity |]. exists x. destruct Hk as (Hp & b & a & Hl & _).
      split; [rewrite Hl; apply in_elt |]. split; [exact Hp | reflexivity].
    + exact Hk.
Qed.

(** Witness of [start_then_suggest]: task 2 of the sample store is started
    and no task is pending afterwards, so nothing is suggested. *)
Lemma start_then_suggest_witness :
  exists w',
    Complete.startTaskExecution (Some "2")
      (Sample.store Sample.two_tasks Sample.emptyContext)
    = Returned (Complete.ReportStarted 2 "B") w'
    /\ ContextTracker.suggestTaskExecution w' = Returned None w'.
Proof.
  destruct (start_then_suggest
              (Sample.store Sample.two_tasks Sample.emptyContext)
              {| project := "demo"; version := "1.0.0"; tasks := Sample.two_tasks |}
              Sample.emptyContext "2"
              (Sample.task 2 "B" pending 2
                 [Sample.sub "2.1" "first" done; Sample.sub "2.2" "second" pending])
              (conj eq_refl (conj eq_refl (conj eq_refl eq_refl)))
              ltac:(discriminate) eq_refl eq_refl)
    as (w' & d' & r & E & _ & _ & Es & _).
  exists w'. split; [exact E |].
  pose proof E as E'. vm_compute in E'. injection E' as <-.
  pose proof Es as Es'. vm_compute in Es'. injection Es' as <-. exact Es.
Defined.

(** ** The context script: completing a task *)

(** X20.  Completing through the context script, on loaded, writable
    documents, for a task that is not yet done and with a summary that is
    not empty; the id is given by any token that [parseInt] reads as the
    task's id, its decimal numeral for one.  The id 0 is refused as a
    missing id and nothing changes.  For any other id the task becomes done
    with its subtasks left exactly as they were (nothing forces them to
    done), the history gains one [complete] entry carrying the old status,
    and the recorded active task is cleared: the script calls
    [updateTaskStatus] without saving the status first. *)
Theorem context_complete_records (w : World) (d : TasksData) (c : Context)
    (token : string) (n : Z) (words : list string) (t : Task) :
  ready w d c ->
  JS.parseInt token = Some n ->
  String.concat " " words <> EmptyString ->
  JS.find (is_task (Some n)) (tasks d) = Some t ->
  status t <> done ->
  if n =? 0
  then ContextScript.complete ("complete" :: token :: words) w
       = Returned ContextScript.NeedsTaskId w
  else
    exists w' d' c' e t',
      ContextScript.complete ("complete" :: token :: words) w
      = Returned (ContextScript.Completed (Some n)) w'
      /\ ready w' d' c'
      /\ JS.find (is_task (Some n)) (tasks d') = Some t'
      /\ status t' = done
      /\ subtasks t' = subtasks t
      /\ taskHistory c' = taskHistory c ++ [e]
      /\ recorded e = (Some n, complete, Some (status t, done))
      /\ activeTask (currentContext c') = None.
Proof.
  intros R Hp Hsum Ht Hnd.
  assert (Hne : token <> EmptyString) by (intros ->; discriminate).
  unfold ContextScript.complete, ContextScript.taskId_of.
  cbn [JS.item nth_error].
  rewrite (truthy_nonempty _ Hne).
  cbn [JS.parseIntArg]. rewrite Hp. cbn [JS.truthy_number].
  destruct (n =? 0); [reflexivity |].
  cbn [negb skipn]. unfold ContextScript.completeTask.
  destruct (String.concat " " words) as [| a s] eqn:Hw; [congruence |].
  destruct (updateTaskStatus_ready (Some n) done (Lit (String a s)) w d c t R Ht)
    as (w' & d' & c' & e & t' & E & R' & Hf & Hs & Hsub & _ & Hh & He1 & He2 & He3 & Ha).
  rewrite (bind_returned _ _ _ _ _ E).
  assert (Hact : ContextTracker.action_for (status t) done = complete)
    by (destruct (status t); try reflexivity; congruence).
  exists w', d', c', e, t'.
  split; [reflexivity |]. split; [exact R' |]. split; [exact Hf |].
  split; [exact Hs |]. split; [exact Hsub |]. split; [exact Hh |].
  split.
  - unfold recorded. now rewrite He1, He2, He3, Hact.
  - now rewrite Ha, Hact.
Qed.

(** Witness of [context_complete_records]: task 2 of the sample store is
    completed while its subtask 2.2 is pending, and stays so. *)
Lemma context_complete_records_witness :
  exists w' e,
    ContextScript.complete ["complete"; "2"; "all"; "done"]
      (Sample.store Sample.two_tasks Sample.active_context)
    = Returned (ContextScript.Completed (Some 2)) w'
    /\ statuses w' = [(1, in_progress, []); (2, done, [done; pending])]
    /\ history_of w' = [e]
    /\ action e = complete
    /\ active_of w' = None.
Proof.
  pose proof (context_complete_records
                (Sample.store Sample.two_tasks Sample.active_context)
                {| project := "demo"; version := "1.0.0"; tasks := Sample.two_tasks |}
                Sample.active_context "2" 2 ["all"; "done"]
                (Sample.task 2 "B" pending 2
                   [Sample.sub "2.1" "first" done; Sample.sub "2.2" "second" pending])
                (conj eq_refl (conj eq_refl (conj eq_refl eq_refl)))
                eq_refl ltac:(discriminate) eq_refl ltac:(discriminate)) as H.
  cbn [Z.eqb Pos.eqb] in H.
  destruct H as (w' & d' & c' & e & t' & E & R' & _ & _ & _ & Hh & He & Ha).
  exists w', e. split; [exact E |].
  split.
  { pose proof E as E'. vm_compute in E'. injection E' as <-. reflexivity. }
  unfold history_of, active_of. destruct R' as (_ & _ & -> & _).
  split; [exact Hh |]. split; [| exact Ha].
  unfold recorded in He. now injection He.
Defined.

(** ** chat.js: asking for the next task *)






(** ** chat.js: creating tasks *)








(** ** chat.js: tasks from a plan *)











